(** * Paper_Agent: the guaranteed-count download core

    A shallow embedding of the retrieval core of the repository:
    - [src/models.py]: [DownloadStatus], [JournalType], [Paper] with
      [to_dict] and [from_dict], the counters of [ProcessingStats] with
      [get_success_rate];
    - [src/utils/utils.py]: [is_elsevier_doi], [RateLimiter.wait_if_needed],
      [retry_on_failure], [validate_material_id], [safe_filename],
      [chunk_list];
    - [src/clients/download_client.py]: [AnnaArchiveDownloader._download_from_url],
      [AnnaArchiveDownloader._download_by_md5], [DownloadManager.download_paper];
    - [src/core/smart_download_manager.py]: the whole [SmartDownloadManager];
    - [src/main.py]: [_is_retryable_error], [_safe_filename],
      [_download_pdfs], [_analyze_pdfs].

    Conventions of the embedding.
    - Python [int] is [Z].  A Python [float] is a finite double, held as
      the rational it denotes ([Q]); infinities and NaN are outside the
      model.  The arithmetic of the priority score is that of doubles:
      every operation rounds its exact result to the nearest double, ties
      to even ([Float]), and an [int] too large for a double raises
      [OverflowError] when it is converted.  Seconds (clock readings,
      delays) and the success rate are computed exactly.
    - [str] is [string], a sequence of code points below 256 ([lower]
      being that of ASCII); [bytes] is [list byte].
    - [Paper] objects are mutable and shared between lists, so papers live in
      a store indexed by object identity ([ref]); a Python list of papers is
      a [list ref].
    - Exceptions are values of [exn]; a computation returns [res A] together
      with the store it leaves behind (a raise keeps the mutations made so
      far, as in Python).
    - The network and the file system are oracles ([Providers], [Network]),
      the making of the PDF folder included;
      [print] and [logger] calls are dropped unless evaluating their
      argument can raise. *)

From Stdlib Require Import ZArith QArith Qabs Qminmax List String Ascii Bool Lia Lqa.
From Stdlib Require Import Permutation Sorted Strings.Byte DecimalString.
Import ListNotations.

Set Implicit Arguments.

(* ================================================================== *)
(** * Python helpers *)
(* ================================================================== *)

Module Py.

(** [xs[:n]] for an [int] [n]: a negative [n] counts from the end. *)
Definition slice_to {A} (xs : list A) (n : Z) : list A :=
  if (0 <=? n)%Z then firstn (Z.to_nat n) xs
  else firstn (List.length xs - Z.to_nat (- n)) xs.

(** [len(xs)] as an [int]. *)
Definition len {A} (xs : list A) : Z := Z.of_nat (List.length xs).

(** [c.lower()] on one ASCII character. *)
Definition lower_ascii (c : ascii) : ascii :=
  let n := nat_of_ascii c in
  if andb (65 <=? n)%nat (n <=? 90)%nat then ascii_of_nat (n + 32) else c.

(** [s.lower()]. *)
Fixpoint lower (s : string) : string :=
  match s with
  | EmptyString => EmptyString
  | String c s' => String (lower_ascii c) (lower s')
  end.

(** [s.startswith(p)]. *)
Definition startswith (s p : string) : bool := String.prefix p s.

(** [xs] begins with [p], on lists. *)
Fixpoint list_prefix {A} (eqb : A -> A -> bool) (p xs : list A) : bool :=
  match p, xs with
  | [], _ => true
  | a :: p', b :: xs' => eqb a b && list_prefix eqb p' xs'
  | _ :: _, [] => false
  end.

(** [p in xs] for byte strings and strings: [p] occurs as a contiguous
    block. *)
Fixpoint list_infix {A} (eqb : A -> A -> bool) (p xs : list A) : bool :=
  list_prefix eqb p xs
  || match xs with
     | [] => false
     | _ :: xs' => list_infix eqb p xs'
     end.

(** [sub in s] on strings. *)
Definition str_contains (s sub : string) : bool :=
  list_infix Ascii.eqb (list_ascii_of_string sub) (list_ascii_of_string s).

(** [any(s.startswith(p) for p in ps)]. *)
Definition startswith_any (s : string) (ps : list string) : bool :=
  existsb (startswith s) ps.

(** [min(a, b)] on floats: the first argument unless the second is
    strictly smaller. *)
Definition min (a b : Q) : Q := if Qle_bool a b then a else b.

(** [xs[a:b]]: a negative bound counts from the end, and both bounds are
    clamped to the list. *)
Definition slice {A} (xs : list A) (a b : Z) : list A :=
  let n := len xs in
  let clamp := fun i : Z => if (i <? 0)%Z then Z.max 0 (i + n) else Z.min i n in
  firstn (Z.to_nat (clamp b - clamp a)) (skipn (Z.to_nat (clamp a)) xs).

(** [s[:n]] on strings. *)
Definition str_slice_to (s : string) (n : Z) : string :=
  string_of_list_ascii (slice_to (list_ascii_of_string s) n).

(** [c.isspace()] on a code point below 256: what [str.strip()] removes
    and what [\s] matches. *)
Definition isspace (c : ascii) : bool :=
  let n := nat_of_ascii c in
  ((9 <=? n)%nat && (n <=? 13)%nat) || ((28 <=? n)%nat && (n <=? 32)%nat)
  || (n =? 133)%nat || (n =? 160)%nat.

(** [c.isdigit()] on a code point below 256: the ten digits and the
    superscripts one, two and three. *)
Definition isdigit_char (c : ascii) : bool :=
  let n := nat_of_ascii c in
  ((48 <=? n)%nat && (n <=? 57)%nat) || (n =? 178)%nat || (n =? 179)%nat || (n =? 185)%nat.

Fixpoint all_chars (f : ascii -> bool) (s : string) : bool :=
  match s with
  | EmptyString => true
  | String c s' => f c && all_chars f s'
  end.

(** [s.isdigit()]: false on the empty string. *)
Definition isdigit (s : string) : bool :=
  match s with
  | EmptyString => false
  | String _ _ => all_chars isdigit_char s
  end.

(** [s.lstrip(...)], the characters to remove being those [f] accepts. *)
Fixpoint lstrip (f : ascii -> bool) (s : string) : string :=
  match s with
  | EmptyString => EmptyString
  | String c s' => if f c then lstrip f s' else s
  end.

(** [s.rstrip(...)]. *)
Fixpoint rstrip (f : ascii -> bool) (s : string) : string :=
  match s with
  | EmptyString => EmptyString
  | String c s' =>
      match rstrip f s' with
      | EmptyString => if f c then EmptyString else String c EmptyString
      | String c' r => String c (String c' r)
      end
  end.

(** [s.strip(chars)]: [chars] as a list of characters. *)
Definition strip_chars (chars : list ascii) (s : string) : string :=
  lstrip (fun c => existsb (Ascii.eqb c) chars)
         (rstrip (fun c => existsb (Ascii.eqb c) chars) s).

(** [s.rstrip(chars)]. *)
Definition rstrip_chars (chars : list ascii) (s : string) : string :=
  rstrip (fun c => existsb (Ascii.eqb c) chars) s.

(** [s.strip()]. *)
Definition strip (s : string) : string := lstrip isspace (rstrip isspace s).


End Py.

(* ================================================================== *)
(** * Exceptions and the state-and-exception monad *)
(* ================================================================== *)

(** An exception object: its class name and its message ([str(e)]).  Every
    class used by the code derives from [Exception]. *)
Record exn := mkExn { exn_class : string; exn_msg : string }.

Definition IndexError : exn := mkExn "IndexError" "list index out of range".
Definition ValueError (msg : string) : exn := mkExn "ValueError" msg.
Definition NetworkError (msg : string) : exn := mkExn "NetworkError" msg.
Definition Exception (msg : string) : exn := mkExn "Exception" msg.
Definition OverflowError : exn :=
  mkExn "OverflowError" "int too large to convert to float".

Inductive res (A : Type) : Type :=
| Ok (a : A)
| Exc (e : exn).
Arguments Ok {A} a.
Arguments Exc {A} e.

(** A computation over a state [S] that may raise. *)
Definition M (S A : Type) : Type := S -> res A * S.

Definition ret {S A} (a : A) : M S A := fun s => (Ok a, s).

Definition raise {S A} (e : exn) : M S A := fun s => (Exc e, s).

Definition bind {S A B} (m : M S A) (k : A -> M S B) : M S B :=
  fun s =>
    match m s with
    | (Ok a, s') => k a s'
    | (Exc e, s') => (Exc e, s')
    end.

(** [try: m  except Exception as e: h e]. *)
Definition try_except {S A} (m : M S A) (h : exn -> M S A) : M S A :=
  fun s =>
    match m s with
    | (Ok a, s') => (Ok a, s')
    | (Exc e, s') => h e s'
    end.

(** [try: m  finally: f].  The [finally] block runs on every exit of [m],
    a [return] included; what [m] returned or raised stands unless [f]
    itself raises. *)
Definition try_finally {S A} (m : M S A) (f : M S unit) : M S A :=
  fun s =>
    match m s with
    | (r, s') =>
        match f s' with
        | (Ok _, s'') => (r, s'')
        | (Exc e, s'') => (Exc e, s'')
        end
    end.

Definition modify {S} (f : S -> S) : M S unit := fun s => (Ok tt, f s).

Definition gets {S A} (f : S -> A) : M S A := fun s => (Ok (f s), s).

(** A value or an exception that does not depend on the state. *)
Definition lift {S A} (r : res A) : M S A := fun s => (r, s).

Declare Scope py_scope.
Delimit Scope py_scope with py.
Notation "x <- m ;; k" := (bind m (fun x => k))
  (at level 61, m at next level, right associativity) : py_scope.
Notation "m ;; k" := (bind m (fun _ => k))
  (at level 61, right associativity) : py_scope.

(* ================================================================== *)
(** * Double-precision arithmetic *)
(* ================================================================== *)

(** The operations of Python's [float] on finite doubles.  A double is
    held as the rational it denotes; an operation computes the exact
    result and rounds it to the nearest double, ties to the even
    significand (IEEE 754 binary64, round-half-even). *)
Module Float.

(** The exponent of the smallest positive double, [2 ** -1074]. *)
Definition ulp_min : Z := -1074.

(** [floor (log2 (n / d))]. *)
Definition ilog2 (n d : positive) : Z :=
  let e := (Z.log2 (Zpos n) - Z.log2 (Zpos d))%Z in
  let below :=
    if (0 <=? e)%Z then (Zpos n <? Zpos d * 2 ^ e)%Z
    else (Zpos n * 2 ^ (- e) <? Zpos d)%Z in
  if below then (e - 1)%Z else e.

(** The integer nearest to [num / den], the even one of two equally
    near. *)
Definition nearest_even (num den : Z) : Z :=
  let m := (num / den)%Z in
  let r := (num mod den)%Z in
  match (2 * r ?= den)%Z with
  | Lt => m
  | Gt => (m + 1)%Z
  | Eq => if Z.even m then m else (m + 1)%Z
  end.

(** [m * 2 ** ex], in lowest terms. *)
Definition scale (m ex : Z) : Q :=
  if (0 <=? ex)%Z then inject_Z (m * 2 ^ ex)
  else Qred (Qmake m (Z.to_pos (2 ^ (- ex)))).

(** [n / d] rounded to 53 significant bits, or to a multiple of
    [2 ** -1074] where that is coarser (the subnormal range). *)
Definition round_magnitude (n d : positive) : Q :=
  let ex := Z.max (ilog2 n d - 52) ulp_min in
  let m :=
    if (0 <=? ex)%Z then nearest_even (Zpos n) (Zpos d * 2 ^ ex)
    else nearest_even (Zpos n * 2 ^ (- ex)) (Zpos d) in
  scale m ex.

(** The double nearest to [q], the exponent range being unbounded above:
    a result of magnitude [2 ** 1024] or more stands for an overflow. *)
Definition round64 (q : Q) : Q :=
  match Qnum q with
  | Z0 => 0
  | Zpos n => round_magnitude n (Qden q)
  | Zneg n => - round_magnitude n (Qden q)
  end.

(** The double that a decimal literal denotes. *)
Definition lit (q : Q) : Q := round64 q.

(** [x + y] and [x / y] on floats ([y] is not zero where the code
    divides). *)
Definition add (x y : Q) : Q := round64 (x + y).

Definition div (x y : Q) : Q := round64 (x / y).

(** Whether [float(n)] exists for the [int] [n]: the nearest double is
    within range. *)
Definition int_fits (n : Z) : bool :=
  negb (Qle_bool (inject_Z (2 ^ 1024)) (Qabs (round64 (inject_Z n)))).

(** [float(n)], the conversion that [n / y] applies to its [int]
    operand. *)
Definition of_int (n : Z) : res Q :=
  if int_fits n then Ok (round64 (inject_Z n)) else Exc OverflowError.

(** [n / y] for an [int] [n] and a float [y]. *)
Definition int_truediv (n : Z) (y : Q) : res Q :=
  match of_int n with
  | Ok x => Ok (div x y)
  | Exc e => Exc e
  end.

End Float.

(* ================================================================== *)
(** * The two [re.sub] calls of the file-name sanitisers *)
(* ================================================================== *)

Module Re.

(** The characters of the class the first [re.sub] replaces: the angle
    brackets, the colon, the double quote, both slashes, the bar, the
    question mark and the star. *)
Definition unsafe_chars : list ascii :=
  [ "<"; ">"; ":"; "034"; "/"; "092"; "|"; "?"; "*" ]%char.

Definition is_unsafe (c : ascii) : bool := existsb (Ascii.eqb c) unsafe_chars.

(** The first [re.sub]: every character of the class becomes an
    underscore. *)
Fixpoint sub_unsafe (text : string) : string :=
  match text with
  | EmptyString => EmptyString
  | String c s => String (if is_unsafe c then "_"%char else c) (sub_unsafe s)
  end.

(** [re.sub(r'\s+', '_', text)]: every maximal run of whitespace becomes
    one underscore.  [in_run] tells that the character before was
    whitespace, so that the run has its underscore already. *)
Fixpoint sub_spaces_from (in_run : bool) (text : string) : string :=
  match text with
  | EmptyString => EmptyString
  | String c s =>
      if Py.isspace c then
        if in_run then sub_spaces_from true s
        else String "_"%char (sub_spaces_from true s)
      else String c (sub_spaces_from false s)
  end.

Definition sub_spaces (text : string) : string := sub_spaces_from false text.

End Re.


(* ================================================================== *)
(** * [src/models.py] *)
(* ================================================================== *)

Inductive DownloadStatus : Set :=
| PENDING | DOWNLOADING | DOWNLOADED | FAILED | SKIPPED.

Inductive JournalType : Set :=
| ELSEVIER | NON_ELSEVIER | UNKNOWN.

Record Paper := mkPaper {
  title : string;
  doi : string;
  authors : list string;
  journal : string;
  year : Z;
  citation_count : Z;
  abstract : string;
  paper_index : Z;
  relevance_score : Q;
  priority_score : Q;
  is_selected : bool;
  journal_type : JournalType;
  download_status : DownloadStatus;
  pdf_filename : string;
  pdf_size : Z;
  analysis_completed : bool
}.

Definition DownloadStatus_eqb (a b : DownloadStatus) : bool :=
  match a, b with
  | PENDING, PENDING | DOWNLOADING, DOWNLOADING | DOWNLOADED, DOWNLOADED
  | FAILED, FAILED | SKIPPED, SKIPPED => true
  | _, _ => false
  end.

Definition JournalType_eqb (a b : JournalType) : bool :=
  match a, b with
  | ELSEVIER, ELSEVIER | NON_ELSEVIER, NON_ELSEVIER | UNKNOWN, UNKNOWN => true
  | _, _ => false
  end.

Fixpoint list_eqb {A} (eqb : A -> A -> bool) (xs ys : list A) : bool :=
  match xs, ys with
  | [], [] => true
  | x :: xs', y :: ys' => eqb x y && list_eqb eqb xs' ys'
  | _, _ => false
  end.

(** The [__eq__] that [@dataclass] generates: field by field, floats by
    numeric equality. *)
Definition Paper_eqb (p q : Paper) : bool :=
  String.eqb (title p) (title q)
  && String.eqb (doi p) (doi q)
  && list_eqb String.eqb (authors p) (authors q)
  && String.eqb (journal p) (journal q)
  && Z.eqb (year p) (year q)
  && Z.eqb (citation_count p) (citation_count q)
  && String.eqb (abstract p) (abstract q)
  && Z.eqb (paper_index p) (paper_index q)
  && Qeq_bool (relevance_score p) (relevance_score q)
  && Qeq_bool (priority_score p) (priority_score q)
  && Bool.eqb (is_selected p) (is_selected q)
  && JournalType_eqb (journal_type p) (journal_type q)
  && DownloadStatus_eqb (download_status p) (download_status q)
  && String.eqb (pdf_filename p) (pdf_filename q)
  && Z.eqb (pdf_size p) (pdf_size q)
  && Bool.eqb (analysis_completed p) (analysis_completed q).

(** Attribute assignments [paper.f = v]. *)
Definition set_paper_index (v : Z) (p : Paper) : Paper :=
  mkPaper (title p) (doi p) (authors p) (journal p) (year p)
    (citation_count p) (abstract p) v (relevance_score p)
    (priority_score p) (is_selected p) (journal_type p) (download_status p)
    (pdf_filename p) (pdf_size p) (analysis_completed p).

Definition set_priority_score (v : Q) (p : Paper) : Paper :=
  mkPaper (title p) (doi p) (authors p) (journal p) (year p)
    (citation_count p) (abstract p) (paper_index p) (relevance_score p)
    v (is_selected p) (journal_type p) (download_status p)
    (pdf_filename p) (pdf_size p) (analysis_completed p).

Definition set_journal_type (v : JournalType) (p : Paper) : Paper :=
  mkPaper (title p) (doi p) (authors p) (journal p) (year p)
    (citation_count p) (abstract p) (paper_index p) (relevance_score p)
    (priority_score p) (is_selected p) v (download_status p)
    (pdf_filename p) (pdf_size p) (analysis_completed p).

Definition set_download_status (v : DownloadStatus) (p : Paper) : Paper :=
  mkPaper (title p) (doi p) (authors p) (journal p) (year p)
    (citation_count p) (abstract p) (paper_index p) (relevance_score p)
    (priority_score p) (is_selected p) (journal_type p) v
    (pdf_filename p) (pdf_size p) (analysis_completed p).

Definition set_pdf_filename (v : string) (p : Paper) : Paper :=
  mkPaper (title p) (doi p) (authors p) (journal p) (year p)
    (citation_count p) (abstract p) (paper_index p) (relevance_score p)
    (priority_score p) (is_selected p) (journal_type p) (download_status p)
    v (pdf_size p) (analysis_completed p).

Definition set_pdf_size (v : Z) (p : Paper) : Paper :=
  mkPaper (title p) (doi p) (authors p) (journal p) (year p)
    (citation_count p) (abstract p) (paper_index p) (relevance_score p)
    (priority_score p) (is_selected p) (journal_type p) (download_status p)
    (pdf_filename p) v (analysis_completed p).

(* ================================================================== *)
(** * [src/utils/utils.py] *)
(* ================================================================== *)

Module Utils.

Definition elsevier_prefixes : list string :=
  [ "10.1016/"; "10.1006/"; "10.1053/"; "10.1054/"; "10.1078/"; "10.1529/" ]%string.

Definition non_elsevier_prefixes : list string :=
  [ "10.1007/"; "10.1021/"; "10.1002/"; "10.1063/"; "10.1088/"; "10.1103/";
    "10.1038/"; "10.1126/"; "10.3390/"; "10.1039/" ]%string.

(** [is_elsevier_doi]: the explicit non-Elsevier prefixes are checked
    first, then the Elsevier ones. *)
Definition is_elsevier_doi (doi : string) : bool :=
  if String.eqb doi EmptyString then false
  else
    let doi_lower := Py.lower doi in
    if Py.startswith_any doi_lower (map Py.lower non_elsevier_prefixes) then false
    else if Py.startswith_any doi_lower (map Py.lower elsevier_prefixes) then true
    else false.

(** ** [RateLimiter] *)

Record RateLimiter := mkRateLimiter {
  calls_per_minute : Z;
  calls : list Q;
  last_warning : Q
}.

(** [RateLimiter(calls_per_minute)]. *)
Definition RateLimiter_init (cpm : Z) : RateLimiter := mkRateLimiter cpm [] 0.

(** The limiter together with the clock that [time.time()] reads.
    [history] is a ghost log of every timestamp ever appended to
    [self.calls] (oldest first): [self.calls] itself forgets the
    timestamps that left the window. *)
Record Timed := mkTimed {
  limiter : RateLimiter;
  clock : Q;
  history : list Q
}.

Definition Qlt_bool (a b : Q) : bool := negb (Qle_bool b a).

Definition time_time : M Timed Q := gets clock.

(** [await asyncio.sleep(d)]: the clock moves on by [d] and by [over],
    the time by which the wake-up is late. *)
Definition asyncio_sleep (d over : Q) : M Timed unit :=
  modify (fun s => mkTimed (limiter s) (clock s + d + over) (history s)).

Definition set_calls (cs : list Q) : M Timed unit :=
  modify (fun s =>
    mkTimed (mkRateLimiter (calls_per_minute (limiter s)) cs (last_warning (limiter s)))
            (clock s) (history s)).

Definition set_last_warning (t : Q) : M Timed unit :=
  modify (fun s =>
    mkTimed (mkRateLimiter (calls_per_minute (limiter s)) (calls (limiter s)) t)
            (clock s) (history s)).

(** [self.calls.append(now)]. *)
Definition append_call (now : Q) : M Timed unit :=
  modify (fun s =>
    mkTimed (mkRateLimiter (calls_per_minute (limiter s))
                           (calls (limiter s) ++ [now])
                           (last_warning (limiter s)))
            (clock s) (history s ++ [now])).

(** [[t for t in self.calls if now - t < 60]]. *)
Definition in_window (now t : Q) : bool := Qlt_bool (now - t) 60.

(** [self.calls[0]]. *)
Definition calls_0 : M Timed Q :=
  fun s => match calls (limiter s) with
           | [] => (Exc IndexError, s)
           | c :: _ => (Ok c, s)
           end.

Local Open Scope py_scope.

(** [RateLimiter.wait_if_needed]; [over] is the lateness of the sleep,
    if the call sleeps. *)
Definition wait_if_needed (over : Q) : M Timed unit :=
  now <- time_time ;;
  cs <- gets (fun s => calls (limiter s)) ;;
  set_calls (filter (in_window now) cs) ;;
  cs <- gets (fun s => calls (limiter s)) ;;
  cpm <- gets (fun s => calls_per_minute (limiter s)) ;;
  now <- (if (Py.len cs >=? cpm)%Z then
            c0 <- calls_0 ;;
            let sleep_time := 60 - (now - c0) in
            if Qlt_bool 0 sleep_time then
              lw <- gets (fun s => last_warning (limiter s)) ;;
              (if Qlt_bool 30 (now - lw) then set_last_warning now else ret tt) ;;
              asyncio_sleep sleep_time over ;;
              now <- time_time ;;
              cs <- gets (fun s => calls (limiter s)) ;;
              set_calls (filter (in_window now) cs) ;;
              ret now
            else ret now
          else ret now) ;;
  append_call now.

(** Time passing between two calls. *)
Definition elapse (gap : Q) : M Timed unit :=
  modify (fun s => mkTimed (limiter s) (clock s + gap) (history s)).

(** A sequence of calls on one instance: before each call [gap] seconds
    pass, and its sleep (if any) is [over] seconds late. *)
Fixpoint run_calls (evs : list (Q * Q)) : M Timed unit :=
  match evs with
  | [] => ret tt
  | (gap, over) :: evs' =>
      elapse gap ;; wait_if_needed over ;; run_calls evs'
  end.

Definition fresh (cpm : Z) (t0 : Q) : Timed := mkTimed (RateLimiter_init cpm) t0 [].

(** The acquisitions granted in the trailing window [(T - 60, T]]. *)
Definition granted_in_window (T : Q) (hist : list Q) : list Q :=
  filter (fun t => Qlt_bool (T - t) 60 && Qle_bool t T) hist.

(** ** [retry_on_failure] *)

Section Retry.
Variables (S A : Type).
(** [await asyncio.sleep(d)] in the caller's world. *)
Variable sleep : Q -> M S unit.

(** [range(max_retries)]. *)
Definition range (n : Z) : list Z := map Z.of_nat (seq 0 (Z.to_nat n)).

(** The [for attempt in range(max_retries)] loop, [last_exception]
    being the local variable of that name. *)
Fixpoint retry_loop (max_retries : Z) (delay : Q) (func : M S A)
    (attempts : list Z) (last_exception : exn) : M S A :=
  match attempts with
  | [] => raise last_exception
  | attempt :: rest =>
      try_except func
        (fun e =>
           (if (attempt <? max_retries - 1)%Z
            then sleep (delay * inject_Z (2 ^ attempt))
            else ret tt) ;;
           retry_loop max_retries delay func rest e)
  end.

(** [retry_on_failure(max_retries, delay)(func)]. *)
Definition retry_on_failure (max_retries : Z) (delay : Q) (func : M S A) : M S A :=
  retry_loop max_retries delay func (range max_retries)
             (Exception "No attempts made").
End Retry.

(** A world that records what a wrapped operation and the wrapper do. *)
Inductive RetryEvent := Called | Slept (d : Q).

Definition trace_sleep (d : Q) : M (list RetryEvent) unit :=
  modify (fun tr => tr ++ [Slept d]).

(** An operation that raises [e] every time it is called. *)
Definition failing (e : exn) : M (list RetryEvent) bool :=
  fun tr => (Exc e, tr ++ [Called]).

(** An operation that plays a script: the call made after [k] earlier
    calls returns or raises [nth k script]. *)
Definition scripted (script : list (res bool)) (dflt : res bool)
  : M (list RetryEvent) bool :=
  fun tr =>
    (nth (List.length (filter (fun ev => match ev with Called => true | _ => false end) tr))
         script dflt,
     tr ++ [Called]).

Definition count_calls (tr : list RetryEvent) : nat :=
  List.length (filter (fun ev => match ev with Called => true | _ => false end) tr).

(** The trace of [n] failed attempts from attempt number [k] on:
    a call, then for each further attempt a back-off and a call. *)
Fixpoint backoff_trace (delay : Q) (k : Z) (n : nat) : list RetryEvent :=
  match n with
  | O => []
  | S O => [Called]
  | S n' => Called :: Slept (delay * inject_Z (2 ^ k)) :: backoff_trace delay (k + 1) n'
  end.

(** ** [validate_material_id] *)

Definition validate_material_id (material_id : string) : res string :=
  if String.eqb material_id EmptyString
  then Exc (ValueError "Material ID cannot be empty")
  else
    let material_id := Py.strip material_id in
    if Py.isdigit material_id then Ok ("mp-" ++ material_id)%string
    else if Py.startswith material_id "mp-" then Ok material_id
    else Exc (ValueError ("Invalid material ID format: " ++ material_id)%string).

(** ** [safe_filename] *)

Definition safe_filename (text : string) (max_length : Z) : string :=
  let safe_text := Re.sub_unsafe text in
  let safe_text := Re.sub_spaces safe_text in
  let safe_text := Py.strip_chars ["."; "_"]%char safe_text in
  let safe_text :=
    if (Py.len (list_ascii_of_string safe_text) >? max_length)%Z
    then Py.rstrip_chars ["_"]%char (Py.str_slice_to safe_text max_length)
    else safe_text in
  match safe_text with
  | EmptyString => "unnamed"%string
  | String _ _ => safe_text
  end.

(** ** [chunk_list] *)

(** [range(start, stop, step)] as a list; a zero step raises. *)
Definition range3 (start stop step : Z) : res (list Z) :=
  if (step =? 0)%Z then Exc (ValueError "range() arg 3 must not be zero")
  else
    let n := if (0 <? step)%Z
             then if (start <? stop)%Z then ((stop - start - 1) / step + 1)%Z else 0%Z
             else if (stop <? start)%Z then ((start - stop - 1) / (- step) + 1)%Z else 0%Z in
    Ok (map (fun i => (start + Z.of_nat i * step)%Z) (seq 0 (Z.to_nat n))).

Definition chunk_list {A} (lst : list A) (chunk_size : Z) : res (list (list A)) :=
  match range3 0 (Py.len lst) chunk_size with
  | Ok starts => Ok (map (fun i => Py.slice lst i (i + chunk_size)) starts)
  | Exc e => Exc e
  end.


End Utils.

(* ================================================================== *)
(** * [src/clients/download_client.py]: the Anna Archive byte fetchers *)
(* ================================================================== *)

Module AnnaArchiveDownloader.

(** What [NetworkSession.get] hands back: the body and the
    [content-type] header ([None] when the header is absent). *)
Record Response := mkResponse {
  content : list byte;
  content_type : option string
}.

(** The network: every URL either answers or makes [get] raise. *)
Definition Network := string -> res Response.

(** The file system: the bytes stored under each path. *)
Definition FS := string -> option (list byte).

Definition fs_write (path : string) (data : list byte) (fs : FS) : FS :=
  fun p => if String.eqb p path then Some data else fs p.

Definition fs_unlink (path : string) (fs : FS) : FS :=
  fun p => if String.eqb p path then None else fs p.

(** [b'%PDF']. *)
Definition PDF_MAGIC : list byte := [x25; x50; x44; x46].

Definition bytes_startswith (data p : list byte) : bool :=
  Py.list_prefix Byte.eqb p data.

Definition bytes_contains (data p : list byte) : bool :=
  Py.list_infix Byte.eqb p data.

Definition network_get (net : Network) (url : string) : M FS Response :=
  fun fs => (net url, fs).

(** [with open(path, 'wb') as f: f.write(data)]. *)
Definition write_file (path : string) (data : list byte) : M FS unit :=
  modify (fs_write path data).

(** [with open(path, 'rb') as f: f.read(n)]. *)
Definition read_head (path : string) (n : nat) : M FS (list byte) :=
  fun fs => match fs path with
            | Some data => (Ok (firstn n data), fs)
            | None => (Exc (mkExn "FileNotFoundError" path), fs)
            end.

(** [output_path.unlink()]. *)
Definition unlink (path : string) : M FS unit :=
  fun fs => match fs path with
            | Some _ => (Ok tt, fs_unlink path fs)
            | None => (Exc (mkExn "FileNotFoundError" path), fs)
            end.

Local Open Scope py_scope.

(** [_download_from_url]: the fast-download fetch. *)
Definition _download_from_url (net : Network) (url output_path : string)
  : M FS (bool * Z) :=
  try_except
    (response <- network_get net url ;;
     let content := content response in
     if match content with [] => true | _ => false end
        || (Py.len content <? 1000)%Z then ret (false, 0%Z)
     else if bytes_startswith content PDF_MAGIC then
       write_file output_path content ;;
       ret (true, Py.len content)
     else if (Py.len content >? 50000)%Z then
       write_file output_path content ;;
       first_bytes <- read_head output_path 10 ;;
       if bytes_contains first_bytes PDF_MAGIC then ret (true, Py.len content)
       else
         unlink output_path ;;
         ret (false, 0%Z)
     else ret (false, 0%Z))
    (fun _ => ret (false, 0%Z)).

Definition download_endpoints (base_url md5_hash : string) : list string :=
  [ base_url ++ "/md5/" ++ md5_hash;
    base_url ++ "/fast_download/" ++ md5_hash;
    base_url ++ "/download/" ++ md5_hash ]%string.

(** The acceptance test of [_download_by_md5]. *)
Definition is_pdf (response : Response) : bool :=
  let content_type :=
    Py.lower (match content_type response with Some s => s | None => EmptyString end) in
  bytes_startswith (content response) PDF_MAGIC
  || Py.str_contains content_type "application/pdf"
  || (Py.len (content response) >? 1000)%Z.

(** The [for i, endpoint in enumerate(download_endpoints)] loop of
    [_download_by_md5]; an endpoint that raises is skipped. *)
Fixpoint download_by_md5_loop (net : Network) (endpoints : list string)
    (output_path : string) : M FS (bool * Z) :=
  match endpoints with
  | [] => ret (false, 0%Z)
  | endpoint :: rest =>
      r <- try_except
             (response <- network_get net endpoint ;;
              if is_pdf response then
                write_file output_path (content response) ;;
                ret (Some (true, Py.len (content response)))
              else ret None)
             (fun _ => ret None) ;;
      match r with
      | Some out => ret out
      | None => download_by_md5_loop net rest output_path
      end
  end.

(** [_download_by_md5]: the fallback fetch. *)
Definition _download_by_md5 (net : Network) (base_url md5_hash output_path : string)
  : M FS (bool * Z) :=
  download_by_md5_loop net (download_endpoints base_url md5_hash) output_path.

(** What the claim asks of a fetch: a body that is accepted although it
    neither starts with [%PDF] nor is declared a PDF leaves a file whose
    first ten bytes hold the PDF signature; otherwise the fetch fails and
    leaves no file. *)
Definition revalidated (out : res (bool * Z) * FS) (output_path : string) : Prop :=
  match out with
  | (Ok (true, _), fs) =>
      exists data, fs output_path = Some data
                   /\ bytes_contains (firstn 10 data) PDF_MAGIC = true
  | (Ok (false, _), fs) => fs output_path = None
  | (Exc _, _) => False
  end.

Definition empty_fs : FS := fun _ => None.

(** A 1001-byte HTML page. *)
Definition html_page : list byte := repeat x3c 1001.

Definition html_response : Response := mkResponse html_page (Some "text/html"%string).

(** A network whose every URL answers with that page. *)
Definition html_network : Network := fun _ => Ok html_response.

End AnnaArchiveDownloader.

(* ================================================================== *)
(** * [src/main.py]: the error classifier of the analysis loop *)
(* ================================================================== *)

Module Main.

Definition retryable_patterns : list string :=
  [ "500"; "502"; "503"; "504";
    "internal error"; "server error"; "service unavailable";
    "timeout"; "timed out"; "connection"; "network";
    "429"; "too many requests"; "rate limit"; "quota";
    "exceeded"; "limit reached";
    "temporarily unavailable"; "try again"; "retry";
    "overloaded"; "busy"; "unavailable" ]%string.

Definition non_retryable_patterns : list string :=
  [ "401"; "403"; "unauthorized"; "forbidden"; "permission denied";
    "invalid api key"; "authentication failed";
    "400"; "bad request"; "invalid input"; "malformed";
    "unsupported format"; "file corrupted"; "pdf corrupted";
    "404"; "not found"; "file not found"; "does not exist" ]%string.

(** [_is_retryable_error]: the permanent patterns are looked for first;
    an error that matches nothing is retried.  Only [_analyze_pdfs]
    consults it; [retry_on_failure] does not. *)
Definition _is_retryable_error (error_msg : string) : bool :=
  let error_lower := Py.lower error_msg in
  if existsb (Py.str_contains error_lower) non_retryable_patterns then false
  else if existsb (Py.str_contains error_lower) retryable_patterns then true
  else true.

(** [MaterialAnalysisWorkflow._safe_filename]: the name under which
    [_download_pdfs] looks for a file again. *)
Definition _safe_filename (text : string) : string :=
  let safe := Re.sub_unsafe text in
  let safe := Re.sub_spaces safe in
  Py.strip_chars ["."; "_"]%char safe.


End Main.

(* ================================================================== *)
(** * The store of papers and the providers *)
(* ================================================================== *)

(** Object identity of a [Paper]. *)
Definition ref := nat.

(** The store: the current value of every paper object. *)
Definition Heap := ref -> Paper.

Definition upd (r : ref) (f : Paper -> Paper) (h : Heap) : Heap :=
  fun r' => if Nat.eqb r' r then f (h r') else h r'.

Inductive Provider := ElsevierProvider | AnnaProvider.

(** What the orchestrator does to the outside world, in order. *)
Inductive Event :=
| Attempt (p : Provider) (r : ref)
| Sleep (d : Q).

Record World := mkWorld {
  heap : Heap;
  trace : list Event
}.

(** One call of a downloader's [download_pdf]. *)
Inductive Outcome :=
| Returns (success : bool) (file_size : Z)
| Raises (e : exn).

(** The collaborators of the orchestrator.
    - [elsevier_download_pdf], [anna_download_pdf]: the (retry-decorated)
      [download_pdf] of the two downloaders, as a function of what happened
      before and of the paper handed over; downloaders only read the paper.
    - [pdf_name index title]: the file name
      [paper_{index:02d}_{_safe_filename(title[:30])}.pdf]; no property
      below reads the name, so its rendering is left open.
    - [stat_size]: [pdf_path.stat().st_size if pdf_path.exists() else 0].
    - [mkdir]: [pdf_path.parent.mkdir(exist_ok=True)] on the PDF folder, as
      a function of what happened before: it returns, or it raises (the
      work space is missing, the name is taken by a file, ...). *)
Record Providers := mkProviders {
  elsevier_download_pdf : list Event -> Paper -> Outcome;
  anna_download_pdf : list Event -> Paper -> Outcome;
  pdf_name : Z -> string -> string;
  stat_size : list Event -> string -> Z;
  mkdir : list Event -> res unit
}.

Definition get_paper (r : ref) : M World Paper := gets (fun w => heap w r).

Definition set_attr (r : ref) (f : Paper -> Paper) : M World unit :=
  modify (fun w => mkWorld (upd r f (heap w)) (trace w)).

Definition log (ev : Event) : M World unit :=
  modify (fun w => mkWorld (heap w) (trace w ++ [ev])).

(** [await asyncio.sleep(d)]. *)
Definition asyncio_sleep (d : Q) : M World unit := log (Sleep d).

(** [pdf_path.parent.mkdir(exist_ok=True)]. *)
Definition mkdir_parent (P : Providers) : M World unit :=
  fun w => (mkdir P (trace w), w).

(** [await downloader.download_pdf(paper, output_path)]. *)
Definition download_pdf (P : Providers) (prov : Provider) (r : ref)
  : M World (bool * Z) :=
  fun w =>
    let oracle := match prov with
                  | ElsevierProvider => elsevier_download_pdf P
                  | AnnaProvider => anna_download_pdf P
                  end in
    let w' := mkWorld (heap w) (trace w ++ [Attempt prov r]) in
    match oracle (trace w) (heap w r) with
    | Returns success file_size => (Ok (success, file_size), w')
    | Raises e => (Exc e, w')
    end.

(** [x in xs] on a list of papers: identity, or the dataclass [==]. *)
Definition py_in (h : Heap) (x : ref) (xs : list ref) : bool :=
  existsb (fun y => Nat.eqb y x || Paper_eqb (h y) (h x)) xs.

(* ================================================================== *)
(** * [src/clients/download_client.py]: [DownloadManager] *)
(* ================================================================== *)

Module DownloadManager.

Local Open Scope py_scope.

(** [DownloadManager.download_paper]. *)
Definition download_paper (P : Providers) (r : ref) (output_name : string)
  : M World bool :=
  paper <- get_paper r ;;
  if String.eqb (doi paper) EmptyString then
    set_attr r (set_download_status FAILED) ;;
    ret false
  else
    set_attr r (set_download_status DOWNLOADING) ;;
    try_except
      (out <- (if Utils.is_elsevier_doi (doi paper)
               then download_pdf P ElsevierProvider r
               else download_pdf P AnnaProvider r) ;;
       let '(success, file_size) := out in
       if success then
         set_attr r (set_download_status DOWNLOADED) ;;
         set_attr r (set_pdf_filename output_name) ;;
         set_attr r (set_pdf_size file_size) ;;
         ret true
       else
         backup <- (if Utils.is_elsevier_doi (doi paper) then
                      out <- download_pdf P AnnaProvider r ;;
                      let '(success, file_size) := out in
                      if success then
                        set_attr r (set_download_status DOWNLOADED) ;;
                        set_attr r (set_pdf_filename output_name) ;;
                        set_attr r (set_pdf_size file_size) ;;
                        ret true
                      else ret false
                    else ret false) ;;
         if (backup : bool) then ret true
         else
           set_attr r (set_download_status FAILED) ;;
           ret false)
      (fun _ =>
         set_attr r (set_download_status FAILED) ;;
         ret false).

End DownloadManager.

(* ================================================================== *)
(** * [src/core/smart_download_manager.py] *)
(* ================================================================== *)

Module SmartDownloadManager.

Local Open Scope py_scope.

(** The score that [_calculate_priority_scores] accumulates for one
    paper, statement by statement: every [+=] is an addition of doubles,
    and [paper.citation_count / 50.0] converts the count to a float
    first, which raises [OverflowError] when the count is too large.
    (The additions themselves stay in range: the bonuses are at most 3.) *)
Definition score_of (paper : Paper) : res Q :=
  let score := 0 in
  let score := Float.add score (relevance_score paper) in
  let score :=
    match journal_type paper with
    | ELSEVIER =>
        let score := Float.add score 3 in
        if (year paper >=? 2018)%Z then Float.add score 1 else score
    | _ =>
        let score := Float.add score 1 in
        let score := if (year paper <=? 2019)%Z then Float.add score 1 else score in
        if (2010 <=? year paper)%Z && (year paper <=? 2018)%Z
        then Float.add score (1 # 2) else score
    end in
  match Float.int_truediv (citation_count paper) 50 with
  | Exc e => Exc e
  | Ok quotient =>
      let citation_bonus := Py.min quotient 2 in
      Ok (Float.add score citation_bonus)
  end.

(** [xs.sort(key=k, reverse=True)]: the stable sort, largest key first.
    Python's sort is stable also under [reverse=True]; the result of a
    stable sort is unique, so insertion stands for it. *)
Fixpoint insert_desc {A} (key : A -> Q) (x : A) (xs : list A) : list A :=
  match xs with
  | [] => [x]
  | y :: xs' =>
      if Qle_bool (key y) (key x) then x :: y :: xs'
      else y :: insert_desc key x xs'
  end.

Fixpoint sort_desc {A} (key : A -> Q) (xs : list A) : list A :=
  match xs with
  | [] => []
  | x :: xs' => insert_desc key x (sort_desc key xs')
  end.

(** [for paper in papers: ...; paper.priority_score = score].  A paper
    whose score cannot be computed ends the loop with the exception; the
    papers before it keep their new scores. *)
Fixpoint assign_scores (papers : list ref) : M World unit :=
  match papers with
  | [] => ret tt
  | r :: rest =>
      paper <- get_paper r ;;
      score <- lift (score_of paper) ;;
      set_attr r (set_priority_score score) ;;
      assign_scores rest
  end.

(** [_calculate_priority_scores].  The sort compares the stored scores
    as floats, which is the order of the rationals they denote.  The
    closing [logger.info] formats [scored_papers[0]] and
    [scored_papers[-1]], which raises on an empty list. *)
Definition _calculate_priority_scores (papers : list ref) : M World (list ref) :=
  assign_scores papers ;;
  scored_papers <- gets (fun w => sort_desc (fun r => priority_score (heap w r)) papers) ;;
  match scored_papers with
  | [] => raise IndexError
  | _ :: _ => ret scored_papers
  end.

(** [_download_single_paper], for a manager [within_institutional_ip]
    and the [download_paper] of its [download_manager].  The two
    institutional branches differ in what they print only.  The
    [file_size] read after a success is only printed, and
    [pdf_path.stat()] is guarded by [pdf_path.exists()], so it leaves no
    trace here. *)
Definition _download_single_paper (within_institutional_ip : bool)
    (download_paper : ref -> string -> M World bool)
    (r : ref) (pdf_path : string) : M World bool :=
  set_attr r (set_download_status DOWNLOADING) ;;
  try_finally
    (try_except
       (paper <- get_paper r ;;
        let is_elsevier_journal := Utils.is_elsevier_doi (doi paper) in
        if within_institutional_ip then
          if is_elsevier_journal then
            success <- download_paper r pdf_path ;;
            if (success : bool) then
              set_attr r (set_download_status DOWNLOADED) ;;
              ret true
            else ret false
          else
            success <- download_paper r pdf_path ;;
            if (success : bool) then
              set_attr r (set_download_status DOWNLOADED) ;;
              ret true
            else ret false
        else
          original_journal_type <- gets (fun w => journal_type (heap w r)) ;;
          set_attr r (set_journal_type NON_ELSEVIER) ;;
          try_finally
            (success <- download_paper r pdf_path ;;
             if (success : bool) then
               set_attr r (set_download_status DOWNLOADED) ;;
               ret true
             else ret false)
            (set_attr r (set_journal_type original_journal_type)))
       (fun _ => ret false))
    (paper <- get_paper r ;;
     if DownloadStatus_eqb (download_status paper) DOWNLOADING
     then set_attr r (set_download_status FAILED)
     else ret tt).

(** The attempt loop of [_priority_download_phase] and of
    [_supplementation_phase], which differ in one statement: the priority
    phase ([priority = true]) makes the PDF folder before every attempt,
    the supplementation phase does not.  [successful_downloads] is the
    list built so far, [target_count] the bound that breaks the loop. *)
Fixpoint attempt_loop (P : Providers) (inst : bool) (priority : bool)
    (target_count : Z) (todo : list ref) (successful_downloads : list ref)
  : M World (list ref) :=
  match todo with
  | [] => ret successful_downloads
  | r :: rest =>
      set_attr r (set_download_status DOWNLOADING) ;;
      paper <- get_paper r ;;
      let pdf_path := pdf_name P (paper_index paper) (title paper) in
      (if priority then mkdir_parent P else ret tt) ;;
      success <- _download_single_paper inst (DownloadManager.download_paper P) r pdf_path ;;
      if (success : bool) then
        set_attr r (set_download_status DOWNLOADED) ;;
        set_attr r (set_pdf_filename pdf_path) ;;
        size <- gets (fun w => stat_size P (trace w) pdf_path) ;;
        set_attr r (set_pdf_size size) ;;
        let successful_downloads := successful_downloads ++ [r] in
        if (Py.len successful_downloads >=? target_count)%Z
        then ret successful_downloads
        else
          asyncio_sleep 1 ;;
          attempt_loop P inst priority target_count rest successful_downloads
      else
        set_attr r (set_download_status FAILED) ;;
        asyncio_sleep 1 ;;
        attempt_loop P inst priority target_count rest successful_downloads
  end.

(** [_priority_download_phase]. *)
Definition _priority_download_phase (P : Providers) (inst : bool)
    (papers : list ref) (target_count : Z) : M World (list ref) :=
  priority_papers <- _calculate_priority_scores papers ;;
  attempt_loop P inst true target_count priority_papers [].

(** [_supplementation_phase]. *)
Definition _supplementation_phase (P : Providers) (inst : bool)
    (remaining_papers : list ref) (needed_count : Z) : M World (list ref) :=
  if match remaining_papers with [] => true | _ => false end
     || (needed_count <=? 0)%Z
  then ret []
  else
    scored_papers <- _calculate_priority_scores remaining_papers ;;
    attempt_loop P inst false needed_count scored_papers [].

(** [for paper in all_downloads: if paper not in selected: ...]. *)
Fixpoint mark_skipped (selected all_downloads : list ref) : M World unit :=
  match all_downloads with
  | [] => ret tt
  | r :: rest =>
      absent <- gets (fun w => negb (py_in (heap w) r selected)) ;;
      (if (absent : bool) then set_attr r (set_download_status SKIPPED) else ret tt) ;;
      mark_skipped selected rest
  end.

(** [for idx, paper in enumerate(selected, idx): paper.paper_index = idx]. *)
Fixpoint reassign_indices (idx : Z) (selected : list ref) : M World unit :=
  match selected with
  | [] => ret tt
  | r :: rest =>
      set_attr r (set_paper_index idx) ;;
      reassign_indices (idx + 1) rest
  end.

(** [_precise_selection]. *)
Definition _precise_selection (all_downloads : list ref) (target_count : Z)
  : M World (list ref) :=
  if (Py.len all_downloads <=? target_count)%Z then ret all_downloads
  else
    scored_downloads <- _calculate_priority_scores all_downloads ;;
    let selected := Py.slice_to scored_downloads target_count in
    mark_skipped selected all_downloads ;;
    reassign_indices 1 selected ;;
    ret selected.

(** [ensure_target_downloads]. *)
Definition ensure_target_downloads (P : Providers) (inst : bool)
    (papers : list ref) (target_count : Z) : M World (list ref) :=
  priority_downloads <- _priority_download_phase P inst papers target_count ;;
  if (Py.len priority_downloads >=? target_count)%Z
  then ret (Py.slice_to priority_downloads target_count)
  else
    let remaining_needed := (target_count - Py.len priority_downloads)%Z in
    remaining_papers <-
      gets (fun w => filter (fun p => negb (py_in (heap w) p priority_downloads)) papers) ;;
    supplemental_downloads <-
      _supplementation_phase P inst remaining_papers remaining_needed ;;
    let all_downloads := priority_downloads ++ supplemental_downloads in
    if (Py.len all_downloads >=? target_count)%Z
    then _precise_selection all_downloads target_count
    else ret all_downloads.

(** [_safe_filename]: the name under which the phases store a file. *)
Definition _safe_filename (text : string) : string :=
  let safe := Re.sub_unsafe text in
  let safe := Re.sub_spaces safe in
  Py.str_slice_to safe 50.


End SmartDownloadManager.

(* ================================================================== *)
(** * [src/models.py]: the counters of [ProcessingStats] *)
(* ================================================================== *)

Record ProcessingStats := mkProcessingStats {
  target_paper_count : Z;
  papers_found : Z;
  papers_selected : Z;
  elsevier_attempts : Z;
  elsevier_success : Z;
  anna_archive_attempts : Z;
  anna_archive_success : Z;
  analysis_attempts : Z;
  analysis_success : Z
}.

(** [ProcessingStats.get_success_rate]. *)
Definition get_success_rate (stats : ProcessingStats) : Q :=
  let total_attempts := (elsevier_attempts stats + anna_archive_attempts stats)%Z in
  let total_success := (elsevier_success stats + anna_archive_success stats)%Z in
  if (total_attempts >? 0)%Z
  then inject_Z total_success / inject_Z total_attempts * 100
  else 0.

Definition set_analysis_completed (v : bool) (p : Paper) : Paper :=
  mkPaper (title p) (doi p) (authors p) (journal p) (year p)
    (citation_count p) (abstract p) (paper_index p) (relevance_score p)
    (priority_score p) (is_selected p) (journal_type p) (download_status p)
    (pdf_filename p) (pdf_size p) v.

(** [stats.analysis_attempts += 1]. *)
Definition count_analysis_attempt (st : ProcessingStats) : ProcessingStats :=
  mkProcessingStats (target_paper_count st) (papers_found st) (papers_selected st)
    (elsevier_attempts st) (elsevier_success st)
    (anna_archive_attempts st) (anna_archive_success st)
    (analysis_attempts st + 1) (analysis_success st).

(** [stats.analysis_success += 1]. *)
Definition count_analysis_success (st : ProcessingStats) : ProcessingStats :=
  mkProcessingStats (target_paper_count st) (papers_found st) (papers_selected st)
    (elsevier_attempts st) (elsevier_success st)
    (anna_archive_attempts st) (anna_archive_success st)
    (analysis_attempts st) (analysis_success st + 1).

(* ================================================================== *)
(** * [src/main.py]: the analysis loop of [MaterialAnalysisWorkflow] *)
(* ================================================================== *)

Module MaterialAnalysisWorkflow.

(** What the loop does to the outside world, in order. *)
Inductive Step :=
| Analyze (r : ref)
| Save
| Pause (seconds : Z).

(** The collaborators of the loop, each as a function of what happened
    before.
    - [analyze_pdf]: [gemini_client.analyze_pdf(paper, pdf_path, formula)];
    - [save_analysis_text]: [file_manager.save_analysis_text(workspace,
      analysis)];
    - [fallback_analysis tr paper attempts error_msg]: the
      [PaperAnalysis(...)] built after the final failure, a text record
      made from the paper, the number of attempts and the message. *)
Record Services (Analysis : Type) := mkServices {
  analyze_pdf : list Step -> Paper -> res Analysis;
  save_analysis_text : list Step -> Analysis -> res unit;
  fallback_analysis : list Step -> Paper -> Z -> string -> Analysis
}.

(** The state of a run.  [analyses] and [failed_count] are the local
    variables of these names: the [try] block appends to [analyses]
    before it may raise, so they are part of the state. *)
Record Desk (Analysis : Type) := mkDesk {
  papers : Heap;
  stats : ProcessingStats;
  steps : list Step;
  analyses : list Analysis;
  failed_count : Z
}.

Section Loop.
Variable Analysis : Type.
Variable G : Services Analysis.

Local Open Scope py_scope.

Definition step (ev : Step) : M (Desk Analysis) unit :=
  modify (fun s => mkDesk (papers s) (stats s) (steps s ++ [ev])
                          (analyses s) (failed_count s)).

Definition set_paper (r : ref) (f : Paper -> Paper) : M (Desk Analysis) unit :=
  modify (fun s => mkDesk (upd r f (papers s)) (stats s) (steps s)
                          (analyses s) (failed_count s)).

Definition set_stats (f : ProcessingStats -> ProcessingStats) : M (Desk Analysis) unit :=
  modify (fun s => mkDesk (papers s) (f (stats s)) (steps s)
                          (analyses s) (failed_count s)).

(** [analyses.append(a)]. *)
Definition append_analysis (a : Analysis) : M (Desk Analysis) unit :=
  modify (fun s => mkDesk (papers s) (stats s) (steps s)
                          (analyses s ++ [a]) (failed_count s)).

(** [failed_count += 1]. *)
Definition count_failed : M (Desk Analysis) unit :=
  modify (fun s => mkDesk (papers s) (stats s) (steps s)
                          (analyses s) (failed_count s + 1)).

(** A call of a collaborator. *)
Definition call {A} (oracle : list Step -> res A) : M (Desk Analysis) A :=
  fun s => (oracle (steps s), s).

Definition max_retries : Z := 2.

Definition retry_delays : list Z := [10; 30]%Z.

(** The [try] block of one attempt. *)
Definition analyse_once (r : ref) : M (Desk Analysis) unit :=
  paper <- gets (fun s => papers s r) ;;
  step (Analyze r) ;;
  analysis <- call (fun tr => analyze_pdf G tr paper) ;;
  append_analysis analysis ;;
  set_paper r (set_analysis_completed true) ;;
  set_stats count_analysis_success ;;
  step Save ;;
  call (fun tr => save_analysis_text G tr analysis).

(** The [for attempt in range(max_retries + 1)] loop; the result of an
    attempt tells whether the loop goes on. *)
Fixpoint analyse_attempts (r : ref) (attempts : list Z) : M (Desk Analysis) unit :=
  match attempts with
  | [] => ret tt
  | attempt :: rest =>
      again <- try_except
                 (analyse_once r ;; ret false)
                 (fun e =>
                    let error_msg := exn_msg e in
                    let is_retryable := Main._is_retryable_error error_msg in
                    if (attempt <? max_retries)%Z && is_retryable then
                      match nth_error retry_delays (Z.to_nat attempt) with
                      | Some delay => step (Pause delay) ;; ret true
                      | None => raise IndexError
                      end
                    else
                      set_paper r (set_analysis_completed false) ;;
                      count_failed ;;
                      paper <- gets (fun s => papers s r) ;;
                      a <- gets (fun s =>
                             fallback_analysis G (steps s) paper (attempt + 1) error_msg) ;;
                      append_analysis a ;;
                      ret false) ;;
      if again then analyse_attempts r rest else ret tt
  end.

(** The [for paper in downloaded_papers] loop. *)
Fixpoint analyse_papers (downloaded_papers : list ref) : M (Desk Analysis) unit :=
  match downloaded_papers with
  | [] => ret tt
  | r :: rest =>
      set_stats count_analysis_attempt ;;
      analyse_attempts r (Utils.range (max_retries + 1)) ;;
      step (Pause 2) ;;
      analyse_papers rest
  end.

(** [_analyze_pdfs]. *)
Definition _analyze_pdfs (downloaded_papers : list ref)
  : M (Desk Analysis) (list Analysis) :=
  modify (fun s => mkDesk (papers s) (stats s) (steps s) [] 0) ;;
  analyse_papers downloaded_papers ;;
  gets (fun s => analyses s).

End Loop.

End MaterialAnalysisWorkflow.

(* ================================================================== *)
(** * [src/main.py]: [MaterialAnalysisWorkflow._download_pdfs] *)
(* ================================================================== *)

Module DownloadPdfs.

(** [f"{n:02d}"]: the decimal digits of [n], with a zero in front of a
    single digit. *)
Definition format_02d (n : Z) : string :=
  let s := NilZero.string_of_int (Z.to_int n) in
  if (String.length s <? 2)%nat then ("0" ++ s)%string else s.

(** The name [_download_pdfs] expects a file to have. *)
Definition new_filename (paper : Paper) : string :=
  ("paper_" ++ format_02d (paper_index paper) ++ "_"
   ++ Main._safe_filename (Py.str_slice_to (title paper) 30) ++ ".pdf")%string.

(** The PDF folder, as a function of the downloads made and of the
    renames done before.
    - [path_exists]: [old_path.exists()];
    - [same_path old new]: [old_path == new_path];
    - [path_rename]: [old_path.rename(new_path)]. *)
Record Folder := mkFolder {
  path_exists : list Event -> list (string * string) -> string -> bool;
  same_path : string -> string -> bool;
  path_rename : list Event -> list (string * string) -> string -> string -> res unit
}.

Record Shelf := mkShelf {
  world : World;
  stats : ProcessingStats;
  renames : list (string * string)
}.

(** [stats.elsevier_success += 1] or [stats.anna_archive_success += 1],
    by the journal type of the paper. *)
Definition count_download (paper : Paper) (st : ProcessingStats) : ProcessingStats :=
  match journal_type paper with
  | ELSEVIER =>
      mkProcessingStats (target_paper_count st) (papers_found st) (papers_selected st)
        (elsevier_attempts st) (elsevier_success st + 1)
        (anna_archive_attempts st) (anna_archive_success st)
        (analysis_attempts st) (analysis_success st)
  | _ =>
      mkProcessingStats (target_paper_count st) (papers_found st) (papers_selected st)
        (elsevier_attempts st) (elsevier_success st)
        (anna_archive_attempts st) (anna_archive_success st + 1)
        (analysis_attempts st) (analysis_success st)
  end.

Local Open Scope py_scope.

(** A step of the smart download manager, run on the shelf. *)
Definition on_world {A} (m : M World A) : M Shelf A :=
  fun s => match m (world s) with
           | (r, w) => (r, mkShelf w (stats s) (renames s))
           end.

Definition set_stats (f : ProcessingStats -> ProcessingStats) : M Shelf unit :=
  modify (fun s => mkShelf (world s) (f (stats s)) (renames s)).

(** [old_path.rename(new_path)]. *)
Definition rename (F : Folder) (old new : string) : M Shelf unit :=
  fun s =>
    match path_rename F (trace (world s)) (renames s) old new with
    | Ok _ => (Ok tt, mkShelf (world s) (stats s) (renames s ++ [(old, new)]))
    | Exc e => (Exc e, s)
    end.

(** The [for paper in successful_downloads] loop. *)
Fixpoint count_and_rename (F : Folder) (successful_downloads : list ref) : M Shelf unit :=
  match successful_downloads with
  | [] => ret tt
  | r :: rest =>
      paper <- gets (fun s => heap (world s) r) ;;
      set_stats (count_download paper) ;;
      (if negb (String.eqb (pdf_filename paper) EmptyString) then
         found <- gets (fun s => path_exists F (trace (world s)) (renames s)
                                   (pdf_filename paper)) ;;
         if found && negb (same_path F (pdf_filename paper) (new_filename paper)) then
           rename F (pdf_filename paper) (new_filename paper) ;;
           on_world (set_attr r (set_pdf_filename (new_filename paper)))
         else ret tt
       else ret tt) ;;
      count_and_rename F rest
  end.

(** [_download_pdfs]; [inst] is [within_institutional_ip] of the smart
    download manager. *)
Definition _download_pdfs (P : Providers) (inst : bool) (F : Folder)
    (selected_papers : list ref) : M Shelf (list ref) :=
  target <- gets (fun s => target_paper_count (stats s)) ;;
  successful_downloads <-
    on_world (SmartDownloadManager.ensure_target_downloads P inst selected_papers target) ;;
  count_and_rename F successful_downloads ;;
  ret successful_downloads.

End DownloadPdfs.

(* ================================================================== *)
(** * [src/models.py]: [Paper.to_dict] and [Paper.from_dict] *)
(* ================================================================== *)

Module PaperDict.

Local Open Scope string_scope.

(** The values [to_dict] puts into the dictionary. *)
Inductive Value :=
| VBool (b : bool)
| VInt (n : Z)
| VFloat (x : Q)
| VStr (s : string).

(** [JournalType.value]. *)
Definition JournalType_value (j : JournalType) : string :=
  match j with
  | ELSEVIER => "elsevier"
  | NON_ELSEVIER => "non_elsevier"
  | UNKNOWN => "unknown"
  end.

(** [DownloadStatus.value]. *)
Definition DownloadStatus_value (d : DownloadStatus) : string :=
  match d with
  | PENDING => "pending"
  | DOWNLOADING => "downloading"
  | DOWNLOADED => "downloaded"
  | FAILED => "failed"
  | SKIPPED => "skipped"
  end.

(** [JournalType(value)]: the member with this value, or [ValueError]
    (whose message shows the value plainly, where Python shows its
    [repr]). *)
Definition JournalType_of (value : string) : res JournalType :=
  if String.eqb value "elsevier" then Ok ELSEVIER
  else if String.eqb value "non_elsevier" then Ok NON_ELSEVIER
  else if String.eqb value "unknown" then Ok UNKNOWN
  else Exc (ValueError ("'" ++ value ++ "' is not a valid JournalType")).

(** [DownloadStatus(value)]. *)
Definition DownloadStatus_of (value : string) : res DownloadStatus :=
  if String.eqb value "pending" then Ok PENDING
  else if String.eqb value "downloading" then Ok DOWNLOADING
  else if String.eqb value "downloaded" then Ok DOWNLOADED
  else if String.eqb value "failed" then Ok FAILED
  else if String.eqb value "skipped" then Ok SKIPPED
  else Exc (ValueError ("'" ++ value ++ "' is not a valid DownloadStatus")).

(** [sep.join(items)]. *)
Fixpoint join (sep : string) (items : list string) : string :=
  match items with
  | [] => EmptyString
  | [a] => a
  | a :: rest => a ++ sep ++ join sep rest
  end.

(** [s.split(sep)] for a separator of one character. *)
Fixpoint split (sep : ascii) (s : string) : list string :=
  match s with
  | EmptyString => [EmptyString]
  | String c s' =>
      if Ascii.eqb c sep then EmptyString :: split sep s'
      else match split sep s' with
           | [] => [String c EmptyString]
           | part :: parts => String c part :: parts
           end
  end.

(** [Paper.to_dict]: the columns in the order of the source. *)
Definition to_dict (p : Paper) : list (string * Value) :=
  [ ("paper_index", VInt (paper_index p));
    ("title", VStr (title p));
    ("doi", VStr (doi p));
    ("authors", VStr (join "; " (authors p)));
    ("journal", VStr (journal p));
    ("year", VInt (year p));
    ("citation_count", VInt (citation_count p));
    ("abstract", VStr (abstract p));
    ("relevance_score", VFloat (relevance_score p));
    ("priority_score", VFloat (priority_score p));
    ("is_selected", VBool (is_selected p));
    ("journal_type", VStr (JournalType_value (journal_type p)));
    ("download_status", VStr (DownloadStatus_value (download_status p)));
    ("pdf_filename", VStr (pdf_filename p));
    ("pdf_size", VInt (pdf_size p));
    ("analysis_completed", VBool (analysis_completed p)) ].

(** [d[key]] on the dictionary [to_dict] returns. *)
Fixpoint lookup (key : string) (d : list (string * Value)) : option Value :=
  match d with
  | [] => None
  | (k, v) :: rest => if String.eqb k key then Some v else lookup key rest
  end.

Section Cells.
(** [repr] of a float, and [int(s)] and [float(s)] on a string: left
    open. *)
Variable repr_float : Q -> string.
Variable parse_int : string -> res Z.
Variable parse_float : string -> res Q.

(** What [csv.DictWriter] writes for a value: a string as it is,
    anything else through [str]. *)
Definition csv_text (v : Value) : string :=
  match v with
  | VBool true => "True"
  | VBool false => "False"
  | VInt n => NilZero.string_of_int (Z.to_int n)
  | VFloat x => repr_float x
  | VStr s => s
  end.

(** The cell written for [p] in a column. *)
Definition written (p : Paper) (column : string) : option string :=
  match lookup column (to_dict p) with
  | Some v => Some (csv_text v)
  | None => None
  end.

(** [data.get(key, '')] on a row of strings. *)
Definition get_str (data : string -> option string) (key : string) : string :=
  match data key with
  | Some s => s
  | None => EmptyString
  end.

(** [int(data.get(key, 0) or 0)]: an absent or empty cell is [0]. *)
Definition get_int (data : string -> option string) (key : string) : res Z :=
  match data key with
  | Some (String c s) => parse_int (String c s)
  | _ => Ok 0%Z
  end.

(** [float(data.get(key, 0.0) or 0.0)]. *)
Definition get_float (data : string -> option string) (key : string) : res Q :=
  match data key with
  | Some (String c s) => parse_float (String c s)
  | _ => Ok 0
  end.

(** [bool(data.get(key, False))]: a string is true unless it is empty. *)
Definition get_bool (data : string -> option string) (key : string) : bool :=
  match data key with
  | Some (String _ _) => true
  | _ => false
  end.

(** [[a.strip() for a in authors.split(';') if a.strip()]]. *)
Definition authors_of (cell : string) : list string :=
  map Py.strip
    (filter (fun a => negb (String.eqb (Py.strip a) EmptyString)) (split ";" cell)).

(** [Paper.from_dict] on a row of strings, as [csv.DictReader] yields
    them; the arguments of [cls(...)] are evaluated in the order of the
    source. *)
Definition from_dict (data : string -> option string) : res Paper :=
  let authors := authors_of (get_str data "authors") in
  match get_int data "year" with Exc e => Exc e | Ok year =>
  match get_int data "citation_count" with Exc e => Exc e | Ok citation_count =>
  match get_int data "paper_index" with Exc e => Exc e | Ok paper_index =>
  match get_float data "relevance_score" with Exc e => Exc e | Ok relevance_score =>
  match get_float data "priority_score" with Exc e => Exc e | Ok priority_score =>
  match JournalType_of
          (match data "journal_type" with Some s => s | None => "unknown" end)
  with Exc e => Exc e | Ok journal_type =>
  match DownloadStatus_of
          (match data "download_status" with Some s => s | None => "pending" end)
  with Exc e => Exc e | Ok download_status =>
  match get_int data "pdf_size" with Exc e => Exc e | Ok pdf_size =>
  Ok (mkPaper (get_str data "title") (get_str data "doi") authors
        (get_str data "journal") year citation_count (get_str data "abstract")
        paper_index relevance_score priority_score
        (get_bool data "is_selected") journal_type download_status
        (get_str data "pdf_filename") pdf_size
        (get_bool data "analysis_completed"))
  end end end end end end end end.

End Cells.

End PaperDict.

(* ================================================================== *)
(** * The priority score as the specification words it *)
(* ================================================================== *)

(** The terms of the composite score of the specification, as functions
    of the four inputs alone: the relevance, the provider bonus, the
    vintage bonuses that apply (one for Elsevier; one, and a further one
    for the narrower window, otherwise) and the capped citation bonus. *)
Definition spec_provider_bonus (tag : JournalType) : Q :=
  match tag with ELSEVIER => 3 | _ => 1 end.

Definition spec_vintage_bonuses (tag : JournalType) (yr : Z) : list Q :=
  match tag with
  | ELSEVIER => if (2018 <=? yr)%Z then [1] else []
  | _ => (if (yr <=? 2019)%Z then [1] else [])
         ++ (if (2010 <=? yr)%Z && (yr <=? 2018)%Z then [1 # 2] else [])
  end.

(** The sum of the terms in exact arithmetic. *)
Definition exact_sum (terms : list Q) : Q := fold_left Qplus terms 0.

(** The sum of the terms as doubles add up: from [0.0], left to right,
    every partial sum rounded to the nearest double. *)
Definition float_sum (terms : list Q) : Q := fold_left Float.add terms 0.

(** The score in exact arithmetic. *)
Definition exact_priority_score (relevance : Q) (tag : JournalType) (yr cites : Z) : Q :=
  exact_sum ([relevance; spec_provider_bonus tag] ++ spec_vintage_bonuses tag yr
             ++ [Qmin (inject_Z cites / 50) 2]).

(** The score in double precision; the citation count is converted and
    divided as floats are. *)
Definition spec_citation_bonus (cites : Z) : Q :=
  Qmin (Float.div (Float.round64 (inject_Z cites)) 50) 2.

Definition spec_priority_score (relevance : Q) (tag : JournalType) (yr cites : Z) : Q :=
  float_sum ([relevance; spec_provider_bonus tag] ++ spec_vintage_bonuses tag yr
             ++ [spec_citation_bonus cites]).

(** The citation count of every paper of the list converts to a float. *)
Definition citations_fit (h : Heap) (rs : list ref) : Prop :=
  forall r, In r rs -> Float.int_fits (citation_count (h r)) = true.

(** The score of a paper whose citation count converts to a float. *)
Definition score (p : Paper) : Q :=
  match SmartDownloadManager.score_of p with
  | Ok s => s
  | Exc _ => 0
  end.

(** [ys] is [xs] sorted by [key], largest first, ties in the order of
    [xs]. *)
Definition stable_desc {A} (key : A -> Q) (xs ys : list A) : Prop :=
  Permutation xs ys
  /\ StronglySorted (fun a b => key b <= key a) ys
  /\ forall q, filter (fun a => Qeq_bool (key a) q) ys
               = filter (fun a => Qeq_bool (key a) q) xs.

(** A paper with its score recomputed. *)
Definition rescored (p : Paper) : Paper :=
  set_priority_score (score p) p.

(** [r] is one of the objects of [rs]. *)
Definition mem (r : ref) (rs : list ref) : bool := existsb (Nat.eqb r) rs.

(** Two stores hold the same papers. *)
Definition same_heap (h1 h2 : Heap) : Prop := forall r, h1 r = h2 r.

(** C7 as stated: on every non-empty pool the scorer returns, the score
    it stores is the sum of the four terms, and the order it returns is
    the stable descending one. *)
Definition priority_score_as_stated : Prop :=
  forall (r0 : ref) (rest : list ref) (w : World),
    exists scored w',
      SmartDownloadManager._calculate_priority_scores (r0 :: rest) w = (Ok scored, w')
      /\ (forall r, In r (r0 :: rest) ->
            priority_score (heap w' r)
            == exact_priority_score (relevance_score (heap w r)) (journal_type (heap w r))
                                    (year (heap w r)) (citation_count (heap w r)))
      /\ stable_desc (fun r => priority_score (heap w' r)) (r0 :: rest) scored.

(* ================================================================== *)
(** * The retry policy as the specification words it *)
(* ================================================================== *)

(** "An error whose message contains 403 is never retried": an operation
    that fails with such an error on every call is called once. *)
Definition fatal_403_single_attempt : Prop :=
  forall (e : exn) (delay : Q),
    Py.str_contains (exn_msg e) "403" = true ->
    Utils.count_calls
      (snd (Utils.retry_on_failure Utils.trace_sleep 3 delay (Utils.failing e) []))
    = 1%nat.

(* ================================================================== *)
(** * Outcomes of one download attempt *)
(* ================================================================== *)

(** The attempt returned, and the paper's status agrees with what it
    returned: [DOWNLOADED] for [True], [FAILED] for [False]. *)
Definition status_settled (r : ref) (out : res bool * World) : Prop :=
  match out with
  | (Ok true, w') => download_status (heap w' r) = DOWNLOADED
  | (Ok false, w') => download_status (heap w' r) = FAILED
  | (Exc _, _) => False
  end.

(** The attempt returned and did not leave the paper [DOWNLOADING]. *)
Definition status_not_in_progress (r : ref) (out : res bool * World) : Prop :=
  match out with
  | (Ok true, w') => download_status (heap w' r) = DOWNLOADED
  | (Ok false, w') => download_status (heap w' r) <> DOWNLOADING
  | (Exc _, _) => False
  end.

(* ================================================================== *)
(** * What the rate limiter owes its callers *)
(* ================================================================== *)

(** Every acquisition of the log was granted at a time no earlier than
    the ones before it, and with fewer than [cpm] of them inside its
    trailing 60 seconds. *)
Inductive granted_below_ceiling (cpm : Z) : list Q -> Prop :=
| gbc_nil : granted_below_ceiling cpm []
| gbc_snoc (hist : list Q) (t : Q) :
    granted_below_ceiling cpm hist ->
    Forall (fun x => x <= t) hist ->
    (Py.len (filter (Utils.in_window t) hist) < cpm)%Z ->
    granted_below_ceiling cpm (hist ++ [t]).

(** The state of a limiter between two calls: [self.calls] is the part of
    the log that was inside the window at the time [L] of the last
    filtering, and nothing was granted after [L]. *)
Definition limiter_inv (cpm : Z) (s : Utils.Timed) : Prop :=
  Utils.calls_per_minute (Utils.limiter s) = cpm
  /\ granted_below_ceiling cpm (Utils.history s)
  /\ exists L, L <= Utils.clock s
               /\ Forall (fun x => x <= L) (Utils.history s)
               /\ Utils.calls (Utils.limiter s)
                  = filter (Utils.in_window L) (Utils.history s).

(** The gaps and delays of a run are not negative. *)
Definition forward_in_time (evs : list (Q * Q)) : Prop :=
  Forall (fun ev => 0 <= fst ev /\ 0 <= snd ev) evs.

(** C8 as stated: after every sequence of calls, whatever the clock does,
    no window of 60 seconds holds more granted acquisitions than the
    ceiling. *)
Definition rate_limit_as_stated : Prop :=
  forall (cpm : Z) (t0 : Q) (evs : list (Q * Q)) (T : Q),
    (0 <= cpm)%Z ->
    (Py.len (Utils.granted_in_window T
               (Utils.history (snd (Utils.run_calls evs (Utils.fresh cpm t0))))) <= cpm)%Z.

(* ================================================================== *)
(** * Precise selection as the specification words it *)
(* ================================================================== *)

(** [idx, idx + 1, ...]: the numbers that [enumerate(xs, idx)] deals out
    to [n] items. *)
Fixpoint count_from (idx : Z) (n : nat) : list Z :=
  match n with
  | O => []
  | S n' => idx :: count_from (idx + 1) n'
  end.

Definition is_skipped (h : Heap) (r : ref) : bool :=
  DownloadStatus_eqb (download_status (h r)) SKIPPED.

(** What precise selection is to achieve on [all_downloads] with more
    than [target_count] papers: [selected] are the [target_count] best,
    the others (and only they) are [SKIPPED], and the selected papers are
    numbered 1, 2, ... in their order. *)
Definition precisely_selected (all_downloads : list ref) (target_count : Z)
    (w : World) (selected : list ref) (w' : World) : Prop :=
  selected
  = firstn (Z.to_nat target_count)
      (SmartDownloadManager.sort_desc
         (fun r => score (heap w r)) all_downloads)
  /\ Py.len selected = target_count
  /\ (forall s r, In s selected -> In r all_downloads -> ~ In r selected ->
        score (heap w r) <= score (heap w s))
  /\ (forall r, In r selected -> download_status (heap w' r) = DOWNLOADED)
  /\ (forall r, In r all_downloads -> ~ In r selected ->
        download_status (heap w' r) = SKIPPED)
  /\ Py.len (filter (is_skipped (heap w')) all_downloads)
     = (Py.len all_downloads - target_count)%Z
  /\ map (fun r => paper_index (heap w' r)) selected
     = count_from 1 (Z.to_nat target_count).

(** The papers of the list are distinct objects, all downloaded. *)
Definition downloaded_pool (w : World) (rs : list ref) : Prop :=
  NoDup rs /\ forall r, In r rs -> download_status (heap w r) = DOWNLOADED.

(** No two papers of the list are equal field by field once their scores
    are recomputed (they differ in DOI, say, or in index). *)
Definition distinct_once_scored (h : Heap) (rs : list ref) : Prop :=
  forall r1 r2, In r1 rs -> In r2 rs -> r1 <> r2 ->
    Paper_eqb (rescored (h r1)) (rescored (h r2)) = false.

(** C2 as stated: for every list of more than [target_count] downloaded
    papers. *)
Definition precise_selection_as_stated : Prop :=
  forall (all_downloads : list ref) (target_count : Z) (w : World),
    (0 <= target_count < Py.len all_downloads)%Z ->
    downloaded_pool w all_downloads ->
    exists selected w',
      SmartDownloadManager._precise_selection all_downloads target_count w
      = (Ok selected, w')
      /\ precisely_selected all_downloads target_count w selected w'.

(* ================================================================== *)
(** * Outcomes of the phases *)
(* ================================================================== *)

(** The fields of a paper that no download attempt changes (the journal
    type is overridden during an attempt and restored at its end). *)
Definition kept (p : Paper) :=
  (title p, doi p, authors p, journal p, year p, citation_count p, abstract p,
   paper_index p, relevance_score p, priority_score p, is_selected p,
   journal_type p, analysis_completed p).

Definition succeeded (o : Outcome) : bool :=
  match o with
  | Returns true _ => true
  | _ => false
  end.

(** Both downloaders succeed at every call. *)
Definition always_succeeding (P : Providers) : Prop :=
  forall (tr : list Event) (p : Paper),
    succeeded (elsevier_download_pdf P tr p) = true
    /\ succeeded (anna_download_pdf P tr p) = true.

(** Every paper of the list has a DOI. *)
Definition with_doi (h : Heap) (rs : list ref) : Prop :=
  forall r, In r rs -> String.eqb (doi (h r)) EmptyString = false.

(** How many papers the attempt loop takes when every attempt succeeds:
    it stops at the bound, but not before its first success. *)
Definition taken (target_count : Z) (successful_downloads : list ref) : nat :=
  Z.to_nat (Z.max 1 (target_count - Py.len successful_downloads)).

(* ================================================================== *)
(** * What the phases leave alone *)
(* ================================================================== *)

(** The fields of a paper that no phase writes: everything but the
    priority score and the download fields. *)
Definition fixed (p : Paper) :=
  (title p, doi p, authors p, journal p, year p, citation_count p, abstract p,
   paper_index p, relevance_score p, is_selected p, journal_type p,
   analysis_completed p).

(** The status a paper can have after the phases, given the one it had:
    the same, or that of an attempt that ended. *)
Definition status_after (before after : DownloadStatus) : Prop :=
  after = before \/ after = DOWNLOADED \/ after = FAILED.

(** A store that differs from another in priority scores at most. *)
Definition rescoring (h h' : Heap) : Prop :=
  forall x, exists v, h' x = set_priority_score v (h x).

(** The status a paper can have when the phases raise: as above, or that
    of the attempt that was under way. *)
Definition status_during (before after : DownloadStatus) : Prop :=
  status_after before after \/ after = DOWNLOADING.

(** [xs] has at most [n] items, and none when [n] is negative. *)
Definition bounded_by (n : Z) {A} (xs : list A) : Prop :=
  (Py.len xs <= Z.max 0 n)%Z.

(** The exceptions of scoring and attempting the papers of a pool: the
    [OverflowError] of a citation count that does not convert to a float,
    or what the making of the PDF folder raised. *)
Definition phase_error (P : Providers) (h : Heap) (pool : list ref) (e : exn) : Prop :=
  (e = OverflowError
   /\ exists x, In x pool /\ Float.int_fits (citation_count (h x)) = false)
  \/ (exists tr, mkdir P tr = Exc e).

(** The PDF folder can be made at every moment. *)
Definition folder_ready (P : Providers) : Prop :=
  forall tr, mkdir P tr = Ok tt.

(* ================================================================== *)
(** * How [download_paper] routes *)
(* ================================================================== *)

(** The downloader returned [(False, _)]: it reported a failure, it did
    not raise. *)
Definition reported_failure (o : Outcome) : bool :=
  match o with
  | Returns false _ => true
  | _ => false
  end.

(** The paper as [download_paper] hands it to a downloader. *)
Definition in_progress (p : Paper) : Paper := set_download_status DOWNLOADING p.

(** The downloaders called by one [download_paper], in order, and what it
    returns: nobody without a DOI; Anna Archive alone for a DOI that is
    not Elsevier's; Elsevier for an Elsevier DOI, and Anna Archive after
    it only when Elsevier reported a failure. *)
Definition routed (P : Providers) (tr : list Event) (r : ref) (p : Paper)
    (route : list Provider) (returned : res bool) : Prop :=
  match route with
  | [] =>
      doi p = EmptyString /\ returned = Ok false
  | [AnnaProvider] =>
      doi p <> EmptyString
      /\ Utils.is_elsevier_doi (doi p) = false
      /\ returned = Ok (succeeded (anna_download_pdf P tr (in_progress p)))
  | [ElsevierProvider] =>
      Utils.is_elsevier_doi (doi p) = true
      /\ reported_failure (elsevier_download_pdf P tr (in_progress p)) = false
      /\ returned = Ok (succeeded (elsevier_download_pdf P tr (in_progress p)))
  | [ElsevierProvider; AnnaProvider] =>
      Utils.is_elsevier_doi (doi p) = true
      /\ reported_failure (elsevier_download_pdf P tr (in_progress p)) = true
      /\ returned
         = Ok (succeeded (anna_download_pdf P (tr ++ [Attempt ElsevierProvider r])
                            (in_progress p)))
  | _ => False
  end.

(* ================================================================== *)
(** * What the byte fetchers leave on disk *)
(* ================================================================== *)





(* ================================================================== *)
(** * Runs of the retry wrapper and of the rate limiter *)
(* ================================================================== *)

(** A script of calls that raise the exceptions [es], in this order. *)
Definition raising (es : list exn) : list (res bool) := map (fun e => Exc e) es.

(** The trace of [n] failed attempts from attempt number [k] on, each
    followed by its back-off. *)
Fixpoint failed_attempts (delay : Q) (k : Z) (n : nat) : list Utils.RetryEvent :=
  match n with
  | O => []
  | S n' => Utils.Called :: Utils.Slept (delay * inject_Z (2 ^ k))
              :: failed_attempts delay (k + 1) n'
  end.

(** The clock after the gaps of [evs] when no call sleeps. *)
Definition unthrottled_clock (t0 : Q) (evs : list (Q * Q)) : Q :=
  fold_left (fun t ev => t + fst ev) evs t0.

(** The times at which the calls of [evs] are granted when no call
    sleeps. *)
Fixpoint unthrottled_times (t0 : Q) (evs : list (Q * Q)) : list Q :=
  match evs with
  | [] => []
  | (gap, _) :: evs' => (t0 + gap) :: unthrottled_times (t0 + gap) evs'
  end.

(* ================================================================== *)
(** * What a sanitised name may contain *)
(* ================================================================== *)

(** A character that may stay in a file name: outside the replaced class
    and not whitespace. *)
Definition filename_safe (c : ascii) : bool :=
  negb (Re.is_unsafe c) && negb (Py.isspace c).

(** The last character of [String c s]. *)
Fixpoint last_char (c : ascii) (s : string) : ascii :=
  match s with
  | EmptyString => c
  | String c' s' => last_char c' s'
  end.

(** Neither the first nor the last character of [s] is one that [f]
    accepts. *)
Definition clean_ends (f : ascii -> bool) (s : string) : bool :=
  match s with
  | EmptyString => true
  | String c s' => negb (f c) && negb (f (last_char c s'))
  end.

(** [c in '._']. *)
Definition dot_or_underscore (c : ascii) : bool :=
  existsb (Ascii.eqb c) ["."; "_"]%char.

(* ================================================================== *)
(** * The books of the analysis loop *)
(* ================================================================== *)

(** How often [analyze_pdf] was called. *)
Definition count_analyze (tr : list MaterialAnalysisWorkflow.Step) : Z :=
  Py.len (filter (fun ev => match ev with
                            | MaterialAnalysisWorkflow.Analyze _ => true
                            | _ => false
                            end) tr).

(** The four download counters, which feed [get_success_rate]. *)
Definition download_counters (st : ProcessingStats) : Z * Z * Z * Z :=
  (elsevier_attempts st, elsevier_success st,
   anna_archive_attempts st, anna_archive_success st).

(** From [s] to [s'] the loop took up [started] papers, called
    [analyze_pdf] [calls] times, appended [entries] analyses, counted
    [successes] successes and [failures] failures, and left the download
    counters alone. *)
Definition moved {Analysis : Type} (s s' : MaterialAnalysisWorkflow.Desk Analysis)
    (started calls entries successes failures : Z) : Prop :=
  analysis_attempts (MaterialAnalysisWorkflow.stats s')
  = (analysis_attempts (MaterialAnalysisWorkflow.stats s) + started)%Z
  /\ count_analyze (MaterialAnalysisWorkflow.steps s')
     = (count_analyze (MaterialAnalysisWorkflow.steps s) + calls)%Z
  /\ Py.len (MaterialAnalysisWorkflow.analyses s')
     = (Py.len (MaterialAnalysisWorkflow.analyses s) + entries)%Z
  /\ analysis_success (MaterialAnalysisWorkflow.stats s')
     = (analysis_success (MaterialAnalysisWorkflow.stats s) + successes)%Z
  /\ MaterialAnalysisWorkflow.failed_count s'
     = (MaterialAnalysisWorkflow.failed_count s + failures)%Z
  /\ download_counters (MaterialAnalysisWorkflow.stats s')
     = download_counters (MaterialAnalysisWorkflow.stats s).

(** [save_analysis_text] never raises. *)
Definition saving_succeeds {Analysis : Type}
    (G : MaterialAnalysisWorkflow.Services Analysis) : Prop :=
  forall tr a, MaterialAnalysisWorkflow.save_analysis_text G tr a = Ok tt.

(** Every call of [analyze_pdf] raises, and [_is_retryable_error] answers
    [retryable] on the message of every error raised. *)
Definition analysis_always_raises {Analysis : Type}
    (G : MaterialAnalysisWorkflow.Services Analysis) (retryable : bool) : Prop :=
  forall tr p, exists e,
    MaterialAnalysisWorkflow.analyze_pdf G tr p = Exc e
    /\ Main._is_retryable_error (exn_msg e) = retryable.

(** Every call of [analyze_pdf] returns, and every call of
    [save_analysis_text] raises, [_is_retryable_error] answering
    [retryable] on the message of every error raised. *)
Definition saving_always_raises {Analysis : Type}
    (G : MaterialAnalysisWorkflow.Services Analysis) (retryable : bool) : Prop :=
  (forall tr p, exists a, MaterialAnalysisWorkflow.analyze_pdf G tr p = Ok a)
  /\ (forall tr a, exists e,
        MaterialAnalysisWorkflow.save_analysis_text G tr a = Exc e
        /\ Main._is_retryable_error (exn_msg e) = retryable).

(** What the loop does for one paper when every analysis raises. *)
Definition steps_when_analysis_raises (retryable : bool) (r : ref)
  : list MaterialAnalysisWorkflow.Step :=
  (if retryable
   then [ MaterialAnalysisWorkflow.Analyze r; MaterialAnalysisWorkflow.Pause 10;
          MaterialAnalysisWorkflow.Analyze r; MaterialAnalysisWorkflow.Pause 30;
          MaterialAnalysisWorkflow.Analyze r ]
   else [ MaterialAnalysisWorkflow.Analyze r ])
  ++ [ MaterialAnalysisWorkflow.Pause 2 ].

(** What the loop does for one paper when every save raises. *)
Definition steps_when_saving_raises (retryable : bool) (r : ref)
  : list MaterialAnalysisWorkflow.Step :=
  (if retryable
   then [ MaterialAnalysisWorkflow.Analyze r; MaterialAnalysisWorkflow.Save;
          MaterialAnalysisWorkflow.Pause 10;
          MaterialAnalysisWorkflow.Analyze r; MaterialAnalysisWorkflow.Save;
          MaterialAnalysisWorkflow.Pause 30;
          MaterialAnalysisWorkflow.Analyze r; MaterialAnalysisWorkflow.Save ]
   else [ MaterialAnalysisWorkflow.Analyze r; MaterialAnalysisWorkflow.Save ])
  ++ [ MaterialAnalysisWorkflow.Pause 2 ].

(* ================================================================== *)
(** * The download counters *)
(* ================================================================== *)

(** The paper [r] of the store [h] is typed as an Elsevier paper. *)
Definition typed_elsevier (h : Heap) (r : ref) : bool :=
  match journal_type (h r) with
  | ELSEVIER => true
  | _ => false
  end.

(** No download attempt was ever counted. *)
Definition no_attempt_counted (st : ProcessingStats) : Prop :=
  (elsevier_attempts st + anna_archive_attempts st <= 0)%Z.

(* ================================================================== *)
(** * Concrete pools used as test inputs *)
(* ================================================================== *)

Module Samples.

Local Open Scope string_scope.

(** An Elsevier paper of 2020 with 10 citations, relevance 6, selected
    first (index 1): priority 6 + 3 + 1 + 0.2. *)
Definition paperA : Paper :=
  mkPaper "Alpha" "10.1016/j.actamat.2020.01.001" [] "Acta Materialia"
          2020 10 EmptyString 1 6 0 true ELSEVIER PENDING EmptyString 0 false.

(** An ACS paper of 2015 with 100 citations, relevance 8, selected second
    (index 2): priority 8 + 1 + 1 + 0.5 + 2. *)
Definition paperB : Paper :=
  mkPaper "Beta" "10.1021/acs.chemmater.5b00001" [] "Chemistry of Materials"
          2015 100 EmptyString 2 8 0 true NON_ELSEVIER PENDING EmptyString 0 false.

(** A Springer paper of 2021 without citations, relevance 5, selected
    third (index 3): priority 5 + 1. *)
Definition paperC : Paper :=
  mkPaper "Gamma" "10.1007/s10853-021-00001-1" [] "Journal of Materials Science"
          2021 0 EmptyString 3 5 0 true NON_ELSEVIER PENDING EmptyString 0 false.

(** Object 0 is [paperA], object 1 is [paperB], every other object is
    [paperC]. *)
Definition heap3 : Heap :=
  fun r => match r with
           | O => paperA
           | S O => paperB
           | _ => paperC
           end.

Definition world3 : World := mkWorld heap3 [].

(** Both downloaders deliver a 2048-byte file at every call. *)
Definition always_succeed : Providers :=
  mkProviders (fun _ _ => Returns true 2048) (fun _ _ => Returns true 2048)
              (fun _ t => t) (fun _ _ => 2048%Z) (fun _ => Ok tt).

(** Both downloaders find nothing at every call. *)
Definition always_fail : Providers :=
  mkProviders (fun _ _ => Returns false 0) (fun _ _ => Returns false 0)
              (fun _ t => t) (fun _ _ => 0%Z) (fun _ => Ok tt).

(** Both downloaders raise at every call. *)
Definition always_raise : Providers :=
  mkProviders (fun _ _ => Raises (NetworkError "Request failed: 503"))
              (fun _ _ => Raises (NetworkError "Request failed: 503"))
              (fun _ t => t) (fun _ _ => 0%Z) (fun _ => Ok tt).

(** A [download_paper] that raises without touching the paper. *)
Definition raising_manager : ref -> string -> M World bool :=
  fun _ _ => raise (NetworkError "Request failed: 503").

(** Two papers of 2020 outside Elsevier: relevance 7.2 with 5 citations
    (object 0), relevance 7.3 without citations (every other object). *)
Definition paperLow : Paper :=
  mkPaper "Low" "10.1021/lo" [] "J" 2020 5 EmptyString 1 (Float.lit (36 # 5)) 0 true
          NON_ELSEVIER PENDING EmptyString 0 false.

Definition paperHigh : Paper :=
  mkPaper "High" "10.1021/hi" [] "J" 2020 0 EmptyString 2 (Float.lit (73 # 10)) 0 true
          NON_ELSEVIER PENDING EmptyString 0 false.

Definition rounding_world : World :=
  mkWorld (fun r => match r with O => paperLow | _ => paperHigh end) [].

(** A paper with [10 ** 309] citations. *)
Definition paperHuge : Paper :=
  mkPaper "Huge" "10.1021/hu" [] "J" 2020 (10 ^ 309) EmptyString 1 5 0 true
          NON_ELSEVIER PENDING EmptyString 0 false.

Definition huge_world : World := mkWorld (fun _ => paperHuge) [].

(** Two downloaded papers equal in every field, as objects 0 and 1. *)
Definition twin : Paper :=
  mkPaper "Twin" "10.1021/tw" [] "J" 2015 0 EmptyString 1 5 0 true NON_ELSEVIER
          DOWNLOADED "paper_01_Twin.pdf" 2048 false.

Definition twin_world : World := mkWorld (fun _ => twin) [].

(** Four calls on one limiter: at once, one second later, one second
    later again, and at once; no sleep is late. *)
Definition burst : list (Q * Q) := [(0%Q, 0%Q); (1%Q, 0%Q); (1%Q, 0%Q); (0%Q, 0%Q)].

(** Two calls a second apart, the sleep of the second one ending a
    millisecond early. *)
Definition early_wake : list (Q * Q) := [(0%Q, 0%Q); (1%Q, - (1 # 1000))].

(** Three distinct downloaded papers, as objects 0, 1 and 2. *)
Definition done (p : Paper) : Paper := set_download_status DOWNLOADED p.

Definition done_world : World := mkWorld (fun r => done (heap3 r)) [].

End Samples.

(* ================================================================== *)
(** * Concrete services used as test inputs *)
(* ================================================================== *)

Module AnalysisSamples.

Local Open Scope string_scope.

(** Counters of a run that has downloaded nothing yet. *)
Definition no_stats : ProcessingStats := mkProcessingStats 2 3 3 0 0 0 0 0 0.

(** The three sample papers, nothing analysed yet; an analysis is its
    text. *)
Definition desk3 : MaterialAnalysisWorkflow.Desk string :=
  MaterialAnalysisWorkflow.mkDesk Samples.heap3 no_stats [] [] 0.

(** Every analysis returns and every save succeeds. *)
Definition reader : MaterialAnalysisWorkflow.Services string :=
  MaterialAnalysisWorkflow.mkServices
    (fun _ p => Ok (title p)) (fun _ _ => Ok tt) (fun _ _ _ msg => msg).

(** Every analysis is refused with a 403. *)
Definition refused : MaterialAnalysisWorkflow.Services string :=
  MaterialAnalysisWorkflow.mkServices
    (fun _ _ => Exc (Exception "403 Forbidden")) (fun _ _ => Ok tt)
    (fun _ _ _ msg => msg).

(** Every analysis returns and every save times out. *)
Definition full_disk : MaterialAnalysisWorkflow.Services string :=
  MaterialAnalysisWorkflow.mkServices
    (fun _ p => Ok (title p)) (fun _ _ => Exc (Exception "write timed out"))
    (fun _ _ _ msg => msg).

(** A folder in which every file looked for exists, names are compared
    as strings, and every rename succeeds. *)
Definition plain_folder : DownloadPdfs.Folder :=
  DownloadPdfs.mkFolder (fun _ _ _ => true) String.eqb (fun _ _ _ _ => Ok tt).

(** The three sample papers before the download step of a run that asks
    for two. *)
Definition shelf3 : DownloadPdfs.Shelf :=
  DownloadPdfs.mkShelf Samples.world3 no_stats [].


(** Stand-ins for [repr], [int] and [float]: every float is written as
    [0.0] and read as zero; integers are read in plain decimal. *)
Definition plain_repr (x : Q) : string := "0.0".

Definition plain_int (s : string) : res Z :=
  match NilZero.int_of_string s with
  | Some d => Ok (Z.of_int d)
  | None => Exc (ValueError "invalid literal for int() with base 10")
  end.

Definition plain_float (s : string) : res Q := Ok 0.

(** The row written for the first sample paper, which is selected and
    not analysed, and the paper read back from it. *)
Definition rowA : string -> option string :=
  PaperDict.written plain_repr Samples.paperA.

Definition reloadedA : Paper :=
  mkPaper "Alpha" "10.1016/j.actamat.2020.01.001" [] "Acta Materialia"
          2020 10 EmptyString 1 0 0 true ELSEVIER PENDING EmptyString 0 true.


End AnalysisSamples.

(* ================================================================== *)
(** * Properties *)
(* ================================================================== *)

(** ** Comparisons on [Q] *)

Lemma Qle_bool_true (a b : Q) : Qle_bool a b = true <-> a <= b.
Proof. apply Qle_bool_iff. Qed.

Lemma Qle_bool_false (a b : Q) : Qle_bool a b = false <-> b < a.
Proof.
  split; intros H.
  - apply Qnot_le_lt. intros Hle. apply Qle_bool_iff in Hle. congruence.
  - destruct (Qle_bool a b) eqn:E; [|reflexivity].
    apply Qle_bool_iff in E. exfalso. apply (Qlt_not_le _ _ H E).
Qed.

Lemma Qlt_bool_true (a b : Q) : Utils.Qlt_bool a b = true <-> a < b.
Proof.
  unfold Utils.Qlt_bool. rewrite negb_true_iff. apply Qle_bool_false.
Qed.

Lemma Qlt_bool_false (a b : Q) : Utils.Qlt_bool a b = false <-> b <= a.
Proof.
  unfold Utils.Qlt_bool. rewrite negb_false_iff. apply Qle_bool_true.
Qed.

Lemma Py_min_Qmin (a b : Q) : Py.min a b == Qmin a b.
Proof.
  unfold Py.min. destruct (Qle_bool a b) eqn:E.
  - apply Qle_bool_true in E. symmetry. apply Q.min_l. exact E.
  - apply Qle_bool_false in E. symmetry. apply Q.min_r. apply Qlt_le_weak. exact E.
Qed.

(** ** The score of one paper *)

Section Score.
Import SmartDownloadManager.

Lemma Py_min_is_Qmin (a b : Q) : Py.min a b = Qmin a b.
Proof.
  unfold Py.min, Qmin, GenericMinMax.gmin.
  destruct (Qle_bool a b) eqn:E; destruct (a ?= b) eqn:C; try reflexivity; exfalso.
  - apply Qle_bool_true in E. apply Qgt_alt in C. exact (Qlt_not_le _ _ C E).
  - apply Qle_bool_false in E. apply Qeq_alt in C. rewrite C in E.
    exact (Qlt_irrefl _ E).
  - apply Qle_bool_false in E. apply Qlt_alt in C.
    exact (Qlt_irrefl _ (Qlt_trans _ _ _ C E)).
Qed.

(** The accumulated score is the specification's sum of doubles, when the
    citation count converts to a float. *)
Lemma score_of_spec (p : Paper) :
  Float.int_fits (citation_count p) = true ->
  score_of p = Ok (spec_priority_score (relevance_score p) (journal_type p)
                                       (year p) (citation_count p)).
Proof.
  intros Hfit.
  unfold score_of, Float.int_truediv, Float.of_int. rewrite Hfit.
  unfold spec_priority_score, float_sum, spec_provider_bonus,
    spec_vintage_bonuses, spec_citation_bonus.
  rewrite Py_min_is_Qmin.
  replace (year p >=? 2018)%Z with (2018 <=? year p)%Z
    by (rewrite Z.geb_leb; reflexivity).
  destruct (journal_type p);
    destruct (2018 <=? year p)%Z, (year p <=? 2019)%Z,
             (2010 <=? year p)%Z, (year p <=? 2018)%Z;
    cbn [app fold_left andb]; reflexivity.
Qed.

(** Scoring a paper raises nothing but the [OverflowError] of the
    conversion of its citation count. *)
Lemma score_of_fits (p : Paper) :
  Float.int_fits (citation_count p) = true -> score_of p = Ok (score p).
Proof.
  intros Hfit. unfold score. rewrite (score_of_spec p Hfit). reflexivity.
Qed.

Lemma score_of_overflow (p : Paper) :
  Float.int_fits (citation_count p) = false -> score_of p = Exc OverflowError.
Proof.
  intros Hfit. unfold score_of, Float.int_truediv, Float.of_int. rewrite Hfit.
  reflexivity.
Qed.

Lemma score_of_ok (p : Paper) (s : Q) :
  score_of p = Ok s -> s = score p /\ Float.int_fits (citation_count p) = true.
Proof.
  intros H. destruct (Float.int_fits (citation_count p)) eqn:Hfit.
  - rewrite (score_of_fits p Hfit) in H. injection H as <-. split; reflexivity.
  - rewrite (score_of_overflow p Hfit) in H. discriminate H.
Qed.

Lemma score_of_error (p : Paper) (e : exn) :
  score_of p = Exc e ->
  e = OverflowError /\ Float.int_fits (citation_count p) = false.
Proof.
  intros H. destruct (Float.int_fits (citation_count p)) eqn:Hfit.
  - rewrite (score_of_fits p Hfit) in H. discriminate H.
  - rewrite (score_of_overflow p Hfit) in H. injection H as <-. split; reflexivity.
Qed.

(** The score reads four fields only. *)
Lemma score_of_pure (p q : Paper) :
  relevance_score p = relevance_score q ->
  journal_type p = journal_type q ->
  year p = year q ->
  citation_count p = citation_count q ->
  score_of p = score_of q.
Proof.
  intros Hr Hj Hy Hc. unfold score_of. rewrite Hr, Hj, Hy, Hc. reflexivity.
Qed.

Lemma score_of_set_priority (v : Q) (p : Paper) :
  score_of (set_priority_score v p) = score_of p.
Proof. apply score_of_pure; reflexivity. Qed.

Lemma score_rescored (p : Paper) : score (rescored p) = score p.
Proof. unfold score, rescored. rewrite score_of_set_priority. reflexivity. Qed.

Lemma rescored_idem (p : Paper) : rescored (rescored p) = rescored p.
Proof. unfold rescored at 1. rewrite score_rescored. reflexivity. Qed.
End Score.

(** ** The stable descending sort *)

Section Sort.
Import SmartDownloadManager.
Context {A : Type} (key : A -> Q).

Lemma insert_desc_perm (x : A) (xs : list A) :
  Permutation (x :: xs) (insert_desc key x xs).
Proof.
  induction xs as [|y xs IH]; simpl.
  - apply Permutation_refl.
  - destruct (Qle_bool (key y) (key x)).
    + apply Permutation_refl.
    + eapply perm_trans; [apply perm_swap|]. apply perm_skip. exact IH.
Qed.

Lemma sort_desc_perm (xs : list A) : Permutation xs (sort_desc key xs).
Proof.
  induction xs as [|x xs IH]; simpl.
  - apply perm_nil.
  - eapply perm_trans; [apply perm_skip; exact IH|]. apply insert_desc_perm.
Qed.

Lemma insert_desc_sorted (x : A) (xs : list A) :
  StronglySorted (fun a b => key b <= key a) xs ->
  StronglySorted (fun a b => key b <= key a) (insert_desc key x xs).
Proof.
  induction xs as [|y xs IH]; simpl; intros Hs.
  - constructor; constructor.
  - inversion Hs as [|? ? Hs' Hall]; subst.
    destruct (Qle_bool (key y) (key x)) eqn:E.
    + apply Qle_bool_true in E.
      constructor; [exact Hs|].
      constructor; [exact E|].
      eapply Forall_impl; [|exact Hall].
      intros z Hz. simpl in Hz. eapply Qle_trans; eassumption.
    + apply Qle_bool_false in E.
      constructor; [apply IH; exact Hs'|].
      eapply Permutation_Forall; [apply insert_desc_perm|].
      constructor; [apply Qlt_le_weak; exact E | exact Hall].
Qed.

Lemma sort_desc_sorted (xs : list A) :
  StronglySorted (fun a b => key b <= key a) (sort_desc key xs).
Proof.
  induction xs as [|x xs IH]; simpl.
  - constructor.
  - apply insert_desc_sorted. exact IH.
Qed.

(** Insertion never moves [x] past an element of its own score class. *)
Lemma insert_desc_filter (q : Q) (x : A) (xs : list A) :
  filter (fun a => Qeq_bool (key a) q) (insert_desc key x xs)
  = filter (fun a => Qeq_bool (key a) q) (x :: xs).
Proof.
  induction xs as [|y xs IH]; [reflexivity|].
  simpl insert_desc. destruct (Qle_bool (key y) (key x)) eqn:E; [reflexivity|].
  apply Qle_bool_false in E.
  simpl. simpl in IH. rewrite IH.
  destruct (Qeq_bool (key x) q) eqn:Ex; [|reflexivity].
  destruct (Qeq_bool (key y) q) eqn:Ey; [|reflexivity].
  apply Qeq_bool_iff in Ex, Ey. exfalso.
  rewrite Ex, Ey in E. apply (Qlt_irrefl q). exact E.
Qed.

Lemma sort_desc_filter (q : Q) (xs : list A) :
  filter (fun a => Qeq_bool (key a) q) (sort_desc key xs)
  = filter (fun a => Qeq_bool (key a) q) xs.
Proof.
  induction xs as [|x xs IH]; [reflexivity|].
  simpl sort_desc. rewrite insert_desc_filter. simpl. rewrite IH. reflexivity.
Qed.

Lemma sort_desc_stable (xs : list A) : stable_desc key xs (sort_desc key xs).
Proof.
  split; [apply sort_desc_perm|].
  split; [apply sort_desc_sorted|].
  intros q. apply sort_desc_filter.
Qed.

Lemma sort_desc_length (xs : list A) : List.length (sort_desc key xs) = List.length xs.
Proof. symmetry. apply Permutation_length. apply sort_desc_perm. Qed.

Lemma sort_desc_nonempty (x : A) (xs : list A) : sort_desc key (x :: xs) <> [].
Proof.
  intros H. pose proof (sort_desc_length (x :: xs)) as L.
  rewrite H in L. discriminate L.
Qed.
End Sort.

Lemma insert_desc_ext {A} (k1 k2 : A -> Q) (x : A) (xs : list A) :
  k1 x = k2 x -> (forall a, In a xs -> k1 a = k2 a) ->
  SmartDownloadManager.insert_desc k1 x xs = SmartDownloadManager.insert_desc k2 x xs.
Proof.
  intros Hx. induction xs as [|y xs IH]; intros H; [reflexivity|].
  simpl. rewrite Hx, (H y (or_introl eq_refl)).
  destruct (Qle_bool (k2 y) (k2 x)); [reflexivity|].
  f_equal. apply IH. intros a Ha. apply H. right. exact Ha.
Qed.

Lemma sort_desc_ext {A} (k1 k2 : A -> Q) (xs : list A) :
  (forall a, In a xs -> k1 a = k2 a) ->
  SmartDownloadManager.sort_desc k1 xs = SmartDownloadManager.sort_desc k2 xs.
Proof.
  induction xs as [|x xs IH]; intros H; [reflexivity|].
  simpl. rewrite IH by (intros a Ha; apply H; right; exact Ha).
  apply insert_desc_ext.
  - apply H. left. reflexivity.
  - intros a Ha. apply H. right.
    eapply Permutation_in; [apply Permutation_sym, sort_desc_perm|exact Ha].
Qed.

(** ** Scoring a list of papers in the store *)

Section Scoring.
Import SmartDownloadManager.

Lemma mem_In (r : ref) (rs : list ref) : mem r rs = true <-> In r rs.
Proof.
  unfold mem. rewrite existsb_exists. split.
  - intros [x [Hx E]]. apply Nat.eqb_eq in E. subst. exact Hx.
  - intros H. exists r. split; [exact H | apply Nat.eqb_refl].
Qed.

Lemma upd_same (r : ref) (f : Paper -> Paper) (h : Heap) : upd r f h r = f (h r).
Proof. unfold upd. rewrite Nat.eqb_refl. reflexivity. Qed.

Lemma upd_other (r r' : ref) (f : Paper -> Paper) (h : Heap) :
  r' <> r -> upd r f h r' = h r'.
Proof.
  intros H. unfold upd. destruct (Nat.eqb r' r) eqn:E; [|reflexivity].
  apply Nat.eqb_eq in E. contradiction.
Qed.

Lemma set_priority_score_same (p : Paper) : set_priority_score (priority_score p) p = p.
Proof. destruct p. reflexivity. Qed.

Lemma rescoring_refl (h : Heap) : rescoring h h.
Proof. intros x. exists (priority_score (h x)). symmetry. apply set_priority_score_same. Qed.

Lemma rescoring_trans (h1 h2 h3 : Heap) :
  rescoring h1 h2 -> rescoring h2 h3 -> rescoring h1 h3.
Proof.
  intros H12 H23 x. destruct (H12 x) as [v Hv]. destruct (H23 x) as [v' Hv'].
  exists v'. rewrite Hv', Hv. reflexivity.
Qed.

Lemma rescoring_upd (r : ref) (v : Q) (h : Heap) :
  rescoring h (upd r (set_priority_score v) h).
Proof.
  intros x. unfold upd. destruct (Nat.eqb x r).
  - exists v. reflexivity.
  - exists (priority_score (h x)). symmetry. apply set_priority_score_same.
Qed.

Lemma rescoring_fixed (h h' : Heap) (x : ref) :
  rescoring h h' -> fixed (h' x) = fixed (h x).
Proof. intros H. destruct (H x) as [v ->]. reflexivity. Qed.

Lemma rescoring_status (h h' : Heap) (x : ref) :
  rescoring h h' -> download_status (h' x) = download_status (h x).
Proof. intros H. destruct (H x) as [v ->]. reflexivity. Qed.

Lemma rescoring_citations (h h' : Heap) (x : ref) :
  rescoring h h' -> citation_count (h' x) = citation_count (h x).
Proof. intros H. destruct (H x) as [v ->]. reflexivity. Qed.

(** What the scoring loop does, however it ends: it writes priority
    scores only, and only of listed papers; when it returns, every listed
    paper is rescored; when it raises, a listed citation count does not
    convert to a float. *)
Lemma assign_scores_outcome (papers : list ref) :
  forall w,
    trace (snd (assign_scores papers w)) = trace w
    /\ rescoring (heap w) (heap (snd (assign_scores papers w)))
    /\ (forall x, ~ In x papers -> heap (snd (assign_scores papers w)) x = heap w x)
    /\ match fst (assign_scores papers w) with
       | Ok _ =>
           citations_fit (heap w) papers
           /\ forall r, heap (snd (assign_scores papers w)) r
                        = if mem r papers then rescored (heap w r) else heap w r
       | Exc e =>
           e = OverflowError
           /\ exists x, In x papers
                        /\ Float.int_fits (citation_count (heap w x)) = false
       end.
Proof.
  induction papers as [|r0 rest IH]; intros w.
  - cbn. split; [reflexivity|]. split; [apply rescoring_refl|].
    split; [reflexivity|]. split; [intros r []|reflexivity].
  - cbn [assign_scores]. cbv [bind get_paper gets lift set_attr modify].
    cbn [heap trace].
    destruct (score_of (heap w r0)) as [s|e] eqn:Es.
    + destruct (score_of_ok _ Es) as [-> Hfit0].
      set (w1 := mkWorld (upd r0 (set_priority_score (score (heap w r0))) (heap w))
                         (trace w)).
      destruct (IH w1) as [Htr [Hres [Hout Hend]]].
      assert (Hres1 : rescoring (heap w) (heap w1)) by apply rescoring_upd.
      destruct (assign_scores rest w1) as [[[]|e] w2]; cbn [fst snd] in *.
      * split; [exact Htr|]. split; [eapply rescoring_trans; eassumption|].
        split.
        { intros x Hx. rewrite Hout by (intros H; apply Hx; right; exact H).
          unfold w1. cbn [heap]. apply upd_other. intros ->. apply Hx. left. reflexivity. }
        destruct Hend as [Hfit Hheap]. split.
        { intros r [<-|Hr]; [exact Hfit0|].
          rewrite <- (rescoring_citations r Hres1). apply Hfit. exact Hr. }
        intros r. rewrite Hheap. unfold w1. cbn [heap mem existsb]. fold (mem r rest).
        unfold upd. destruct (Nat.eqb r r0) eqn:E.
        -- apply Nat.eqb_eq in E. subst r0. cbn [orb].
           destruct (mem r rest); [|reflexivity].
           unfold rescored at 1. unfold score. rewrite score_of_set_priority. reflexivity.
        -- reflexivity.
      * split; [exact Htr|]. split; [eapply rescoring_trans; eassumption|].
        split.
        { intros x Hx. rewrite Hout by (intros H; apply Hx; right; exact H).
          unfold w1. cbn [heap]. apply upd_other. intros ->. apply Hx. left. reflexivity. }
        destruct Hend as [-> [x [Hx Hfit]]]. split; [reflexivity|].
        exists x. split; [right; exact Hx|].
        rewrite <- (rescoring_citations x Hres1). exact Hfit.
    + cbn [fst snd]. destruct (score_of_error _ Es) as [-> Hfit].
      split; [reflexivity|]. split; [apply rescoring_refl|].
      split; [reflexivity|]. split; [reflexivity|].
      exists r0. split; [left; reflexivity|exact Hfit].
Qed.

Lemma assign_scores_run (papers : list ref) (w : World) :
  citations_fit (heap w) papers ->
  exists w',
    assign_scores papers w = (Ok tt, w')
    /\ trace w' = trace w
    /\ forall r, heap w' r = if mem r papers then rescored (heap w r) else heap w r.
Proof.
  intros Hfit. destruct (assign_scores_outcome papers w) as [Htr [_ [_ Hend]]].
  destruct (assign_scores papers w) as [[[]|e] w'] eqn:Hrun; cbn [fst snd] in *.
  - exists w'. split; [reflexivity|]. split; [exact Htr|apply Hend].
  - destruct Hend as [_ [x [Hx Hno]]]. rewrite (Hfit x Hx) in Hno. discriminate Hno.
Qed.

(** What the scorer does, however it ends. *)
Lemma calculate_priority_scores_outcome (pool : list ref) (w : World) :
  trace (snd (_calculate_priority_scores pool w)) = trace w
  /\ rescoring (heap w) (heap (snd (_calculate_priority_scores pool w)))
  /\ (forall x, ~ In x pool -> heap (snd (_calculate_priority_scores pool w)) x = heap w x)
  /\ match fst (_calculate_priority_scores pool w) with
     | Ok scored =>
         citations_fit (heap w) pool
         /\ scored
            = sort_desc (fun r => priority_score
                                   (heap (snd (_calculate_priority_scores pool w)) r)) pool
         /\ forall r, heap (snd (_calculate_priority_scores pool w)) r
                      = if mem r pool then rescored (heap w r) else heap w r
     | Exc e =>
         (pool = [] /\ e = IndexError)
         \/ (e = OverflowError
             /\ exists x, In x pool
                          /\ Float.int_fits (citation_count (heap w x)) = false)
     end.
Proof.
  destruct (assign_scores_outcome pool w) as [Htr [Hres [Hout Hend]]].
  unfold _calculate_priority_scores, bind, gets.
  destruct (assign_scores pool w) as [[[]|e] w'] eqn:Hrun; cbn [fst snd] in *.
  - destruct (sort_desc (fun r => priority_score (heap w' r)) pool) eqn:E;
      cbn [fst snd].
    + split; [exact Htr|]. split; [exact Hres|]. split; [exact Hout|].
      left. split; [|reflexivity].
      destruct pool as [|r0 rest]; [reflexivity|].
      exfalso. exact (sort_desc_nonempty _ _ _ E).
    + split; [exact Htr|]. split; [exact Hres|]. split; [exact Hout|].
      destruct Hend as [Hfit Hheap]. split; [exact Hfit|]. split; [|exact Hheap].
      symmetry. exact E.
  - split; [exact Htr|]. split; [exact Hres|]. split; [exact Hout|].
    right. exact Hend.
Qed.

(** On a non-empty list of papers whose citation counts convert, the
    scorer returns the stable descending sort of the list and leaves
    every listed paper rescored. *)
Lemma calculate_priority_scores_run (r0 : ref) (rest : list ref) (w : World) :
  citations_fit (heap w) (r0 :: rest) ->
  exists w',
    _calculate_priority_scores (r0 :: rest) w
    = (Ok (sort_desc (fun r => priority_score (heap w' r)) (r0 :: rest)), w')
    /\ trace w' = trace w
    /\ forall r, heap w' r
                 = if mem r (r0 :: rest) then rescored (heap w r) else heap w r.
Proof.
  intros Hfit.
  destruct (@assign_scores_run (r0 :: rest) w Hfit) as [w' [Hrun [Htr Hheap]]].
  exists w'. split; [|split; assumption].
  unfold _calculate_priority_scores, bind, gets. rewrite Hrun.
  destruct (sort_desc (fun r => priority_score (heap w' r)) (r0 :: rest)) eqn:E.
  - exfalso. exact (sort_desc_nonempty _ _ _ E).
  - reflexivity.
Qed.

(** On the empty list the scorer raises. *)
Lemma calculate_priority_scores_empty (w : World) :
  _calculate_priority_scores [] w = (Exc IndexError, w).
Proof. reflexivity. Qed.
End Scoring.

(** C7, as the code has it.  The score is a function of relevance,
    journal type, year and citation count alone.  On a non-empty pool
    whose citation counts convert to a float, [_calculate_priority_scores]
    returns; the priority score it stores is the sum in double precision,
    taken from 0.0 and from left to right, of the relevance, the provider
    bonus (+3.0 Elsevier, +1.0 otherwise), the vintage bonuses (Elsevier:
    +1.0 from 2018 on; otherwise +1.0 up to 2019, and then +0.5 for
    2010..2018) and min(citations / 50.0, 2.0), every partial sum being
    rounded to the nearest double; the returned order is the stable
    descending sort of the pool by that score (equal scores keep their
    pool order); and scoring the result again changes neither the order
    nor any paper.  On a pool with a citation count that does not convert
    to a float, the scorer raises [OverflowError]. *)
Theorem priority_score_formula_pure_stable
    (r0 : ref) (rest : list ref) (w : World) :
  (forall p q : Paper,
      relevance_score p = relevance_score q ->
      journal_type p = journal_type q ->
      year p = year q ->
      citation_count p = citation_count q ->
      SmartDownloadManager.score_of p = SmartDownloadManager.score_of q)
  /\ (citations_fit (heap w) (r0 :: rest) ->
      exists scored w',
        SmartDownloadManager._calculate_priority_scores (r0 :: rest) w = (Ok scored, w')
        /\ (forall r, In r (r0 :: rest) ->
              priority_score (heap w' r)
              = spec_priority_score (relevance_score (heap w r)) (journal_type (heap w r))
                                    (year (heap w r)) (citation_count (heap w r)))
        /\ stable_desc (fun r => priority_score (heap w' r)) (r0 :: rest) scored
        /\ exists w'',
            SmartDownloadManager._calculate_priority_scores (r0 :: rest) w' = (Ok scored, w'')
            /\ same_heap (heap w'') (heap w'))
  /\ (~ citations_fit (heap w) (r0 :: rest) ->
      fst (SmartDownloadManager._calculate_priority_scores (r0 :: rest) w)
      = Exc OverflowError).
Proof.
  split; [exact score_of_pure|]. split.
  - intros Hfit.
    destruct (@calculate_priority_scores_run r0 rest w Hfit) as [w' [Hrun [_ Hheap]]].
    exists (SmartDownloadManager.sort_desc (fun r => priority_score (heap w' r)) (r0 :: rest)), w'.
    split; [exact Hrun|].
    split.
    { intros r Hr. rewrite Hheap. rewrite (proj2 (mem_In r (r0 :: rest)) Hr).
      unfold rescored. cbn [priority_score set_priority_score].
      pose proof (score_of_spec (heap w r) (Hfit r Hr)) as Hs.
      unfold score. rewrite Hs. reflexivity. }
    split; [apply sort_desc_stable|].
    assert (Hfit' : citations_fit (heap w') (r0 :: rest)).
    { intros r Hr. rewrite Hheap, (proj2 (mem_In r (r0 :: rest)) Hr).
      exact (Hfit r Hr). }
    destruct (@calculate_priority_scores_run r0 rest w' Hfit') as [w'' [Hrun' [_ Hheap']]].
    exists w''. split.
    + rewrite Hrun'. f_equal. f_equal. apply sort_desc_ext.
      intros a Ha. rewrite Hheap', Hheap. apply mem_In in Ha. rewrite Ha.
      rewrite rescored_idem. reflexivity.
    + intros r. rewrite Hheap', Hheap. destruct (mem r (r0 :: rest)); [|reflexivity].
      apply rescored_idem.
  - intros Hno.
    destruct (calculate_priority_scores_outcome (r0 :: rest) w) as [_ [_ [_ Hend]]].
    destruct (fst (SmartDownloadManager._calculate_priority_scores (r0 :: rest) w))
      as [scored|e].
    + exfalso. apply Hno. apply Hend.
    + destruct Hend as [[Hnil _]|[-> _]]; [discriminate Hnil|reflexivity].
Qed.

(** C7 on the sample pool: the score ignores the stored priority, and the
    score stored for the ACS paper is the specification's sum of doubles,
    12.5. *)
Lemma priority_score_formula_pure_stable_witness :
  SmartDownloadManager.score_of Samples.paperA
  = SmartDownloadManager.score_of (set_priority_score 7 Samples.paperA)
  /\ citations_fit (heap Samples.world3) [0; 1; 2]%nat
  /\ exists scored w',
      SmartDownloadManager._calculate_priority_scores [0; 1; 2]%nat Samples.world3
      = (Ok scored, w')
      /\ priority_score (heap w' 1%nat)
         = spec_priority_score 8 NON_ELSEVIER 2015 100.
Proof.
  assert (Hfit : citations_fit (heap Samples.world3) [0; 1; 2]%nat).
  { intros r Hr. cbn in Hr. destruct Hr as [<-|[<-|[<-|[]]]]; vm_compute; reflexivity. }
  destruct (priority_score_formula_pure_stable 0%nat [1; 2]%nat Samples.world3)
    as [Hpure [Hrun _]].
  split; [apply Hpure; reflexivity|]. split; [exact Hfit|].
  destruct (Hrun Hfit) as [scored [w' [Hrun' [Hspec _]]]].
  exists scored, w'. split; [exact Hrun'|].
  apply (Hspec 1%nat). cbn. auto.
Defined.

Example sample_scores :
  map (fun p => SmartDownloadManager.score_of p)
      [Samples.paperA; Samples.paperB; Samples.paperC]
  = [Ok (Float.lit (51 # 5)); Ok (25 # 2); Ok 6].
Proof. vm_compute. reflexivity. Qed.

(** Sums of doubles are rounded: 7.2 + 1.0 + 0.1 is 8.299999999999999,
    below 7.3 + 1.0 = 8.3, although the first sum is the larger one in
    exact arithmetic.  The scorer puts the second paper first. *)
Example rounded_scores :
  SmartDownloadManager.score_of Samples.paperLow
  = Ok (4672484613396889 # 562949953421312)
  /\ SmartDownloadManager.score_of Samples.paperHigh = Ok (Float.lit (83 # 10))
  /\ (4672484613396889 # 562949953421312) < Float.lit (83 # 10)
  /\ exact_priority_score (relevance_score Samples.paperHigh) NON_ELSEVIER 2020 0
     < exact_priority_score (relevance_score Samples.paperLow) NON_ELSEVIER 2020 5
  /\ fst (SmartDownloadManager._calculate_priority_scores [0; 1]%nat Samples.rounding_world)
     = Ok [1; 0]%nat.
Proof.
  split; [vm_compute; reflexivity|]. split; [vm_compute; reflexivity|].
  split; [vm_compute; reflexivity|]. split; [vm_compute; reflexivity|].
  vm_compute. reflexivity.
Qed.

(** C7, as stated, fails: the score stored for a paper of relevance 7.2
    with 5 citations is a rounded sum, not the sum of its terms. *)
Lemma priority_score_is_a_rounded_sum : ~ priority_score_as_stated.
Proof.
  intros H.
  destruct (H 0%nat [1%nat] Samples.rounding_world) as [scored [w' [Hrun [Hsum _]]]].
  pose proof (f_equal snd Hrun) as Hw. cbn [snd] in Hw. subst w'.
  specialize (Hsum 0%nat (or_introl eq_refl)).
  vm_compute in Hsum. discriminate Hsum.
Qed.

(** The sums of Python: 6.12 + 3.0 + 1.0 is 10.120000000000001 while
    9.12 + 1.0 is 10.12, and 0.82 + 1.0 is 1.8199999999999998 while
    0.32 + 1.0 + 0.5 is 1.82; the literal 0.1 is the double
    3602879701896397 / 2 ** 55. *)
Example float_sums :
  float_sum [Float.lit (153 # 25); 3; 1]
  = Float.lit (10120000000000001 # 1000000000000000)
  /\ float_sum [Float.lit (228 # 25); 1] = Float.lit (253 # 25)
  /\ float_sum [Float.lit (41 # 50); 1]
     = Float.lit (18199999999999998 # 10000000000000000)
  /\ float_sum [Float.lit (8 # 25); 1; 1 # 2] = Float.lit (91 # 50)
  /\ Float.lit (1 # 10) = 3602879701896397 # 36028797018963968.
Proof. repeat split; vm_compute; reflexivity. Qed.

(** A citation count of 10 ** 309 does not convert to a float, and
    scoring the paper raises; the largest count that converts is
    2 ** 1024 - 2 ** 970 - 1. *)
Example overflowing_score :
  SmartDownloadManager.score_of Samples.paperHuge = Exc OverflowError
  /\ SmartDownloadManager._calculate_priority_scores [0%nat] Samples.huge_world
     = (Exc OverflowError, Samples.huge_world)
  /\ Float.int_fits (2 ^ 1024 - 2 ^ 970 - 1) = true
  /\ Float.int_fits (2 ^ 1024 - 2 ^ 970) = false.
Proof.
  split; [vm_compute; reflexivity|]. split; [vm_compute; reflexivity|].
  split; vm_compute; reflexivity.
Qed.

(** ** [retry_on_failure] *)

Section RetryFacts.
Import Utils.

(** The loop over the attempts [k, k+1, ..., k+m-1] of an operation that
    always fails, when [k + m] is the bound. *)
Lemma retry_loop_failing (e : exn) (delay : Q) (m : nat) :
  forall (k : nat) (e0 : exn) (tr : list RetryEvent),
    retry_loop trace_sleep (Z.of_nat (k + m)) delay (failing e)
               (map Z.of_nat (seq k m)) e0 tr
    = (Exc (match m with O => e0 | S _ => e end),
       tr ++ backoff_trace delay (Z.of_nat k) m).
Proof.
  induction m as [|m IH]; intros k e0 tr.
  - simpl. unfold raise. rewrite app_nil_r. reflexivity.
  - cbn [seq map retry_loop]. unfold try_except, failing at 1.
    unfold bind at 1.
    destruct m as [|m'].
    + replace (Z.of_nat k <? Z.of_nat (k + 1) - 1)%Z with false
        by (symmetry; apply Z.ltb_ge; lia).
      reflexivity.
    + replace (Z.of_nat k <? Z.of_nat (k + S (S m')) - 1)%Z with true
        by (symmetry; apply Z.ltb_lt; lia).
      unfold trace_sleep at 1, modify at 1.
      replace (k + S (S m'))%nat with (S k + S m')%nat by lia.
      rewrite IH.
      replace (Z.of_nat (S k)) with (Z.of_nat k + 1)%Z by lia.
      cbn [backoff_trace]. rewrite <- !app_assoc. reflexivity.
Qed.

Lemma count_calls_backoff (delay : Q) (n : nat) :
  forall k, count_calls (backoff_trace delay k n) = n.
Proof.
  unfold count_calls.
  induction n as [|n IH]; intros k; [reflexivity|].
  destruct n as [|n']; [reflexivity|].
  change (backoff_trace delay k (S (S n')))
    with (Called :: Slept (delay * inject_Z (2 ^ k))
                 :: backoff_trace delay (k + 1) (S n')).
  cbn [filter List.length]. rewrite IH. reflexivity.
Qed.
End RetryFacts.

(** C4, as the code has it.  [retry_on_failure] does not look at the
    error: an operation that fails on every call, whatever the message of
    its error (403 as well as 503), is called [max_retries] times, with a
    sleep of [delay * 2^k] after the failed attempt [k] for every attempt
    but the last, and then the error of the last attempt propagates.
    With the default bound this is three calls and the sleeps [delay] and
    [2 * delay]. *)
Theorem retry_on_failure_retries_every_error (e : exn) (delay : Q) (n : nat) :
  Utils.retry_on_failure Utils.trace_sleep (Z.of_nat (S n)) delay (Utils.failing e) []
  = (Exc e, Utils.backoff_trace delay 0 (S n))
  /\ Utils.count_calls (Utils.backoff_trace delay 0 (S n)) = S n
  /\ Utils.backoff_trace delay 0 3
     = [Utils.Called; Utils.Slept (delay * inject_Z (2 ^ 0));
        Utils.Called; Utils.Slept (delay * inject_Z (2 ^ 1)); Utils.Called].
Proof.
  split; [|split].
  - unfold Utils.retry_on_failure, Utils.range.
    rewrite Nat2Z.id.
    pose proof (retry_loop_failing e delay (S n) 0 (Exception "No attempts made") [])
      as H.
    simpl Nat.add in H. exact H.
  - apply count_calls_backoff.
  - reflexivity.
Qed.

(** C4, as stated, fails: an operation failing with "403 Forbidden" is
    called three times, not once. *)
Lemma retry_on_failure_retries_403 : ~ fatal_403_single_attempt.
Proof.
  intros H.
  specialize (H (Exception "HTTP 403 Forbidden") 1 eq_refl).
  vm_compute in H. discriminate H.
Qed.

(** With a bound of zero the operation is never called. *)
Example retry_on_failure_without_attempts :
  Utils.retry_on_failure Utils.trace_sleep 0 1
    (Utils.failing (NetworkError "503")) []
  = (Exc (Exception "No attempts made"), []).
Proof. reflexivity. Qed.

(** A success ends the loop: after one 503 and one success the operation
    has been called twice, with one back-off in between. *)
Example retry_on_failure_stops_on_success :
  Utils.retry_on_failure Utils.trace_sleep 3 1
    (Utils.scripted [Exc (NetworkError "503"); Ok true] (Ok true)) []
  = (Ok true, [Utils.Called; Utils.Slept (1 * inject_Z (2 ^ 0)); Utils.Called]).
Proof. reflexivity. Qed.

(** ** The Anna Archive byte fetchers *)

Section Fetchers.
Import AnnaArchiveDownloader.

Lemma startswith_magic_head (data : list byte) :
  bytes_startswith data PDF_MAGIC = true ->
  bytes_contains (firstn 10 data) PDF_MAGIC = true.
Proof.
  unfold bytes_startswith, bytes_contains, PDF_MAGIC.
  destruct data as [|a [|b [|c [|d rest]]]];
    cbn [Py.list_prefix andb]; intros H;
    try discriminate H;
    try (destruct (Byte.eqb x25 a); discriminate H);
    try (destruct (Byte.eqb x25 a), (Byte.eqb x50 b); discriminate H);
    try (destruct (Byte.eqb x25 a), (Byte.eqb x50 b), (Byte.eqb x44 c); discriminate H).
  change (firstn 10 (a :: b :: c :: d :: rest))
    with (a :: b :: c :: d :: firstn 6 rest).
  cbn [Py.list_infix Py.list_prefix]. rewrite H. reflexivity.
Qed.

(** The fast-download fetch does what the claim asks: whatever it accepts
    carries the signature in its first ten bytes on disk, and a body taken
    on size alone that fails the check is deleted again. *)
Lemma download_from_url_revalidates (net : Network) (url output_path : string) (fs : FS) :
  fs output_path = None ->
  revalidated (_download_from_url net url output_path fs) output_path.
Proof.
  intros Hnone.
  unfold _download_from_url, try_except, bind, network_get, write_file,
    read_head, unlink, modify, ret.
  destruct (net url) as [response|e]; [|exact Hnone].
  destruct (match content response with [] => true | _ => false end
            || (Py.len (content response) <? 1000)%Z); [exact Hnone|].
  destruct (bytes_startswith (content response) PDF_MAGIC) eqn:Emagic.
  - cbn [revalidated]. exists (content response).
    unfold fs_write. rewrite String.eqb_refl.
    split; [reflexivity | apply startswith_magic_head; exact Emagic].
  - destruct (Py.len (content response) >? 50000)%Z; [|exact Hnone].
    unfold fs_write at 1. rewrite String.eqb_refl.
    destruct (bytes_contains (firstn 10 (content response)) PDF_MAGIC) eqn:Ehead.
    + cbn [revalidated]. exists (content response).
      unfold fs_write. rewrite String.eqb_refl. split; [reflexivity | exact Ehead].
    + unfold fs_write at 1. rewrite String.eqb_refl.
      cbn [revalidated]. unfold fs_unlink. rewrite String.eqb_refl. reflexivity.
Qed.

Lemma download_by_md5_html_run :
  _download_by_md5 html_network "https://annas-archive.org"%string
                   "d41d8cd98f00b204e9800998ecf8427e"%string "paper_01_Alpha.pdf"%string empty_fs
  = (Ok (true, 1001%Z), fs_write "paper_01_Alpha.pdf"%string html_page empty_fs).
Proof. reflexivity. Qed.
End Fetchers.

(** C6, at the failing input.  The first MD5 endpoint answers with a
    1001-byte HTML page of content type text/html.  [_download_by_md5]
    accepts it on its size alone, writes it to the output path and reports
    success with 1001 bytes: the file is not read back, its first ten
    bytes do not hold the PDF signature, and it is not deleted. *)
Theorem download_by_md5_accepts_on_size_without_revalidation :
  let out :=
    AnnaArchiveDownloader._download_by_md5
      AnnaArchiveDownloader.html_network "https://annas-archive.org"%string
      "d41d8cd98f00b204e9800998ecf8427e"%string "paper_01_Alpha.pdf"%string
      AnnaArchiveDownloader.empty_fs in
  fst out = Ok (true, 1001%Z)
  /\ snd out "paper_01_Alpha.pdf"%string = Some AnnaArchiveDownloader.html_page
  /\ AnnaArchiveDownloader.bytes_startswith
       AnnaArchiveDownloader.html_page AnnaArchiveDownloader.PDF_MAGIC = false
  /\ Py.str_contains (Py.lower "text/html"%string) "application/pdf"%string = false
  /\ AnnaArchiveDownloader.bytes_contains
       (firstn 10 AnnaArchiveDownloader.html_page) AnnaArchiveDownloader.PDF_MAGIC = false
  /\ ~ AnnaArchiveDownloader.revalidated out "paper_01_Alpha.pdf"%string.
Proof.
  cbv zeta. rewrite download_by_md5_html_run. cbn [fst snd].
  split; [reflexivity|].
  split; [reflexivity|].
  split; [reflexivity|].
  split; [reflexivity|].
  split; [reflexivity|].
  cbn [AnnaArchiveDownloader.revalidated].
  intros [data [Hfile Hhead]].
  unfold AnnaArchiveDownloader.fs_write in Hfile.
  rewrite String.eqb_refl in Hfile. injection Hfile as <-.
  vm_compute in Hhead. discriminate Hhead.
Qed.

(** ** One download attempt *)

Ltac run_monad :=
  cbv [bind ret raise gets modify get_paper set_attr log try_except try_finally];
  cbn [heap trace fst snd].

Ltac settle :=
  repeat (progress (cbn [heap trace fst snd status_settled status_not_in_progress
       download_status doi journal_type set_download_status set_journal_type
       set_pdf_filename set_pdf_size DownloadStatus_eqb];
  rewrite ?upd_same));
  try reflexivity.

Section Attempt.
Import SmartDownloadManager.

(** [download_paper] always returns, and leaves the status it reports. *)
Lemma download_paper_settles (P : Providers) (r : ref) (name : string) (w : World) :
  status_settled r (DownloadManager.download_paper P r name w).
Proof.
  unfold DownloadManager.download_paper, download_pdf. run_monad.
  destruct (String.eqb (doi (heap w r)) EmptyString); [settle|].
  destruct (Utils.is_elsevier_doi (doi (heap w r))).
  - destruct (elsevier_download_pdf P _ _) as [[|] sz|e]; settle.
    destruct (anna_download_pdf P _ _) as [[|] sz2|e]; settle.
  - destruct (anna_download_pdf P _ _) as [[|] sz|e]; settle.
Qed.

Ltac on_manager dp r path Hdp :=
  match goal with
  | |- context [dp r path ?w1] =>
      specialize (Hdp w1); destruct (dp r path w1) as [[[|]|e] w3];
      cbn [status_settled] in Hdp; try contradiction;
      settle; repeat (rewrite Hdp; settle); try exact Hdp
  end.

(** With a manager that settles the status, so does the attempt. *)
Lemma single_paper_settles (inst : bool) (dp : ref -> string -> M World bool)
    (r : ref) (path : string) (w : World) :
  (forall w1, status_settled r (dp r path w1)) ->
  status_settled r (_download_single_paper inst dp r path w).
Proof.
  intros Hdp.
  unfold _download_single_paper. run_monad.
  destruct inst.
  - destruct (Utils.is_elsevier_doi _); on_manager dp r path Hdp.
  - on_manager dp r path Hdp.
Qed.

(** Whatever the manager does, raising included, the attempt returns and
    the paper is not left [DOWNLOADING]. *)
Lemma single_paper_not_in_progress (inst : bool) (dp : ref -> string -> M World bool)
    (r : ref) (path : string) (w : World) :
  status_not_in_progress r (_download_single_paper inst dp r path w).
Proof.
  unfold _download_single_paper. run_monad.
  destruct inst; [destruct (Utils.is_elsevier_doi _)|];
  match goal with
  | |- context [dp r path ?w1] =>
      destruct (dp r path w1) as [[[|]|e] w3]; settle;
      destruct (download_status (heap w3 r)) eqn:E; settle;
      try discriminate; try congruence
  end.
Qed.

Lemma is_elsevier_doi_nonempty (d : string) :
  Utils.is_elsevier_doi d = true -> String.eqb d EmptyString = false.
Proof.
  unfold Utils.is_elsevier_doi. destruct (String.eqb d EmptyString); [discriminate|reflexivity].
Qed.

(** Outside institutional mode, a paper with an Elsevier DOI is handed to
    the Elsevier downloader first. *)
Lemma non_institutional_elsevier_first (P : Providers) (r : ref) (path : string) (w : World) :
  Utils.is_elsevier_doi (doi (heap w r)) = true ->
  exists rest,
    trace (snd (_download_single_paper false (DownloadManager.download_paper P) r path w))
    = trace w ++ Attempt ElsevierProvider r :: rest.
Proof.
  intros Hdoi.
  unfold _download_single_paper, DownloadManager.download_paper, download_pdf. run_monad.
  rewrite !upd_same.
  cbn [doi set_download_status set_journal_type].
  rewrite (is_elsevier_doi_nonempty _ Hdoi), Hdoi.
  cbn [heap trace].
  destruct (elsevier_download_pdf P _ _) as [[|] sz|e]; cbn [heap trace fst snd].
  - rewrite !upd_same. cbn. exists []. reflexivity.
  - destruct (anna_download_pdf P _ _) as [[|] sz2|e]; cbn [heap trace fst snd];
      rewrite !upd_same; cbn; rewrite <- app_assoc; eexists; reflexivity.
  - rewrite !upd_same. cbn. exists []. reflexivity.
Qed.
End Attempt.

(** C3, at the failing input.  Institutional mode is off and the paper
    has the Elsevier DOI 10.1016/j.actamat.2020.01.001.  The attempt goes
    to the Elsevier downloader: with downloaders that succeed it is the
    only one called, with downloaders that fail Anna Archive is called
    second, as the backup. *)
Theorem non_institutional_attempt_calls_elsevier :
  Utils.is_elsevier_doi (doi (Samples.heap3 0%nat)) = true
  /\ (let out := SmartDownloadManager._download_single_paper false
                   (DownloadManager.download_paper Samples.always_succeed)
                   0%nat "paper_01_Alpha.pdf"%string Samples.world3 in
      fst out = Ok true
      /\ trace (snd out) = [Attempt ElsevierProvider 0%nat])
  /\ (let out := SmartDownloadManager._download_single_paper false
                   (DownloadManager.download_paper Samples.always_fail)
                   0%nat "paper_01_Alpha.pdf"%string Samples.world3 in
      fst out = Ok false
      /\ trace (snd out) = [Attempt ElsevierProvider 0%nat; Attempt AnnaProvider 0%nat]).
Proof.
  split; [reflexivity|]. split; split; reflexivity.
Qed.

(** C9.  Outside institutional mode, one attempt leaves the paper's
    [journal_type] as it found it, whatever the download manager does:
    return [True], return [False], or raise. *)
Theorem journal_type_restored_after_attempt
    (dp : ref -> string -> M World bool) (r : ref) (path : string) (w : World) :
  journal_type
    (heap (snd (SmartDownloadManager._download_single_paper false dp r path w)) r)
  = journal_type (heap w r).
Proof.
  unfold SmartDownloadManager._download_single_paper. run_monad.
  match goal with
  | |- context [dp r path ?w1] => destruct (dp r path w1) as [[[|]|e] w3]
  end;
    cbn [heap trace fst snd]; rewrite ?upd_same;
    cbn [download_status journal_type set_download_status set_journal_type
         DownloadStatus_eqb heap snd];
    try (rewrite ?upd_same; reflexivity);
    destruct (download_status (heap w3 r));
    cbn [DownloadStatus_eqb snd heap]; rewrite ?upd_same; reflexivity.
Qed.

(** C10.  [_download_single_paper] over the repository's
    [download_paper] always returns; the paper is [DOWNLOADED] when it
    returns [True] and [FAILED] when it returns [False], also when a
    downloader raises.  With any other manager, one that raises included,
    it still returns and the paper is not left [DOWNLOADING]. *)
Theorem status_never_left_downloading
    (P : Providers) (inst : bool) (dp : ref -> string -> M World bool)
    (r : ref) (path : string) (w : World) :
  status_settled r
    (SmartDownloadManager._download_single_paper inst
       (DownloadManager.download_paper P) r path w)
  /\ status_not_in_progress r
       (SmartDownloadManager._download_single_paper inst dp r path w).
Proof.
  split.
  - apply single_paper_settles. intros w1. apply download_paper_settles.
  - apply single_paper_not_in_progress.
Qed.

(** The attempt with downloaders that raise: [False], and [FAILED]. *)
Example attempt_with_raising_downloaders :
  let out := SmartDownloadManager._download_single_paper false
               (DownloadManager.download_paper Samples.always_raise)
               0%nat "paper_01_Alpha.pdf"%string Samples.world3 in
  fst out = Ok false
  /\ download_status (heap (snd out) 0%nat) = FAILED
  /\ journal_type (heap (snd out) 0%nat) = ELSEVIER.
Proof. repeat split. Qed.

(** The attempt with a manager that raises: [False], and [FAILED]. *)
Example attempt_with_raising_manager :
  let out := SmartDownloadManager._download_single_paper false
               Samples.raising_manager 0%nat "paper_01_Alpha.pdf"%string Samples.world3 in
  fst out = Ok false
  /\ download_status (heap (snd out) 0%nat) = FAILED
  /\ journal_type (heap (snd out) 0%nat) = ELSEVIER.
Proof. repeat split. Qed.

(** ** The rate limiter *)

Section Limiter.
Import Utils.

Lemma in_window_true now t : in_window now t = true <-> now - t < 60.
Proof. unfold in_window. apply Qlt_bool_true. Qed.

Lemma in_window_false now t : in_window now t = false <-> 60 <= now - t.
Proof. unfold in_window. apply Qlt_bool_false. Qed.

Lemma filter_filter_imp {A} (f g : A -> bool) (l : list A) :
  (forall a, In a l -> f a = true -> g a = true) ->
  filter f (filter g l) = filter f l.
Proof.
  induction l as [|x l IH]; intros H; [reflexivity|].
  simpl. destruct (g x) eqn:Eg.
  - simpl. rewrite IH by (intros a Ha; apply H; right; exact Ha). reflexivity.
  - destruct (f x) eqn:Ef.
    + rewrite (H x (or_introl eq_refl) Ef) in Eg. discriminate.
    + apply IH. intros a Ha; apply H; right; exact Ha.
Qed.

Lemma filter_length_imp {A} (f g : A -> bool) (l : list A) :
  (forall a, In a l -> f a = true -> g a = true) ->
  (List.length (filter f l) <= List.length (filter g l))%nat.
Proof.
  induction l as [|x l IH]; intros H; [apply Nat.le_refl|].
  assert (Hl : forall a, In a l -> f a = true -> g a = true)
    by (intros a Ha; apply H; right; exact Ha).
  specialize (IH Hl). simpl.
  destruct (f x) eqn:Ef.
  - rewrite (H x (or_introl eq_refl) Ef). simpl. lia.
  - destruct (g x); simpl; lia.
Qed.

Lemma window_bound cpm hist :
  (0 <= cpm)%Z -> granted_below_ceiling cpm hist ->
  forall T, (Py.len (granted_in_window T hist) <= cpm)%Z.
Proof.
  intros Hcpm H. induction H as [|hist t Hg IH Hle Hlt]; intros T.
  - exact Hcpm.
  - unfold granted_in_window. rewrite filter_app. unfold Py.len. rewrite length_app.
    simpl filter at 2.
    destruct (Qlt_bool (T - t) 60 && Qle_bool t T) eqn:E.
    + apply andb_prop in E. destruct E as [E1 E2].
      apply Qlt_bool_true in E1. apply Qle_bool_true in E2.
      assert (List.length (filter (fun t0 => Qlt_bool (T - t0) 60 && Qle_bool t0 T) hist)
              <= List.length (filter (in_window t) hist))%nat as Hlen.
      { apply filter_length_imp. intros a _ Ha.
        apply andb_prop in Ha. destruct Ha as [Ha1 _].
        apply Qlt_bool_true in Ha1. apply in_window_true. lra. }
      unfold Py.len in Hlt. simpl List.length. lia.
    + simpl List.length. rewrite Nat.add_0_r. apply IH.
Qed.

Lemma filter_window_later (L now : Q) (hist : list Q) :
  L <= now ->
  filter (in_window now) (filter (in_window L) hist) = filter (in_window now) hist.
Proof.
  intros H. apply filter_filter_imp. intros a _ Ha.
  apply in_window_true in Ha. apply in_window_true. lra.
Qed.

Lemma Forall_le_trans (a b : Q) (l : list Q) :
  a <= b -> Forall (fun x => x <= a) l -> Forall (fun x => x <= b) l.
Proof.
  intros H. apply Forall_impl. intros x Hx. lra.
Qed.

(** With everything granted no later than [now], the window ending at
    [now] is what the limiter's filter keeps. *)
Lemma filter_window_granted (now : Q) (hist : list Q) :
  Forall (fun x => x <= now) hist ->
  filter (in_window now) hist = granted_in_window now hist.
Proof.
  intros H. unfold granted_in_window. apply filter_ext_in.
  intros a Ha. rewrite Forall_forall in H. specialize (H a Ha).
  apply Qle_bool_true in H. rewrite H, andb_true_r. reflexivity.
Qed.

Lemma wait_if_needed_step cpm over s :
  (0 <= cpm)%Z -> 0 <= over -> limiter_inv cpm s ->
  limiter_inv cpm (snd (wait_if_needed over s))
  /\ clock s <= clock (snd (wait_if_needed over s))
  /\ match fst (wait_if_needed over s) with
     | Ok _ => history (snd (wait_if_needed over s))
               = history s ++ [clock (snd (wait_if_needed over s))]
     | Exc _ => history (snd (wait_if_needed over s)) = history s /\ (cpm <= 0)%Z
     end.
Proof.
  intros Hcpm Hover.
  destruct s as [[cpm' cs lw] clk hist].
  unfold limiter_inv. cbn [limiter clock history calls calls_per_minute].
  intros [-> [Hg [L [HL [HallL ->]]]]].
  assert (Hallclk : Forall (fun x => x <= clk) hist) by (eapply Forall_le_trans; eassumption).
  unfold wait_if_needed.
  cbv [bind gets time_time set_calls modify ret calls_0 append_call asyncio_sleep set_last_warning].
  cbn [limiter clock history calls calls_per_minute last_warning fst snd].
  rewrite (filter_window_later hist HL).
  pose proof (window_bound Hcpm Hg clk) as Hbound.
  rewrite <- (filter_window_granted Hallclk) in Hbound.
  rewrite Z.geb_leb.
  destruct (cpm <=? Py.len (filter (in_window clk) hist))%Z eqn:Efull.
  2:{ apply Z.leb_gt in Efull.
      cbn [limiter clock history calls calls_per_minute last_warning fst snd].
      split; [|split; [lra|reflexivity]].
      split; [reflexivity|]. split.
      - constructor; assumption.
      - exists clk. split; [lra|]. split.
        + apply Forall_app. split; [exact Hallclk|]. constructor; [lra|constructor].
        + rewrite filter_app. cbn [filter].
          replace (in_window clk clk) with true; [reflexivity|].
          symmetry. apply in_window_true. lra. }
  apply Z.leb_le in Efull.
  destruct (filter (in_window clk) hist) as [|c0 rest] eqn:Ecs.
  { cbn [limiter clock history calls calls_per_minute last_warning fst snd].
    split; [|split; [lra|split; [reflexivity|exact Efull]]].
    split; [reflexivity|]. split; [exact Hg|].
    exists clk. split; [lra|]. split; [exact Hallclk|]. symmetry; exact Ecs. }
  assert (Hc0 : clk - c0 < 60).
  { apply in_window_true.
    assert (In c0 (filter (in_window clk) hist)) as Hin by (rewrite Ecs; left; reflexivity).
    apply filter_In in Hin. apply Hin. }
  cbn [limiter clock history calls calls_per_minute last_warning fst snd].
  replace (Qlt_bool 0 (60 - (clk - c0))) with true
    by (symmetry; apply Qlt_bool_true; lra).
  cbn [limiter clock history calls calls_per_minute last_warning fst snd].
  destruct (Qlt_bool 30 (clk - lw));
    cbn [limiter clock history calls calls_per_minute last_warning fst snd].
  all: set (now' := clk + (60 - (clk - c0)) + over).
  all: assert (Hnow' : clk <= now') by (unfold now'; lra).
  all: assert (Hgone : in_window now' c0 = false)
    by (apply in_window_false; unfold now'; lra).
  all: assert (Hcs2 : filter (in_window now') (c0 :: rest) = filter (in_window now') hist)
    by (rewrite <- Ecs; apply filter_window_later; exact Hnow').
  all: assert (Hlen2 : (Py.len (filter (in_window now') hist) < cpm)%Z)
    by (rewrite <- Hcs2; cbn [filter]; rewrite Hgone;
        pose proof (filter_length (in_window now') rest) as Hfl;
        unfold Py.len in *; cbn [List.length] in Hbound; lia).
  all: assert (Hallnow' : Forall (fun x => x <= now') hist)
    by (eapply Forall_le_trans; eassumption).
  all: rewrite Hcs2.
  all: split; [|split; [exact Hnow'|reflexivity]].
  all: split; [reflexivity|]; split; [constructor; assumption|].
  all: exists now'; split; [lra|]; split;
    [apply Forall_app; split; [exact Hallnow'|]; constructor; [lra|constructor]|].
  all: rewrite filter_app; cbn [filter];
    replace (in_window now' now') with true; [reflexivity|];
    symmetry; apply in_window_true; lra.
Qed.

Lemma elapse_inv cpm gap s :
  0 <= gap -> limiter_inv cpm s -> limiter_inv cpm (snd (elapse gap s)).
Proof.
  intros Hgap [Hc [Hg [L [HL [Hall Hcalls]]]]].
  unfold elapse, modify. cbn [snd]. unfold limiter_inv.
  cbn [limiter clock history]. split; [exact Hc|]. split; [exact Hg|].
  exists L. split; [lra|]. split; assumption.
Qed.

Lemma run_calls_cons gap over evs s :
  run_calls ((gap, over) :: evs) s
  = match wait_if_needed over (mkTimed (limiter s) (clock s + gap) (history s)) with
    | (Ok _, s2) => run_calls evs s2
    | (Exc e, s2) => (Exc e, s2)
    end.
Proof. reflexivity. Qed.

Lemma run_calls_inv cpm evs :
  (0 <= cpm)%Z -> forward_in_time evs ->
  forall s, limiter_inv cpm s ->
    limiter_inv cpm (snd (run_calls evs s))
    /\ (cpm = 0%Z
        \/ (fst (run_calls evs s) = Ok tt
            /\ List.length (history (snd (run_calls evs s)))
               = (List.length (history s) + List.length evs)%nat)).
Proof.
  intros Hcpm Hevs. induction Hevs as [|[gap over] evs [Hgap Hover] Hevs IH]; intros s Hinv.
  - cbn [run_calls ret fst snd List.length]. split; [exact Hinv|].
    right. split; [reflexivity|lia].
  - cbn [fst snd] in Hgap, Hover.
    rewrite run_calls_cons.
    pose proof (elapse_inv Hgap Hinv) as Hinv1.
    unfold elapse, modify in Hinv1. cbn [snd] in Hinv1.
    set (s1 := mkTimed (limiter s) (clock s + gap) (history s)) in *.
    destruct (wait_if_needed_step Hcpm Hover Hinv1) as [Hinv2 [_ Hhist]].
    destruct (wait_if_needed over s1) as [[[]|e] s2]; cbn [fst snd] in *.
    + destruct (IH s2 Hinv2) as [Hinv3 Hrun]. split; [exact Hinv3|].
      destruct Hrun as [Hz|[Hok Hlen]]; [left; exact Hz|right].
      split; [exact Hok|]. rewrite Hlen, Hhist, length_app.
      cbn [List.length history s1]. lia.
    + split; [exact Hinv2|]. left. lia.
Qed.

Lemma fresh_inv cpm t0 : limiter_inv cpm (fresh cpm t0).
Proof.
  unfold limiter_inv, fresh, RateLimiter_init. cbn.
  split; [reflexivity|]. split; [constructor|].
  exists t0. split; [lra|]. split; [constructor|reflexivity].
Qed.
End Limiter.

(** C8.  On one [RateLimiter] instance with a ceiling of at least zero,
    started empty, and with a clock that does not run backwards (a sleep
    lasts at least as long as asked), after any sequence of
    [wait_if_needed] calls: no window [(T - 60, T]] holds more than
    [calls_per_minute] granted acquisitions; every acquisition was
    recorded at a moment when fewer than [calls_per_minute] earlier ones
    were inside its trailing window; and, the ceiling being positive,
    every call returned and recorded one timestamp. *)
Theorem rate_limiter_never_exceeds_ceiling
    (cpm : Z) (t0 : Q) (evs : list (Q * Q)) (T : Q) :
  (0 <= cpm)%Z ->
  forward_in_time evs ->
  (Py.len (Utils.granted_in_window T
             (Utils.history (snd (Utils.run_calls evs (Utils.fresh cpm t0))))) <= cpm)%Z
  /\ granted_below_ceiling cpm
       (Utils.history (snd (Utils.run_calls evs (Utils.fresh cpm t0))))
  /\ (cpm = 0%Z
      \/ (fst (Utils.run_calls evs (Utils.fresh cpm t0)) = Ok tt
          /\ List.length (Utils.history (snd (Utils.run_calls evs (Utils.fresh cpm t0))))
             = List.length evs)).
Proof.
  intros Hcpm Hevs.
  destruct (run_calls_inv Hcpm Hevs (fresh_inv cpm t0)) as [Hinv Hrun].
  destruct Hinv as [_ [Hg _]].
  split; [apply window_bound; assumption|]. split; [exact Hg|].
  exact Hrun.
Qed.

(** C8 on a burst of four calls against a ceiling of two: the third call
    sleeps until the first has left the window. *)
Lemma rate_limiter_never_exceeds_ceiling_witness :
  (Py.len (Utils.granted_in_window 161
             (Utils.history (snd (Utils.run_calls Samples.burst (Utils.fresh 2 100))))) <= 2)%Z
  /\ granted_below_ceiling 2
       (Utils.history (snd (Utils.run_calls Samples.burst (Utils.fresh 2 100))))
  /\ (2%Z = 0%Z
      \/ (fst (Utils.run_calls Samples.burst (Utils.fresh 2 100)) = Ok tt
          /\ List.length (Utils.history (snd (Utils.run_calls Samples.burst (Utils.fresh 2 100))))
             = List.length Samples.burst)).
Proof.
  apply (@rate_limiter_never_exceeds_ceiling 2 100 Samples.burst 161).
  - lia.
  - unfold forward_in_time, Samples.burst.
    repeat constructor; unfold Qle; simpl; lia.
Defined.

Example burst_run :
  map Qred (Utils.history (snd (Utils.run_calls Samples.burst (Utils.fresh 2 100))))
  = [100; 101; 160; 161].
Proof. vm_compute. reflexivity. Qed.

(** C8, as stated, fails when a sleep ends early.  Against a ceiling of
    one, the second call comes a second after the first and sleeps for
    the 59 seconds left; woken a millisecond early it does not look at
    the window again and records 59.999, so that the window ending there
    holds two acquisitions. *)
Lemma rate_limiter_overrun_when_woken_early : ~ rate_limit_as_stated.
Proof.
  intros H.
  assert (Hcpm : (0 <= 1)%Z) by lia.
  specialize (H 1%Z 0 Samples.early_wake (59999 # 1000) Hcpm).
  vm_compute in H. apply H. reflexivity.
Qed.

Example early_wake_run :
  map Qred (Utils.history (snd (Utils.run_calls Samples.early_wake (Utils.fresh 1 0))))
  = [0; 59999 # 1000].
Proof. vm_compute. reflexivity. Qed.

(** ** Precise selection *)

Section Selection.
Import SmartDownloadManager.

Lemma mem_false (r : ref) (rs : list ref) : mem r rs = false <-> ~ In r rs.
Proof.
  rewrite <- mem_In. destruct (mem r rs); split; intros H; try reflexivity;
    try discriminate; try (intros H'; discriminate H'). exfalso. apply H. reflexivity.
Qed.

Lemma py_in_member (h : Heap) (r : ref) (rs : list ref) :
  In r rs -> py_in h r rs = true.
Proof.
  intros H. unfold py_in. apply existsb_exists. exists r.
  split; [exact H|]. rewrite Nat.eqb_refl. reflexivity.
Qed.

Lemma py_in_stranger (h : Heap) (r : ref) (rs : list ref) :
  (forall s, In s rs -> s <> r /\ Paper_eqb (h s) (h r) = false) ->
  py_in h r rs = false.
Proof.
  intros H. unfold py_in. induction rs as [|s rs IH]; [reflexivity|].
  cbn [existsb]. destruct (H s (or_introl eq_refl)) as [Hne Heq].
  rewrite Heq. replace (Nat.eqb s r) with false
    by (symmetry; apply Nat.eqb_neq; exact Hne).
  cbn [orb]. apply IH. intros s' Hs'. apply H. right. exact Hs'.
Qed.

Lemma mark_skipped_run (selected : list ref) (todo : list ref) :
  forall w1,
    NoDup todo ->
    (forall r s, In r todo -> In s selected -> r <> s ->
       Paper_eqb (heap w1 s) (heap w1 r) = false) ->
    exists w2,
      mark_skipped selected todo w1 = (Ok tt, w2)
      /\ trace w2 = trace w1
      /\ forall r, heap w2 r
                   = if mem r todo && negb (mem r selected)
                     then set_download_status SKIPPED (heap w1 r)
                     else heap w1 r.
Proof.
  induction todo as [|r0 rest IH]; intros w1 Hnd Hdist.
  - exists w1. repeat split.
  - inversion Hnd as [|? ? Hnotin Hnd']; subst.
    cbn [mark_skipped]. cbv [bind gets set_attr modify ret]. cbn [heap trace].
    destruct (mem r0 selected) eqn:Esel.
    + rewrite (py_in_member (heap w1) r0 selected (proj1 (mem_In r0 selected) Esel)).
      cbn [negb].
      destruct (IH w1 Hnd') as [w2 [Hrun [Htr Hheap]]].
      { intros r s Hr Hs Hne. apply Hdist; [right; exact Hr|exact Hs|exact Hne]. }
      exists w2. split; [exact Hrun|]. split; [exact Htr|].
      intros r. rewrite Hheap. cbn [mem existsb]. fold (mem r rest).
      destruct (Nat.eqb r r0) eqn:E; [|reflexivity].
      apply Nat.eqb_eq in E. subst r. rewrite Esel.
      rewrite !andb_false_r. reflexivity.
    + rewrite py_in_stranger.
      2:{ intros s Hs. assert (r0 <> s) as Hne.
          { intros ->. apply mem_In in Hs. congruence. }
          split; [congruence|]. apply Hdist; [left; reflexivity|exact Hs|exact Hne]. }
      cbn [negb].
      set (w1' := mkWorld (upd r0 (set_download_status SKIPPED) (heap w1)) (trace w1)).
      destruct (IH w1' Hnd') as [w2 [Hrun [Htr Hheap]]].
      { intros r s Hr Hs Hne. unfold w1'. cbn [heap].
        rewrite !upd_other.
        - apply Hdist; [right; exact Hr|exact Hs|exact Hne].
        - intros ->. contradiction.
        - intros ->. apply mem_In in Hs. congruence. }
      exists w2. split; [exact Hrun|]. split; [exact Htr|].
      intros r. rewrite Hheap. unfold w1'. cbn [heap mem existsb]. fold (mem r rest).
      destruct (Nat.eqb r r0) eqn:E.
      * apply Nat.eqb_eq in E. subst r.
        rewrite (proj2 (mem_false r0 rest) Hnotin), Esel. cbn.
        rewrite upd_same. reflexivity.
      * cbn [orb]. rewrite upd_other by (apply Nat.eqb_neq; exact E). reflexivity.
Qed.

Lemma reassign_indices_run (selected : list ref) :
  forall idx w2,
    NoDup selected ->
    exists w3,
      reassign_indices idx selected w2 = (Ok tt, w3)
      /\ trace w3 = trace w2
      /\ (forall r, ~ In r selected -> heap w3 r = heap w2 r)
      /\ (forall r, download_status (heap w3 r) = download_status (heap w2 r))
      /\ map (fun r => paper_index (heap w3 r)) selected
         = count_from idx (List.length selected).
Proof.
  induction selected as [|r0 rest IH]; intros idx w2 Hnd.
  - exists w2. repeat split.
  - inversion Hnd as [|? ? Hnotin Hnd']; subst.
    cbn [reassign_indices]. cbv [bind set_attr modify]. 
    set (w2' := mkWorld (upd r0 (set_paper_index idx) (heap w2)) (trace w2)).
    destruct (IH (idx + 1)%Z w2' Hnd') as [w3 [Hrun [Htr [Hout [Hst Hmap]]]]].
    exists w3. split; [exact Hrun|]. split; [exact Htr|]. split; [|split].
    + intros r Hr. rewrite Hout by (intros H; apply Hr; right; exact H).
      unfold w2'. cbn [heap]. apply upd_other. intros ->. apply Hr. left. reflexivity.
    + intros r. rewrite Hst. unfold w2'. cbn [heap]. unfold upd.
      destruct (Nat.eqb r r0); reflexivity.
    + cbn [map List.length count_from]. rewrite Hmap. f_equal.
      rewrite (Hout r0 Hnotin). unfold w2'. cbn [heap]. rewrite upd_same. reflexivity.
Qed.

Lemma StronglySorted_app_le {A} (R : A -> A -> Prop) (l1 l2 : list A) :
  StronglySorted R (l1 ++ l2) ->
  forall a b, In a l1 -> In b l2 -> R a b.
Proof.
  induction l1 as [|x l1 IH]; intros Hs a b Ha Hb; [contradiction|].
  cbn [app] in Hs. inversion Hs as [|? ? Hs' Hall]; subst.
  destruct Ha as [->|Ha].
  - rewrite Forall_forall in Hall. apply Hall. apply in_or_app. right. exact Hb.
  - apply IH; assumption.
Qed.

Lemma mem_filter_length (sel all : list ref) :
  NoDup sel -> NoDup all -> incl sel all ->
  List.length (filter (fun r => mem r sel) all) = List.length sel.
Proof.
  intros Hs Ha Hincl. apply Permutation_length. apply NoDup_Permutation.
  - apply NoDup_filter. exact Ha.
  - exact Hs.
  - intros x. rewrite filter_In, mem_In. split.
    + intros [_ H]. exact H.
    + intros H. split; [apply Hincl; exact H|exact H].
Qed.
(** What holds of C2.  For every list of M downloaded papers, distinct
    objects no two of which are equal field by field once rescored, with
    citation counts that convert to a float, and every target N with
    0 <= N < M: precise selection returns the N best papers of the stable
    descending order, each at least as good as every paper left out and
    still [DOWNLOADED]; the M - N others, and only they, are [SKIPPED];
    and the selected papers are numbered 1..N in their order. *)
Lemma precise_selection_on_distinct_papers
    (all_downloads : list ref) (target_count : Z) (w : World) :
  (0 <= target_count < Py.len all_downloads)%Z ->
  downloaded_pool w all_downloads ->
  distinct_once_scored (heap w) all_downloads ->
  citations_fit (heap w) all_downloads ->
  exists selected w',
    SmartDownloadManager._precise_selection all_downloads target_count w
    = (Ok selected, w')
    /\ precisely_selected all_downloads target_count w selected w'.
Proof.
  intros [Hlo Hhi] [Hnd Hdone] Hdist Hfit.
  destruct all_downloads as [|r0 rest]; [cbn in Hhi; lia|].
  destruct (@calculate_priority_scores_run r0 rest w Hfit) as [w1 [Hrun1 [Htr1 Hheap1]]].
  set (all := r0 :: rest) in *.
  fold all in Hrun1, Hheap1.
  assert (Hkey : sort_desc (fun r => priority_score (heap w1 r)) all
                 = sort_desc (fun r => score (heap w r)) all).
  { apply sort_desc_ext. intros a Ha. rewrite Hheap1.
    rewrite (proj2 (mem_In a all) Ha). reflexivity. }
  rewrite Hkey in Hrun1.
  set (sorted := sort_desc (fun r => score (heap w r)) all) in *.
  set (selected := firstn (Z.to_nat target_count) sorted).
  assert (Hperm : Permutation all sorted) by apply sort_desc_perm.
  assert (Hnds : NoDup sorted) by (eapply Permutation_NoDup; eassumption).
  assert (Hsplit : sorted = selected ++ skipn (Z.to_nat target_count) sorted)
    by (symmetry; apply firstn_skipn).
  assert (Hndsel : NoDup selected).
  { rewrite Hsplit in Hnds. apply NoDup_app_remove_r in Hnds. exact Hnds. }
  assert (Hincl : incl selected all).
  { intros x Hx. eapply Permutation_in; [apply Permutation_sym; exact Hperm|].
    rewrite Hsplit. apply in_or_app. left. exact Hx. }
  assert (Hlen : List.length selected = Z.to_nat target_count).
  { unfold selected. apply firstn_length_le.
    rewrite <- (Permutation_length Hperm). unfold Py.len in Hhi. lia. }
  destruct (@mark_skipped_run selected all w1 Hnd) as [w2 [Hrun2 [Htr2 Hheap2]]].
  { intros r s Hr Hs Hne. rewrite !Hheap1.
    rewrite (proj2 (mem_In r all) Hr), (proj2 (mem_In s all) (Hincl s Hs)).
    apply Hdist; [apply Hincl; exact Hs|exact Hr|congruence]. }
  destruct (@reassign_indices_run selected 1%Z w2 Hndsel)
    as [w3 [Hrun3 [Htr3 [Hout3 [Hst3 Hmap3]]]]].
  exists selected, w3. split.
  { unfold _precise_selection.
    replace (Py.len all <=? target_count)%Z with false
      by (symmetry; apply Z.leb_gt; lia).
    unfold bind at 1. rewrite Hrun1.
    unfold Py.slice_to.
    replace (0 <=? target_count)%Z with true by (symmetry; apply Z.leb_le; lia).
    fold selected. unfold bind at 1. rewrite Hrun2.
    unfold bind at 1. rewrite Hrun3. reflexivity. }
  assert (Hstatus : forall r, In r all ->
            download_status (heap w3 r)
            = if mem r selected then DOWNLOADED else SKIPPED).
  { intros r Hr. rewrite Hst3, Hheap2, (proj2 (mem_In r all) Hr). cbn [andb].
    rewrite Hheap1, (proj2 (mem_In r all) Hr).
    destruct (mem r selected); cbn; [apply Hdone; exact Hr|reflexivity]. }
  unfold precisely_selected.
  split; [reflexivity|].
  split; [unfold Py.len; rewrite Hlen; lia|].
  split.
  { intros s r Hs Hr Hnot.
    assert (In r (skipn (Z.to_nat target_count) sorted)) as Hr'.
    { assert (In r sorted) as Hrs by (eapply Permutation_in; eassumption).
      rewrite Hsplit in Hrs. apply in_app_or in Hrs. destruct Hrs; [contradiction|assumption]. }
    pose proof (sort_desc_sorted (fun r => score (heap w r)) all) as Hsorted.
    fold sorted in Hsorted. rewrite Hsplit in Hsorted.
    exact (@StronglySorted_app_le ref
             (fun a b => score (heap w b) <= score (heap w a))
             selected (skipn (Z.to_nat target_count) sorted) Hsorted s r Hs Hr'). }
  split.
  { intros r Hr. rewrite (Hstatus r (Hincl r Hr)), (proj2 (mem_In r selected) Hr). reflexivity. }
  split.
  { intros r Hr Hnot. rewrite (Hstatus r Hr), (proj2 (mem_false r selected) Hnot). reflexivity. }
  split.
  { assert (filter (is_skipped (heap w3)) all = filter (fun r => negb (mem r selected)) all) as ->.
    { apply filter_ext_in. intros r Hr. unfold is_skipped. rewrite (Hstatus r Hr).
      destruct (mem r selected); reflexivity. }
    pose proof (filter_length (fun r => mem r selected) all) as Hfl.
    rewrite (mem_filter_length Hndsel Hnd Hincl) in Hfl.
    unfold Py.len. lia. }
  rewrite Hmap3, Hlen. reflexivity.
Qed.
End Selection.

Example precise_selection_run :
  let out := SmartDownloadManager._precise_selection [0; 1; 2]%nat 2 Samples.done_world in
  fst out = Ok [1; 0]%nat
  /\ map (fun r => download_status (heap (snd out) r)) [0; 1; 2]%nat
     = [DOWNLOADED; DOWNLOADED; SKIPPED]
  /\ map (fun r => paper_index (heap (snd out) r)) [1; 0]%nat = [1; 2]%Z.
Proof. repeat split. Qed.

(** The statement does not hold of every list of downloaded papers. *)
Lemma precise_selection_not_as_stated : ~ precise_selection_as_stated.
Proof.
  intros H.
  destruct (H [0; 1]%nat 1%Z Samples.twin_world) as [selected [w' [Hrun Hsel]]].
  - cbn. lia.
  - split.
    + repeat constructor; cbn; intuition discriminate.
    + intros r _. reflexivity.
  - assert (Hw : w' = snd (SmartDownloadManager._precise_selection
                             [0; 1]%nat 1%Z Samples.twin_world))
      by (rewrite Hrun; reflexivity).
    subst w'.
    destruct Hsel as [_ [_ [_ [_ [_ [Hcount _]]]]]].
    vm_compute in Hcount. discriminate Hcount.
Qed.


(** ** The three phases *)

(** C5, at the failing input.  On the empty pool
    [ensure_target_downloads] raises [IndexError], whatever the target,
    the mode and the providers: the priority phase scores the pool first,
    and the scorer's log line reads [scored_papers[0]]. *)
Theorem ensure_target_downloads_raises_on_empty_pool
    (P : Providers) (inst : bool) (target_count : Z) (w : World) :
  SmartDownloadManager.ensure_target_downloads P inst [] target_count w
  = (Exc IndexError, w).
Proof. reflexivity. Qed.

(** C1, at the failing input.  The pool holds three papers numbered 1, 2
    and 3 at selection; the paper numbered 2 has the best priority, and
    both downloaders always succeed.  With a target of one the paper
    returned keeps the number 2; with a target of two the papers returned
    are numbered 2 and 1, in that order.  They are [DOWNLOADED] and in
    descending priority order (12.5, then the double 10.2), but they are
    not renumbered. *)
Theorem ensure_target_downloads_keeps_selection_indices :
  (let out := SmartDownloadManager.ensure_target_downloads
                Samples.always_succeed true [0; 1; 2]%nat 1 Samples.world3 in
   fst out = Ok [1]%nat
   /\ map (fun r => download_status (heap (snd out) r)) [1]%nat = [DOWNLOADED]
   /\ map (fun r => paper_index (heap (snd out) r)) [1]%nat = [2%Z])
  /\ (let out := SmartDownloadManager.ensure_target_downloads
                   Samples.always_succeed true [0; 1; 2]%nat 2 Samples.world3 in
      fst out = Ok [1; 0]%nat
      /\ map (fun r => download_status (heap (snd out) r)) [1; 0]%nat
         = [DOWNLOADED; DOWNLOADED]
      /\ map (fun r => Qred (priority_score (heap (snd out) r))) [1; 0]%nat
         = [25 # 2; Float.lit (51 # 5)]
      /\ map (fun r => paper_index (heap (snd out) r)) [1; 0]%nat = [2%Z; 1%Z]).
Proof.
  split; [repeat split|].
  split; [reflexivity|]. split; [reflexivity|]. split; [|reflexivity].
  vm_compute. reflexivity.
Qed.

(** ** The phases in general *)

Section Phases.
Import SmartDownloadManager.

Lemma attempt_loop_cons (P : Providers) (inst priority : bool) (t : Z)
    (r : ref) (rest succ : list ref) (w : World) :
  attempt_loop P inst priority t (r :: rest) succ w
  = let w1 := mkWorld (upd r (set_download_status DOWNLOADING) (heap w)) (trace w) in
    let path := pdf_name P (paper_index (heap w1 r)) (title (heap w1 r)) in
    match (if priority then mkdir P (trace w) else Ok tt) with
    | Exc e => (Exc e, w1)
    | Ok _ =>
        match _download_single_paper inst (DownloadManager.download_paper P) r path w1 with
        | (Ok true, w2) =>
            let w3 :=
              mkWorld (upd r (set_pdf_size (stat_size P (trace w2) path))
                         (upd r (set_pdf_filename path)
                            (upd r (set_download_status DOWNLOADED) (heap w2))))
                      (trace w2) in
            if (Py.len (succ ++ [r]) >=? t)%Z then (Ok (succ ++ [r]), w3)
            else attempt_loop P inst priority t rest (succ ++ [r])
                   (mkWorld (heap w3) (trace w3 ++ [Sleep 1]))
        | (Ok false, w2) =>
            attempt_loop P inst priority t rest succ
              (mkWorld (upd r (set_download_status FAILED) (heap w2))
                       (trace w2 ++ [Sleep 1]))
        | (Exc e, w2) => (Exc e, w2)
        end
    end.
Proof.
  destruct priority; cbn [attempt_loop];
    cbv [bind set_attr modify get_paper gets ret asyncio_sleep log mkdir_parent];
    cbn [heap trace];
    [destruct (mkdir P (trace w)) as [[]|e]; [|reflexivity]|];
    (destruct (_download_single_paper inst (DownloadManager.download_paper P) r _ _)
       as [[[|]|e] w2]; cbn [heap trace]; try reflexivity;
     destruct (Py.len (succ ++ [r]) >=? t)%Z; reflexivity).
Qed.

Lemma mkdir_ready (P : Providers) (priority : bool) (tr : list Event) :
  folder_ready P -> (if priority then mkdir P tr else Ok tt) = Ok tt.
Proof. intros H. destruct priority; [apply H|reflexivity]. Qed.

Ltac frame_cases x r :=
  cbn [heap trace fst snd]; unfold upd;
  destruct (Nat.eqb x r) eqn:Exr;
  [apply Nat.eqb_eq in Exr; subst x; rewrite ?Nat.eqb_refl|];
  cbn [DownloadStatus_eqb download_status set_download_status];
  try reflexivity.

Ltac attempt_step P w r :=
  first
    [ progress cbn [heap trace fst snd doi download_status journal_type
                    set_download_status set_journal_type set_pdf_filename
                    set_pdf_size DownloadStatus_eqb]
    | rewrite upd_same
    | match goal with
      | |- context [String.eqb (doi (heap w r)) EmptyString] =>
          destruct (String.eqb (doi (heap w r)) EmptyString) eqn:?
      | |- context [Utils.is_elsevier_doi (doi (heap w r))] =>
          destruct (Utils.is_elsevier_doi (doi (heap w r))) eqn:?
      | |- context [elsevier_download_pdf P ?tr ?p] =>
          destruct (elsevier_download_pdf P tr p) as [[|] ?|?] eqn:?
      | |- context [anna_download_pdf P ?tr ?p] =>
          destruct (anna_download_pdf P tr p) as [[|] ?|?] eqn:?
      end ].

(** An attempt changes, of all papers, only the download fields of its
    own paper. *)
Lemma single_attempt_frame (P : Providers) (inst : bool) (r : ref) (path : string)
    (w : World) (x : ref) :
  kept (heap (snd (_download_single_paper inst (DownloadManager.download_paper P)
                     r path w)) x)
  = kept (heap w x)
  /\ (x <> r ->
      heap (snd (_download_single_paper inst (DownloadManager.download_paper P)
                   r path w)) x
      = heap w x).
Proof.
  unfold _download_single_paper, DownloadManager.download_paper, download_pdf. run_monad.
  destruct inst; repeat attempt_step P w r;
    (split; [frame_cases x r|intros Hne; rewrite ?upd_other by exact Hne; reflexivity]).
Qed.

(** With downloaders that succeed, the attempt on a paper with a DOI
    returns [True]. *)
Lemma single_attempt_succeeds (P : Providers) (inst : bool) (r : ref) (path : string)
    (w : World) :
  always_succeeding P ->
  String.eqb (doi (heap w r)) EmptyString = false ->
  fst (_download_single_paper inst (DownloadManager.download_paper P) r path w) = Ok true.
Proof.
  intros Hs Hdoi.
  unfold _download_single_paper, DownloadManager.download_paper, download_pdf. run_monad.
  destruct inst; repeat attempt_step P w r; try reflexivity; try congruence;
    match goal with
    | E : elsevier_download_pdf P ?tr ?p = _ |- _ =>
        destruct (Hs tr p) as [H1 _]; rewrite E in H1; discriminate H1
    | E : anna_download_pdf P ?tr ?p = _ |- _ =>
        destruct (Hs tr p) as [_ H2]; rewrite E in H2; discriminate H2
    end.
Qed.

Lemma kept_upd (r : ref) (f : Paper -> Paper) (h : Heap) (x : ref) :
  (forall p, kept (f p) = kept p) -> kept (upd r f h x) = kept (h x).
Proof.
  intros Hf. unfold upd. destruct (Nat.eqb x r); [apply Hf|reflexivity].
Qed.

Lemma kept_doi (p q : Paper) : kept p = kept q -> doi p = doi q.
Proof. unfold kept. intros H. congruence. Qed.

Lemma kept_index (p q : Paper) : kept p = kept q -> paper_index p = paper_index q.
Proof. unfold kept. intros H. congruence. Qed.

Lemma kept_priority (p q : Paper) : kept p = kept q -> priority_score p = priority_score q.
Proof. unfold kept. intros H. congruence. Qed.

Lemma taken_stop (t : Z) (succ : list ref) (r : ref) :
  (Py.len (succ ++ [r]) >=? t)%Z = true -> taken t succ = 1%nat.
Proof.
  rewrite Z.geb_leb, Z.leb_le. unfold taken, Py.len. rewrite length_app. cbn [List.length].
  intros H. assert (Z.max 1 (t - Z.of_nat (List.length succ)) = 1)%Z as -> by lia.
  reflexivity.
Qed.

Lemma taken_go (t : Z) (succ : list ref) (r : ref) :
  (Py.len (succ ++ [r]) >=? t)%Z = false -> taken t succ = S (taken t (succ ++ [r])).
Proof.
  rewrite Z.geb_leb, Z.leb_gt. unfold taken, Py.len. rewrite length_app. cbn [List.length].
  intros H. lia.
Qed.

(** With downloaders that succeed and a folder that can be made, the loop
    takes the first papers of its list, as many as the bound asks for,
    marks them [DOWNLOADED] and touches nothing else. *)
Lemma attempt_loop_all_succeed (P : Providers) (inst priority : bool) (t : Z) :
  always_succeeding P ->
  folder_ready P ->
  forall todo succ w,
    with_doi (heap w) todo ->
    exists w',
      attempt_loop P inst priority t todo succ w
      = (Ok (succ ++ firstn (taken t succ) todo), w')
      /\ (forall x, kept (heap w' x) = kept (heap w x))
      /\ (forall x, In x (firstn (taken t succ) todo) ->
            download_status (heap w' x) = DOWNLOADED)
      /\ (forall x, ~ In x (firstn (taken t succ) todo) -> heap w' x = heap w x).
Proof.
  intros Hs Hready. induction todo as [|r rest IH]; intros succ w Hdoi.
  - exists w. rewrite firstn_nil, app_nil_r. repeat split. intros x [].
  - rewrite attempt_loop_cons. cbv zeta. rewrite (mkdir_ready priority (trace w) Hready).
    set (w1 := mkWorld (upd r (set_download_status DOWNLOADING) (heap w)) (trace w)).
    set (path := pdf_name P (paper_index (heap w1 r)) (title (heap w1 r))).
    assert (Hdoi1 : String.eqb (doi (heap w1 r)) EmptyString = false).
    { unfold w1. cbn [heap]. rewrite upd_same. cbn [doi set_download_status].
      apply Hdoi. left. reflexivity. }
    pose proof (single_attempt_succeeds inst r path w1 Hs Hdoi1) as Hok.
    pose proof (single_attempt_frame P inst r path w1) as Hframe.
    destruct (_download_single_paper inst (DownloadManager.download_paper P) r path w1)
      as [[[|]|e] w2]; cbn [fst snd] in Hok, Hframe; try discriminate Hok.
    clear Hok.
    assert (Hkept2 : forall x, kept (heap w2 x) = kept (heap w x)).
    { intros x. rewrite (proj1 (Hframe x)). unfold w1. cbn [heap].
      apply kept_upd. reflexivity. }
    assert (Hother2 : forall x, x <> r -> heap w2 x = heap w x).
    { intros x Hx. rewrite (proj2 (Hframe x) Hx). unfold w1. cbn [heap].
      apply upd_other. exact Hx. }
    set (h3 := upd r (set_pdf_size (stat_size P (trace w2) path))
                 (upd r (set_pdf_filename path)
                    (upd r (set_download_status DOWNLOADED) (heap w2)))).
    assert (Hkept3 : forall x, kept (h3 x) = kept (heap w x)).
    { intros x. unfold h3. rewrite !kept_upd by reflexivity. apply Hkept2. }
    assert (Hother3 : forall x, x <> r -> h3 x = heap w x).
    { intros x Hx. unfold h3. rewrite !upd_other by exact Hx. apply Hother2. exact Hx. }
    assert (Hdone3 : download_status (h3 r) = DOWNLOADED).
    { unfold h3. rewrite !upd_same. reflexivity. }
    destruct (Py.len (succ ++ [r]) >=? t)%Z eqn:Estop.
    + rewrite (taken_stop _ _ _ Estop). cbn [firstn].
      eexists. split; [reflexivity|]. cbn [heap]. split; [exact Hkept3|]. split.
      * intros x [<-|[]]. exact Hdone3.
      * intros x Hx. apply Hother3. intros ->. apply Hx. left. reflexivity.
    + rewrite (taken_go _ _ _ Estop). cbn [firstn heap trace].
      destruct (IH (succ ++ [r]) (mkWorld h3 (trace w2 ++ [Sleep 1])))
        as [w' [Hrun [Hkept [Hdone Hother]]]].
      { intros x Hx. cbn [heap]. rewrite (kept_doi (Hkept3 x)).
        apply Hdoi. right. exact Hx. }
      cbn [heap] in Hkept, Hother.
      exists w'. split; [rewrite Hrun, <- app_assoc; reflexivity|].
      split; [intros x; rewrite Hkept; apply Hkept3|]. split.
      * intros x Hx.
        destruct (in_dec Nat.eq_dec x (firstn (taken t (succ ++ [r])) rest)) as [Hin|Hout].
        -- apply Hdone. exact Hin.
        -- destruct Hx as [<-|Hx]; [|contradiction].
           rewrite (Hother r Hout). exact Hdone3.
      * intros x Hx. rewrite Hother.
        -- apply Hother3. intros ->. apply Hx. left. reflexivity.
        -- intros Hin. apply Hx. right. exact Hin.
Qed.

Lemma in_firstn {A} (n : nat) (l : list A) (x : A) :
  In x (firstn n l) -> In x l.
Proof.
  intros Hx. rewrite <- (firstn_skipn n l). apply in_or_app. left. exact Hx.
Qed.

Lemma firstn_incl_firstn {A} (i j : nat) (l : list A) (x : A) :
  (i <= j)%nat -> In x (firstn i l) -> In x (firstn j l).
Proof.
  intros Hij Hx. rewrite <- (Nat.min_l i j Hij) in Hx.
  rewrite <- firstn_firstn in Hx. exact (in_firstn _ _ _ Hx).
Qed.

(** What holds of C1: with downloaders that succeed, a folder that can be
    made, a non-empty pool of papers with DOIs whose citation counts
    convert to a float, and a target within the pool's size, the call
    returns the first [target_count] papers of the stable descending
    order, each [DOWNLOADED], with its freshly computed priority and with
    the [paper_index] it came with. *)
Lemma ensure_target_downloads_all_succeed (P : Providers) (inst : bool)
    (r0 : ref) (rest : list ref) (t : Z) (w : World) :
  always_succeeding P ->
  folder_ready P ->
  with_doi (heap w) (r0 :: rest) ->
  citations_fit (heap w) (r0 :: rest) ->
  (0 <= t <= Py.len (r0 :: rest))%Z ->
  exists w',
    ensure_target_downloads P inst (r0 :: rest) t w
    = (Ok (firstn (Z.to_nat t)
             (sort_desc (fun r => score (heap w r)) (r0 :: rest))), w')
    /\ forall r,
        In r (firstn (Z.to_nat t)
                (sort_desc (fun r => score (heap w r)) (r0 :: rest))) ->
        download_status (heap w' r) = DOWNLOADED
        /\ paper_index (heap w' r) = paper_index (heap w r)
        /\ priority_score (heap w' r) = score (heap w r).
Proof.
  intros Hs Hready Hdoi Hfit [Hlo Hhi].
  destruct (@calculate_priority_scores_run r0 rest w Hfit) as [w1 [Hrun1 [_ Hheap1]]].
  set (pool := r0 :: rest) in *.
  assert (Hkey : sort_desc (fun r => priority_score (heap w1 r)) pool
                 = sort_desc (fun r => score (heap w r)) pool).
  { apply sort_desc_ext. intros a Ha. rewrite Hheap1.
    rewrite (proj2 (mem_In a pool) Ha). reflexivity. }
  rewrite Hkey in Hrun1.
  set (sorted := sort_desc (fun r => score (heap w r)) pool) in *.
  assert (Hperm : Permutation pool sorted) by apply sort_desc_perm.
  assert (Hdoi1 : with_doi (heap w1) sorted).
  { intros x Hx. rewrite Hheap1.
    assert (In x pool) as Hxp
      by (eapply Permutation_in; [apply Permutation_sym; exact Hperm|exact Hx]).
    rewrite (proj2 (mem_In x pool) Hxp). apply Hdoi. exact Hxp. }
  destruct (@attempt_loop_all_succeed P inst true t Hs Hready sorted [] w1 Hdoi1)
    as [w2 [Hrun2 [Hkept [Hdone _]]]].
  cbn [app] in Hrun2.
  assert (Htaken : (Z.to_nat t <= taken t [])%nat)
    by (unfold taken, Py.len; cbn [List.length]; lia).
  exists w2. split.
  - unfold ensure_target_downloads, _priority_download_phase.
    cbv [bind ret]. rewrite Hrun1, Hrun2.
    replace (Py.len (firstn (taken t []) sorted) >=? t)%Z with true.
    + unfold Py.slice_to.
      replace (0 <=? t)%Z with true by (symmetry; apply Z.leb_le; exact Hlo).
      rewrite firstn_firstn, Nat.min_l by exact Htaken. reflexivity.
    + symmetry. rewrite Z.geb_leb. apply Z.leb_le.
      unfold Py.len in *. rewrite length_firstn.
      rewrite <- (Permutation_length Hperm). unfold taken, Py.len.
      cbn [List.length]. lia.
  - intros r Hr.
    assert (In r pool) as Hrp.
    { eapply Permutation_in; [apply Permutation_sym; exact Hperm|].
      exact (in_firstn _ _ _ Hr). }
    split; [apply Hdone; eapply firstn_incl_firstn; eassumption|].
    pose proof (Hkept r) as Hk. rewrite Hheap1, (proj2 (mem_In r pool) Hrp) in Hk.
    split.
    + rewrite (kept_index Hk). reflexivity.
    + rewrite (kept_priority Hk). reflexivity.
Qed.
End Phases.

(** ** The error classifier of the analysis loop *)

(** The classifier of [main.py] does treat a 403 as permanent. *)
Lemma is_retryable_error_403 (error_msg : string) :
  Py.str_contains (Py.lower error_msg) "403" = true ->
  Main._is_retryable_error error_msg = false.
Proof.
  intros H. unfold Main._is_retryable_error.
  replace (existsb (Py.str_contains (Py.lower error_msg)) Main.non_retryable_patterns)
    with true; [reflexivity|].
  symmetry. apply existsb_exists. exists "403"%string. split; [|exact H].
  unfold Main.non_retryable_patterns. cbn. auto.
Qed.

Example is_retryable_error_503 :
  Main._is_retryable_error "Request failed: 503 Service Unavailable" = true.
Proof. reflexivity. Qed.

(* ================================================================== *)
(** * The phases under arbitrary providers *)
(* ================================================================== *)

Section PhasesInGeneral.
Import SmartDownloadManager.

Lemma status_after_refl s : status_after s s.
Proof. left. reflexivity. Qed.

Lemma status_after_trans a b c : status_after a b -> status_after b c -> status_after a c.
Proof.
  unfold status_after. intros [-> | [-> | ->]] [-> | [-> | ->]]; auto.
Qed.

Lemma status_after_during a b : status_after a b -> status_during a b.
Proof. intros H. left. exact H. Qed.

Lemma status_during_trans a b c :
  status_after a b -> status_during b c -> status_during a c.
Proof.
  intros Hab [Hbc | ->]; [left; eapply status_after_trans; eassumption|right; reflexivity].
Qed.

Lemma kept_fixed (p q : Paper) : kept p = kept q -> fixed p = fixed q.
Proof. unfold kept, fixed. intros H. injection H. intros. congruence. Qed.

Lemma fixed_citations (p q : Paper) : fixed p = fixed q -> citation_count p = citation_count q.
Proof. unfold fixed. intros H. injection H. intros. assumption. Qed.

(** What the attempt loop does, however it ends.  It raises only in the
    priority phase, and then what the making of the folder raised, the
    paper under way being left [DOWNLOADING]. *)
Lemma attempt_loop_outcome (P : Providers) (inst priority : bool) (t : Z) :
  forall todo succ w out w',
    attempt_loop P inst priority t todo succ w = (out, w') ->
    (forall x, kept (heap w' x) = kept (heap w x))
    /\ (forall x, ~ In x todo -> heap w' x = heap w x)
    /\ match out with
       | Ok l =>
           exists taken,
             l = succ ++ taken
             /\ incl taken todo
             /\ (Py.len taken <= Z.max 1 (t - Py.len succ))%Z
             /\ (forall x, status_after (download_status (heap w x))
                             (download_status (heap w' x)))
             /\ (NoDup todo ->
                 NoDup taken
                 /\ forall x, In x taken -> download_status (heap w' x) = DOWNLOADED)
       | Exc e =>
           priority = true
           /\ (exists tr, mkdir P tr = Exc e)
           /\ forall x, status_during (download_status (heap w x))
                          (download_status (heap w' x))
       end.
Proof.
  induction todo as [|r rest IH]; intros succ w out w' Hrun.
  - cbn in Hrun. injection Hrun as <- <-.
    split; [reflexivity|]. split; [reflexivity|].
    exists []. rewrite app_nil_r. split; [reflexivity|].
    split; [apply incl_refl|]. split; [unfold Py.len; cbn; lia|].
    split; [intros x; apply status_after_refl|].
    intros _. split; [constructor|intros x []].
  - rewrite attempt_loop_cons in Hrun. cbv zeta in Hrun.
    set (w1 := mkWorld (upd r (set_download_status DOWNLOADING) (heap w)) (trace w)) in *.
    set (path := pdf_name P (paper_index (heap w1 r)) (title (heap w1 r))) in *.
    destruct (if priority then mkdir P (trace w) else Ok tt) as [[]|e] eqn:Emk.
    2:{ injection Hrun as <- <-.
        split; [intros x; unfold w1; cbn [heap]; apply kept_upd; reflexivity|].
        split.
        { intros x Hx. unfold w1. cbn [heap]. apply upd_other.
          intros ->. apply Hx. left. reflexivity. }
        destruct priority; [|discriminate Emk].
        split; [reflexivity|]. split; [exists (trace w); exact Emk|].
        intros x. unfold w1. cbn [heap]. unfold upd.
        destruct (Nat.eqb x r); [right; reflexivity|left; apply status_after_refl]. }
    pose proof (single_attempt_frame P inst r path w1) as Hframe.
    assert (Hset : status_settled r
              (_download_single_paper inst (DownloadManager.download_paper P) r path w1))
      by (apply single_paper_settles; intros w0; apply download_paper_settles).
    destruct (_download_single_paper inst (DownloadManager.download_paper P) r path w1)
      as [[[|]|e] w2]; cbn [fst snd status_settled] in Hframe, Hset; [| |contradiction].
    + (* success *)
      assert (Hkept2 : forall x, kept (heap w2 x) = kept (heap w x)).
      { intros x. rewrite (proj1 (Hframe x)). unfold w1. cbn [heap].
        apply kept_upd. reflexivity. }
      assert (Hother2 : forall x, x <> r -> heap w2 x = heap w x).
      { intros x Hx. rewrite (proj2 (Hframe x) Hx). unfold w1. cbn [heap].
        apply upd_other. exact Hx. }
      set (h3 := upd r (set_pdf_size (stat_size P (trace w2) path))
                   (upd r (set_pdf_filename path)
                      (upd r (set_download_status DOWNLOADED) (heap w2)))) in *.
      assert (Hkept3 : forall x, kept (h3 x) = kept (heap w x)).
      { intros x. unfold h3. rewrite !kept_upd by reflexivity. apply Hkept2. }
      assert (Hother3 : forall x, x <> r -> h3 x = heap w x).
      { intros x Hx. unfold h3. rewrite !upd_other by exact Hx. apply Hother2. exact Hx. }
      assert (Hdone3 : download_status (h3 r) = DOWNLOADED).
      { unfold h3. rewrite !upd_same. reflexivity. }
      assert (Hst3 : forall x, status_after (download_status (heap w x)) (download_status (h3 x))).
      { intros x. destruct (Nat.eq_dec x r) as [-> | Hx].
        - right. left. exact Hdone3.
        - rewrite (Hother3 x Hx). apply status_after_refl. }
      destruct (Py.len (succ ++ [r]) >=? t)%Z eqn:Estop.
      * injection Hrun as <- <-. cbn [heap].
        split; [exact Hkept3|].
        split; [intros x Hx; apply Hother3; intros ->; apply Hx; left; reflexivity|].
        exists [r]. split; [reflexivity|].
        split; [intros x [<-|[]]; left; reflexivity|].
        split; [unfold Py.len; cbn; lia|].
        split; [exact Hst3|].
        intros _. split; [repeat constructor; intros []|].
        intros x [<-|[]]. exact Hdone3.
      * cbn [heap trace] in Hrun. apply IH in Hrun.
        destruct Hrun as [Hkept [Hother Hend]]. cbn [heap trace] in *.
        split; [intros x; rewrite Hkept; apply Hkept3|].
        split.
        { intros x Hx. rewrite Hother by (intros H; apply Hx; right; exact H).
          apply Hother3. intros ->. apply Hx. left. reflexivity. }
        destruct out as [l|e].
        -- destruct Hend as [taken [-> [Hincl [Hlen [Hst Hnd]]]]].
           exists (r :: taken). split; [rewrite <- app_assoc; reflexivity|].
           split; [intros x [<-|Hx]; [left; reflexivity|right; apply Hincl; exact Hx]|].
           split.
           { rewrite Z.geb_leb in Estop. apply Z.leb_gt in Estop.
             unfold Py.len in *. rewrite length_app in *. cbn [List.length] in *. lia. }
           split; [intros x; eapply status_after_trans; [apply Hst3|apply Hst]|].
           intros Hnodup. inversion Hnodup as [|? ? Hnotin Hnd']; subst.
           destruct (Hnd Hnd') as [Hndt Hdone].
           split; [constructor; [intros H; apply Hnotin; apply Hincl; exact H|exact Hndt]|].
           intros x [<-|Hx]; [|apply Hdone; exact Hx].
           rewrite (Hother r Hnotin). exact Hdone3.
        -- destruct Hend as [Hp [Hmk Hst]]. split; [exact Hp|]. split; [exact Hmk|].
           intros x. eapply status_during_trans; [apply Hst3|apply Hst].
    + (* failure *)
      set (h3 := upd r (set_download_status FAILED) (heap w2)) in *.
      assert (Hkept3 : forall x, kept (h3 x) = kept (heap w x)).
      { intros x. unfold h3. rewrite kept_upd by reflexivity.
        rewrite (proj1 (Hframe x)). unfold w1. cbn [heap]. apply kept_upd. reflexivity. }
      assert (Hother3 : forall x, x <> r -> h3 x = heap w x).
      { intros x Hx. unfold h3. rewrite upd_other by exact Hx.
        rewrite (proj2 (Hframe x) Hx). unfold w1. cbn [heap]. apply upd_other. exact Hx. }
      assert (Hst3 : forall x, status_after (download_status (heap w x)) (download_status (h3 x))).
      { intros x. destruct (Nat.eq_dec x r) as [-> | Hx].
        - right. right. unfold h3. rewrite upd_same. reflexivity.
        - rewrite (Hother3 x Hx). apply status_after_refl. }
      apply IH in Hrun.
      destruct Hrun as [Hkept [Hother Hend]]. cbn [heap trace] in *.
      split; [intros x; rewrite Hkept; apply Hkept3|].
      split.
      { intros x Hx. rewrite Hother by (intros H; apply Hx; right; exact H).
        apply Hother3. intros ->. apply Hx. left. reflexivity. }
      destruct out as [l|e].
      * destruct Hend as [taken [-> [Hincl [Hlen [Hst Hnd]]]]].
        exists taken. split; [reflexivity|].
        split; [intros x Hx; right; apply Hincl; exact Hx|].
        split; [exact Hlen|].
        split; [intros x; eapply status_after_trans; [apply Hst3|apply Hst]|].
        intros Hnodup. inversion Hnodup as [|? ? Hnotin Hnd']; subst.
        exact (Hnd Hnd').
      * destruct Hend as [Hp [Hmk Hst]]. split; [exact Hp|]. split; [exact Hmk|].
        intros x. eapply status_during_trans; [apply Hst3|apply Hst].
Qed.

Lemma in_firstn' {A} (n : nat) (l : list A) (x : A) :
  In x (firstn n l) -> In x l.
Proof.
  intros Hx. rewrite <- (firstn_skipn n l). apply in_or_app. left. exact Hx.
Qed.

Lemma NoDup_firstn {A} (n : nat) (l : list A) : NoDup l -> NoDup (firstn n l).
Proof.
  intros H. rewrite <- (firstn_skipn n l) in H. apply NoDup_app_remove_r in H. exact H.
Qed.

Lemma NoDup_append {A} (l1 l2 : list A) :
  NoDup l1 -> NoDup l2 -> (forall x, In x l1 -> ~ In x l2) -> NoDup (l1 ++ l2).
Proof.
  induction l1 as [|a l1 IH]; intros H1 H2 Hd; [exact H2|].
  inversion H1 as [|? ? Ha H1']; subst. cbn [app]. constructor.
  - intros Hin. apply in_app_or in Hin. destruct Hin as [Hin|Hin]; [contradiction|].
    exact (Hd a (or_introl eq_refl) Hin).
  - apply IH; [exact H1'|exact H2|]. intros x Hx. apply Hd. right. exact Hx.
Qed.

Lemma slice_to_incl {A} (l : list A) (n : Z) : incl (Py.slice_to l n) l.
Proof.
  unfold Py.slice_to. destruct (0 <=? n)%Z; intros x Hx; exact (in_firstn' _ _ _ Hx).
Qed.

Lemma slice_to_NoDup {A} (l : list A) (n : Z) : NoDup l -> NoDup (Py.slice_to l n).
Proof.
  unfold Py.slice_to. destruct (0 <=? n)%Z; apply NoDup_firstn.
Qed.

Lemma slice_to_len {A} (l : list A) (n : Z) :
  (Py.len l <= Z.max 1 n)%Z -> (Py.len (Py.slice_to l n) <= Z.max 0 n)%Z.
Proof.
  unfold Py.slice_to, Py.len. intros H.
  destruct (0 <=? n)%Z eqn:E; rewrite length_firstn.
  - apply Z.leb_le in E. lia.
  - apply Z.leb_gt in E. lia.
Qed.

(** Scoring a list and running the attempt loop over it, however that
    ends. *)
Lemma scored_loop_outcome (P : Providers) (inst priority : bool) (t : Z)
    (pool : list ref) (w : World) (out : res (list ref)) (w' : World) :
  bind (_calculate_priority_scores pool)
       (fun scored => attempt_loop P inst priority t scored []) w
  = (out, w') ->
  (forall x, fixed (heap w' x) = fixed (heap w x))
  /\ (forall x, ~ In x pool -> heap w' x = heap w x)
  /\ match out with
     | Ok taken =>
         incl taken pool
         /\ (Py.len taken <= Z.max 1 t)%Z
         /\ (forall x, status_after (download_status (heap w x))
                         (download_status (heap w' x)))
         /\ (NoDup pool ->
             NoDup taken
             /\ forall x, In x taken -> download_status (heap w' x) = DOWNLOADED)
     | Exc e =>
         ((pool = [] /\ e = IndexError) \/ phase_error P (heap w) pool e)
         /\ forall x, status_during (download_status (heap w x))
                        (download_status (heap w' x))
     end.
Proof.
  intros Hrun. unfold bind in Hrun.
  destruct (calculate_priority_scores_outcome pool w) as [_ [Hres [Hout1 Hend1]]].
  destruct (_calculate_priority_scores pool w) as [[scored|e] w1];
    cbn [fst snd] in *.
  2:{ injection Hrun as <- <-.
      split; [intros x; apply rescoring_fixed; exact Hres|].
      split; [exact Hout1|]. split.
      - destruct Hend1 as [H|H]; [left; exact H|right; left; exact H].
      - intros x. rewrite (rescoring_status x Hres). left. apply status_after_refl. }
  destruct Hend1 as [_ [-> _]].
  set (sorted := sort_desc (fun r => priority_score (heap w1 r)) pool) in *.
  assert (Hperm : Permutation pool sorted) by apply sort_desc_perm.
  apply attempt_loop_outcome in Hrun. destruct Hrun as [Hkept [Hother Hend]].
  split.
  { intros x. rewrite (kept_fixed (Hkept x)). apply rescoring_fixed. exact Hres. }
  split.
  { intros x Hx. rewrite Hother.
    - apply Hout1. exact Hx.
    - intros H. apply Hx.
      eapply Permutation_in; [apply Permutation_sym; exact Hperm|exact H]. }
  destruct out as [l|e].
  - destruct Hend as [taken [-> [Hincl [Hlen [Hst Hnd]]]]]. cbn [app].
    split.
    { intros x Hx. eapply Permutation_in; [apply Permutation_sym; exact Hperm|].
      apply Hincl. exact Hx. }
    split; [unfold Py.len in *; cbn [List.length] in Hlen; lia|].
    split; [intros x; rewrite <- (rescoring_status x Hres); apply Hst|].
    intros Hnodup. apply Hnd. eapply Permutation_NoDup; eassumption.
  - destruct Hend as [_ [Hmk Hst]]. split; [right; right; exact Hmk|].
    intros x. rewrite <- (rescoring_status x Hres). apply Hst.
Qed.

Lemma phase_error_incl (P : Providers) (h h' : Heap) (pool pool' : list ref) (e : exn) :
  incl pool' pool ->
  (forall x, fixed (h' x) = fixed (h x)) ->
  phase_error P h' pool' e -> phase_error P h pool e.
Proof.
  intros Hincl Hfix [[-> [x [Hx Hno]]] | Hmk]; [left|right; exact Hmk].
  split; [reflexivity|]. exists x. split; [apply Hincl; exact Hx|].
  rewrite <- (fixed_citations (Hfix x)). exact Hno.
Qed.

(** What [ensure_target_downloads] does, however it ends and whatever the
    providers do. *)
Lemma ensure_target_downloads_outcome (P : Providers) (inst : bool)
    (papers : list ref) (t : Z) (w : World) (out : res (list ref)) (w' : World) :
  ensure_target_downloads P inst papers t w = (out, w') ->
  (forall x, fixed (heap w' x) = fixed (heap w x))
  /\ (forall x, ~ In x papers -> heap w' x = heap w x)
  /\ match out with
     | Ok l =>
         incl l papers
         /\ (Py.len l <= Z.max 0 t)%Z
         /\ (forall x, status_after (download_status (heap w x))
                         (download_status (heap w' x)))
         /\ (NoDup papers ->
             NoDup l /\ forall x, In x l -> download_status (heap w' x) = DOWNLOADED)
     | Exc e =>
         ((papers = [] /\ e = IndexError) \/ phase_error P (heap w) papers e)
         /\ forall x, status_during (download_status (heap w x))
                        (download_status (heap w' x))
     end.
Proof.
  intros Hrun. unfold ensure_target_downloads, _priority_download_phase in Hrun.
  unfold bind at 1 in Hrun.
  destruct (bind (_calculate_priority_scores papers)
              (fun priority_papers => attempt_loop P inst true t priority_papers []) w)
    as [[l1|e] w2] eqn:Hrun1;
    apply scored_loop_outcome in Hrun1;
    destruct Hrun1 as [Hfix1 [Hother1 Hend1]].
  2:{ injection Hrun as <- <-. split; [exact Hfix1|]. split; [exact Hother1|exact Hend1]. }
  destruct Hend1 as [Hincl1 [Hlen1 [Hst1 Hnd1]]].
  destruct (Py.len l1 >=? t)%Z eqn:E1.
  { injection Hrun as <- <-. split; [exact Hfix1|]. split; [exact Hother1|].
    split; [intros x Hx; apply Hincl1; exact (@slice_to_incl _ l1 t x Hx)|].
    split; [apply slice_to_len; exact Hlen1|].
    split; [exact Hst1|].
    intros Hnodup. destruct (Hnd1 Hnodup) as [Hn Hd].
    split; [apply slice_to_NoDup; exact Hn|].
    intros x Hx. apply Hd. exact (@slice_to_incl _ l1 t x Hx). }
  rewrite Z.geb_leb in E1. apply Z.leb_gt in E1.
  unfold bind at 1, gets at 1 in Hrun.
  set (remaining := filter (fun p => negb (py_in (heap w2) p l1)) papers) in *.
  assert (Hrem_pool : incl remaining papers)
    by (intros x Hx; apply filter_In in Hx; apply Hx).
  assert (Hrem_l1 : forall x, In x remaining -> ~ In x l1).
  { intros x Hx Hin. apply filter_In in Hx. destruct Hx as [_ Hx].
    rewrite (py_in_member (heap w2) x l1 Hin) in Hx. discriminate Hx. }
  unfold bind at 1 in Hrun.
  destruct (_supplementation_phase P inst remaining (t - Py.len l1) w2)
    as [out2 w3] eqn:Hrun2.
  assert (Hphase2 :
    (forall x, fixed (heap w3 x) = fixed (heap w2 x))
    /\ (forall x, ~ In x remaining -> heap w3 x = heap w2 x)
    /\ match out2 with
       | Ok l2 =>
           incl l2 remaining
           /\ (Py.len l2 <= t - Py.len l1)%Z
           /\ (forall x, status_after (download_status (heap w2 x))
                           (download_status (heap w3 x)))
           /\ (NoDup remaining ->
               NoDup l2 /\ forall x, In x l2 -> download_status (heap w3 x) = DOWNLOADED)
       | Exc e =>
           phase_error P (heap w2) remaining e
           /\ forall x, status_during (download_status (heap w2 x))
                          (download_status (heap w3 x))
       end).
  { unfold _supplementation_phase in Hrun2.
    destruct (match remaining with [] => true | _ :: _ => false end
              || (t - Py.len l1 <=? 0)%Z) eqn:Eguard.
    - injection Hrun2 as <- <-.
      split; [reflexivity|]. split; [reflexivity|]. split; [intros x []|].
      split; [unfold Py.len in *; cbn [List.length]; lia|].
      split; [intros x; apply status_after_refl|].
      intros _. split; [constructor|intros x []].
    - apply orb_false_iff in Eguard. destruct Eguard as [Erem Eneed].
      apply Z.leb_gt in Eneed.
      apply scored_loop_outcome in Hrun2.
      destruct Hrun2 as [Hfix2 [Hother2 Hend2]].
      split; [exact Hfix2|]. split; [exact Hother2|].
      destruct out2 as [l2|e].
      + destruct Hend2 as [Hincl2 [Hlen2 H2]].
        split; [exact Hincl2|]. split; [lia|exact H2].
      + destruct Hend2 as [[[Hnil _]|Herr] Hst2].
        * rewrite Hnil in Erem. discriminate Erem.
        * split; [exact Herr|exact Hst2]. }
  clear Hrun2. destruct Hphase2 as [Hfix2 [Hother2 Hend2]].
  assert (Hfix : forall x, fixed (heap w3 x) = fixed (heap w x))
    by (intros x; rewrite Hfix2; apply Hfix1).
  assert (Hother : forall x, ~ In x papers -> heap w3 x = heap w x).
  { intros x Hx. rewrite Hother2 by (intros H; apply Hx, Hrem_pool; exact H).
    apply Hother1. exact Hx. }
  destruct out2 as [l2|e].
  2:{ injection Hrun as <- <-. destruct Hend2 as [Herr Hst2].
      split; [exact Hfix|]. split; [exact Hother|]. split.
      - right. exact (@phase_error_incl P (heap w) (heap w2) papers remaining e Hrem_pool Hfix1 Herr).
      - intros x. eapply status_during_trans; [apply Hst1|apply Hst2]. }
  destruct Hend2 as [Hincl2 [Hlen2 [Hst2 Hnd2]]].
  assert (Hlen : (Py.len (l1 ++ l2) <= t)%Z)
    by (unfold Py.len in *; rewrite length_app; lia).
  assert (Hfinal :
    (if (Py.len (l1 ++ l2) >=? t)%Z
     then _precise_selection (l1 ++ l2) t
     else ret (l1 ++ l2)) w3 = (Ok (l1 ++ l2), w3)).
  { destruct (Py.len (l1 ++ l2) >=? t)%Z; [|reflexivity].
    unfold _precise_selection.
    replace (Py.len (l1 ++ l2) <=? t)%Z with true by (symmetry; apply Z.leb_le; exact Hlen).
    reflexivity. }
  rewrite Hfinal in Hrun. injection Hrun as <- <-.
  split; [exact Hfix|]. split; [exact Hother|].
  split.
  { intros x Hx. apply in_app_or in Hx. destruct Hx as [Hx|Hx];
      [apply Hincl1; exact Hx|apply Hrem_pool, Hincl2; exact Hx]. }
  split; [lia|].
  split; [intros x; eapply status_after_trans; [apply Hst1|apply Hst2]|].
  intros Hnodup. destruct (Hnd1 Hnodup) as [Hn1 Hd1].
  destruct (Hnd2 (NoDup_filter _ Hnodup)) as [Hn2 Hd2].
  split.
  - apply NoDup_append; [exact Hn1|exact Hn2|].
    intros x Hx1 Hx2. exact (Hrem_l1 x (Hincl2 x Hx2) Hx1).
  - intros x Hx. apply in_app_or in Hx. destruct Hx as [Hx|Hx]; [|apply Hd2; exact Hx].
    rewrite Hother2; [apply Hd1; exact Hx|].
    intros Hrem. exact (Hrem_l1 x Hrem Hx).
Qed.

(** On a non-empty pool whose citation counts convert to a float, and
    with a folder that can be made, [ensure_target_downloads] returns: no
    behaviour of the downloaders and no target makes it raise. *)
Lemma ensure_target_downloads_returns (P : Providers) (inst : bool)
    (r0 : ref) (rest : list ref) (t : Z) (w : World) :
  folder_ready P ->
  citations_fit (heap w) (r0 :: rest) ->
  exists l w', ensure_target_downloads P inst (r0 :: rest) t w = (Ok l, w').
Proof.
  intros Hready Hfit.
  destruct (ensure_target_downloads P inst (r0 :: rest) t w) as [[l|e] w'] eqn:Hrun;
    [exists l, w'; reflexivity|].
  apply ensure_target_downloads_outcome in Hrun.
  destruct Hrun as [_ [_ [[[Hnil _]|[[_ [x [Hx Hno]]]|[tr Hmk]]] _]]].
  - discriminate Hnil.
  - rewrite (Hfit x Hx) in Hno. discriminate Hno.
  - rewrite Hready in Hmk. discriminate Hmk.
Qed.

(** X1. [ensure_target_downloads] never returns more papers than the
    target, whatever the providers do: the list it returns has at most
    [max(0, target_count)] entries, all taken from [papers].  When it
    raises instead, it raises [IndexError] on an empty [papers], the
    [OverflowError] of a paper of [papers] whose citation count does not
    convert to a float, or what the making of the PDF folder raised. *)
Theorem ensure_target_downloads_never_exceeds_target
    (P : Providers) (inst : bool) (papers : list ref) (t : Z) (w : World) :
  match fst (ensure_target_downloads P inst papers t w) with
  | Ok l => bounded_by t l /\ incl l papers
  | Exc e =>
      (papers = [] /\ e = IndexError)
      \/ (e = OverflowError
          /\ exists x, In x papers
                       /\ Float.int_fits (citation_count (heap w x)) = false)
      \/ (exists tr, mkdir P tr = Exc e)
  end.
Proof.
  destruct (ensure_target_downloads P inst papers t w) as [[l|e] w'] eqn:Hrun;
    apply ensure_target_downloads_outcome in Hrun; cbn [fst].
  - destruct Hrun as [_ [_ [Hincl [Hlen _]]]]. split; [exact Hlen|exact Hincl].
  - destruct Hrun as [_ [_ [[H|[H|H]] _]]]; [left|right; left|right; right]; exact H.
Qed.

(** X2. Whatever the providers do and however the call ends,
    [ensure_target_downloads] writes only the fields [priority_score],
    [download_status], [pdf_filename] and [pdf_size] of a paper: every
    other field, [paper_index] and [journal_type] among them, is as
    before, and a paper that is not in [papers] is not written at all.
    When the call returns, a status it changed is [DOWNLOADED] or
    [FAILED]; when it raises, the paper whose attempt was under way may
    be left [DOWNLOADING]. *)
Theorem ensure_target_downloads_writes_download_fields_only
    (P : Providers) (inst : bool) (papers : list ref) (t : Z) (w : World) (x : ref) :
  fixed (heap (snd (ensure_target_downloads P inst papers t w)) x) = fixed (heap w x)
  /\ match fst (ensure_target_downloads P inst papers t w) with
     | Ok _ =>
         status_after (download_status (heap w x))
           (download_status (heap (snd (ensure_target_downloads P inst papers t w)) x))
     | Exc _ =>
         status_during (download_status (heap w x))
           (download_status (heap (snd (ensure_target_downloads P inst papers t w)) x))
     end
  /\ (mem x papers = false ->
      heap (snd (ensure_target_downloads P inst papers t w)) x = heap w x).
Proof.
  destruct (ensure_target_downloads P inst papers t w) as [[l|e] w'] eqn:Hrun;
    apply ensure_target_downloads_outcome in Hrun; cbn [fst snd];
    destruct Hrun as [Hfix [Hother Hend]].
  - split; [apply Hfix|]. split; [apply Hend|].
    intros Hx. apply Hother. apply mem_false. exact Hx.
  - split; [apply Hfix|]. split; [apply Hend|].
    intros Hx. apply Hother. apply mem_false. exact Hx.
Qed.

(** X3. On a list of distinct paper objects, [ensure_target_downloads]
    returns distinct objects, each with status [DOWNLOADED] in the final
    store, whatever the providers do. *)
Theorem ensure_target_downloads_returns_downloaded_papers
    (P : Providers) (inst : bool) (papers : list ref) (t : Z) (w : World) :
  NoDup papers ->
  match ensure_target_downloads P inst papers t w with
  | (Ok l, w') =>
      NoDup l /\ Forall (fun x => download_status (heap w' x) = DOWNLOADED) l
  | (Exc _, _) => True
  end.
Proof.
  intros Hnd.
  destruct (ensure_target_downloads P inst papers t w) as [[l|e] w'] eqn:Hrun;
    [|exact I].
  apply ensure_target_downloads_outcome in Hrun.
  destruct Hrun as [_ [_ [_ [_ [_ Hdone]]]]].
  destruct (Hdone Hnd) as [Hn Hd].
  split; [exact Hn|]. apply Forall_forall. exact Hd.
Qed.

(** X4. When every download succeeds, the PDF folder can be made, every
    paper has a DOI and every citation count converts to a float, a
    target between 1 and the pool size is met in the priority phase
    alone: the result is the first [target_count] papers of the pool in
    descending order of the score (the rounded sum of doubles that the
    scorer computes), each [DOWNLOADED], with its selection index and the
    score just computed; the other papers of the pool are only rescored
    and are never attempted. *)
Theorem ensure_target_downloads_with_succeeding_providers
    (P : Providers) (inst : bool) (r0 : ref) (rest : list ref) (t : Z) (w : World) :
  always_succeeding P ->
  folder_ready P ->
  with_doi (heap w) (r0 :: rest) ->
  citations_fit (heap w) (r0 :: rest) ->
  (1 <= t <= Py.len (r0 :: rest))%Z ->
  exists w',
    ensure_target_downloads P inst (r0 :: rest) t w
    = (Ok (firstn (Z.to_nat t)
             (sort_desc (fun r => score (heap w r)) (r0 :: rest))), w')
    /\ (forall r,
          In r (firstn (Z.to_nat t)
                  (sort_desc (fun r => score (heap w r)) (r0 :: rest))) ->
          download_status (heap w' r) = DOWNLOADED
          /\ paper_index (heap w' r) = paper_index (heap w r)
          /\ SmartDownloadManager.score_of (heap w r) = Ok (priority_score (heap w' r)))
    /\ (forall x,
          ~ In x (firstn (Z.to_nat t)
                    (sort_desc (fun r => score (heap w r)) (r0 :: rest))) ->
          heap w' x = if mem x (r0 :: rest) then rescored (heap w x) else heap w x).
Proof.
  intros Hs Hready Hdoi Hfit [Hlo Hhi].
  destruct (@calculate_priority_scores_run r0 rest w Hfit) as [w1 [Hrun1 [_ Hheap1]]].
  set (pool := r0 :: rest) in *.
  assert (Hkey : sort_desc (fun r => priority_score (heap w1 r)) pool
                 = sort_desc (fun r => score (heap w r)) pool).
  { apply sort_desc_ext. intros a Ha. rewrite Hheap1.
    rewrite (proj2 (mem_In a pool) Ha). reflexivity. }
  rewrite Hkey in Hrun1.
  set (sorted := sort_desc (fun r => score (heap w r)) pool) in *.
  assert (Hperm : Permutation pool sorted) by apply sort_desc_perm.
  assert (Hdoi1 : with_doi (heap w1) sorted).
  { intros x Hx. rewrite Hheap1.
    assert (In x pool) as Hxp
      by (eapply Permutation_in; [apply Permutation_sym; exact Hperm|exact Hx]).
    rewrite (proj2 (mem_In x pool) Hxp). apply Hdoi. exact Hxp. }
  destruct (@attempt_loop_all_succeed P inst true t Hs Hready sorted [] w1 Hdoi1)
    as [w2 [Hrun2 [Hkept [Hdone Hother]]]].
  cbn [app] in Hrun2.
  assert (Htaken : taken t [] = Z.to_nat t)
    by (unfold taken, Py.len; cbn [List.length]; lia).
  rewrite Htaken in *.
  exists w2. split; [|split].
  - unfold ensure_target_downloads, _priority_download_phase.
    cbv [bind ret]. rewrite Hrun1, Hrun2.
    replace (Py.len (firstn (Z.to_nat t) sorted) >=? t)%Z with true.
    + unfold Py.slice_to.
      replace (0 <=? t)%Z with true by (symmetry; apply Z.leb_le; lia).
      rewrite firstn_firstn, Nat.min_id. reflexivity.
    + symmetry. rewrite Z.geb_leb. apply Z.leb_le.
      unfold Py.len in *. rewrite length_firstn.
      rewrite <- (Permutation_length Hperm). lia.
  - intros r Hr.
    assert (In r pool) as Hrp.
    { eapply Permutation_in; [apply Permutation_sym; exact Hperm|].
      exact (in_firstn _ _ _ Hr). }
    split; [apply Hdone; exact Hr|].
    pose proof (Hkept r) as Hk. rewrite Hheap1, (proj2 (mem_In r pool) Hrp) in Hk.
    split; [rewrite (kept_index Hk); reflexivity|].
    rewrite (kept_priority Hk). cbn [rescored priority_score set_priority_score].
    apply score_of_fits. apply Hfit. exact Hrp.
  - intros x Hx. rewrite (Hother x Hx). apply Hheap1.
Qed.

(** X3 on the three sample papers with providers that always deliver. *)
Lemma ensure_target_downloads_returns_downloaded_papers_witness :
  NoDup [0; 1; 2]%nat
  /\ match ensure_target_downloads Samples.always_succeed false [0; 1; 2]%nat 2
             Samples.world3 with
     | (Ok l, w') =>
         NoDup l /\ Forall (fun x => download_status (heap w' x) = DOWNLOADED) l
     | (Exc _, _) => True
     end.
Proof.
  assert (Hnd : NoDup [0; 1; 2]%nat)
    by (repeat constructor; cbn; intuition discriminate).
  split; [exact Hnd|].
  apply (@ensure_target_downloads_returns_downloaded_papers
           Samples.always_succeed false [0; 1; 2]%nat 2 Samples.world3 Hnd).
Defined.

(** X4 on the three sample papers and a target of two. *)
Lemma ensure_target_downloads_with_succeeding_providers_witness :
  exists w',
    ensure_target_downloads Samples.always_succeed false [0; 1; 2]%nat 2 Samples.world3
    = (Ok (firstn (Z.to_nat 2)
             (sort_desc (fun r => score (heap Samples.world3 r)) [0; 1; 2]%nat)), w')
    /\ (forall r,
          In r (firstn (Z.to_nat 2)
                  (sort_desc (fun r => score (heap Samples.world3 r)) [0; 1; 2]%nat)) ->
          download_status (heap w' r) = DOWNLOADED
          /\ paper_index (heap w' r) = paper_index (heap Samples.world3 r)
          /\ SmartDownloadManager.score_of (heap Samples.world3 r)
             = Ok (priority_score (heap w' r)))
    /\ (forall x,
          ~ In x (firstn (Z.to_nat 2)
                    (sort_desc (fun r => score (heap Samples.world3 r)) [0; 1; 2]%nat)) ->
          heap w' x = if mem x [0; 1; 2]%nat then rescored (heap Samples.world3 x)
                      else heap Samples.world3 x).
Proof.
  apply (@ensure_target_downloads_with_succeeding_providers
           Samples.always_succeed false 0%nat [1; 2]%nat 2 Samples.world3).
  - intros tr p. split; reflexivity.
  - intros tr. reflexivity.
  - intros r Hr. cbn in Hr.
    destruct Hr as [<-|[<-|[<-|[]]]]; reflexivity.
  - intros r Hr. cbn in Hr.
    destruct Hr as [<-|[<-|[<-|[]]]]; vm_compute; reflexivity.
  - cbn. lia.
Defined.

End PhasesInGeneral.

(* ================================================================== *)
(** * Routing in [download_paper] *)
(* ================================================================== *)

Lemma eqb_empty_false (s : string) : String.eqb s EmptyString = false <-> s <> EmptyString.
Proof. apply String.eqb_neq. Qed.

(** X5. [DownloadManager.download_paper] routes by the DOI alone: no
    DOI, no attempt and [False]; a DOI that is not Elsevier's goes to
    Anna's Archive only; an Elsevier DOI goes to the Elsevier client, and
    on to Anna's Archive exactly when that client returned a failure (not
    when it raised).  The call never raises. *)
Theorem download_paper_routes_by_doi
    (P : Providers) (r : ref) (name : string) (w : World) :
  exists route,
    trace (snd (DownloadManager.download_paper P r name w))
    = trace w ++ map (fun prov => Attempt prov r) route
    /\ routed P (trace w) r (heap w r) route
         (fst (DownloadManager.download_paper P r name w)).
Proof.
  unfold DownloadManager.download_paper, download_pdf. run_monad.
  destruct (String.eqb (doi (heap w r)) EmptyString) eqn:Edoi.
  { exists []. cbn [heap trace fst snd map routed]. rewrite app_nil_r.
    split; [reflexivity|]. split; [apply String.eqb_eq; exact Edoi|reflexivity]. }
  apply String.eqb_neq in Edoi.
  destruct (Utils.is_elsevier_doi (doi (heap w r))) eqn:Eels;
    cbn [heap trace]; rewrite upd_same; fold (in_progress (heap w r)).
  - destruct (elsevier_download_pdf P (trace w) (in_progress (heap w r)))
      as [[|] sz|e] eqn:E1; cbn [heap trace fst snd].
    + exists [ElsevierProvider]. cbn [map routed]. rewrite E1.
      split; [reflexivity|]. repeat split; try exact Eels; reflexivity.
    + rewrite upd_same. fold (in_progress (heap w r)).
      destruct (anna_download_pdf P (trace w ++ [Attempt ElsevierProvider r])
                  (in_progress (heap w r))) as [[|] sz2|e] eqn:E2;
        cbn [heap trace fst snd];
        exists [ElsevierProvider; AnnaProvider]; cbn [map routed];
        rewrite E1, E2, <- app_assoc; repeat split; try exact Eels; reflexivity.
    + exists [ElsevierProvider]. cbn [map routed]. rewrite E1.
      split; [reflexivity|]. repeat split; try exact Eels; reflexivity.
  - destruct (anna_download_pdf P (trace w) (in_progress (heap w r)))
      as [[|] sz|e] eqn:E1; cbn [heap trace fst snd];
      exists [AnnaProvider]; cbn [map routed]; rewrite E1;
      (split; [reflexivity|]); repeat split; try exact Eels; try exact Edoi; reflexivity.
Qed.

(* ================================================================== *)
(** * The byte fetchers on any network *)
(* ================================================================== *)

Section FetchersInGeneral.
Import AnnaArchiveDownloader.







End FetchersInGeneral.

(* ================================================================== *)
(** * The retry wrapper on scripted operations *)
(* ================================================================== *)

Section RetryScripts.
Import Utils.

Lemma count_calls_app tr tr' :
  count_calls (tr ++ tr') = (count_calls tr + count_calls tr')%nat.
Proof. unfold count_calls. rewrite filter_app, length_app. reflexivity. Qed.

Lemma scripted_run script dflt tr :
  scripted script dflt tr = (nth (count_calls tr) script dflt, tr ++ [Called]).
Proof. reflexivity. Qed.

(** The loop on a script whose next [length es] calls raise and whose
    call after them returns [a], with attempts to spare. *)
Lemma retry_loop_scripted_success (a : bool) (rest : list (res bool)) (dflt : res bool)
    (delay : Q) (N : Z) :
  forall (es : list exn) (pre : list (res bool)) (m : nat) (e0 : exn) (tr : list RetryEvent),
    count_calls tr = List.length pre ->
    (Z.of_nat (List.length pre + List.length es) < N)%Z ->
    retry_loop trace_sleep N delay
      (scripted (pre ++ raising es ++ Ok a :: rest) dflt)
      (map Z.of_nat (seq (List.length pre) (List.length es + S m))) e0 tr
    = (Ok a, tr ++ failed_attempts delay (Z.of_nat (List.length pre)) (List.length es)
                ++ [Called]).
Proof.
  induction es as [|e es IH]; intros pre m e0 tr Htr HN.
  - cbn [List.length Nat.add seq map retry_loop raising app failed_attempts].
    unfold try_except. rewrite scripted_run, Htr, nth_middle. reflexivity.
  - cbn [List.length Nat.add seq map retry_loop raising app failed_attempts].
    unfold try_except. rewrite scripted_run, Htr, nth_middle.
    unfold bind at 1.
    replace (Z.of_nat (List.length pre) <? N - 1)%Z with true
      by (symmetry; apply Z.ltb_lt; cbn [List.length] in HN; lia).
    unfold trace_sleep at 1, modify at 1.
    specialize (IH (pre ++ [Exc e]) m e
                   ((tr ++ [Called]) ++ [Slept (delay * inject_Z (2 ^ Z.of_nat (List.length pre)))])).
    rewrite length_app in IH. cbn [List.length] in IH.
    replace (List.length pre + 1)%nat with (S (List.length pre)) in IH by lia.
    unfold raising in IH |- *.
    rewrite <- !app_assoc in IH. cbn [app] in IH.
    rewrite <- !app_assoc. cbn [app].
    rewrite IH.
    + replace (Z.of_nat (S (List.length pre))) with (Z.of_nat (List.length pre) + 1)%Z by lia.
      rewrite <- ?app_assoc. reflexivity.
    + rewrite count_calls_app, Htr. unfold count_calls. cbn [filter List.length]. lia.
    + cbn [List.length] in HN. lia.
Qed.

(** The loop on a script whose remaining attempts all raise. *)
Lemma retry_loop_scripted_failure (e : exn) (rest : list (res bool)) (dflt : res bool)
    (delay : Q) :
  forall (es : list exn) (pre : list (res bool)) (e0 : exn) (tr : list RetryEvent),
    count_calls tr = List.length pre ->
    retry_loop trace_sleep (Z.of_nat (List.length pre + List.length es + 1)) delay
      (scripted (pre ++ raising (es ++ [e]) ++ rest) dflt)
      (map Z.of_nat (seq (List.length pre) (List.length es + 1))) e0 tr
    = (Exc e, tr ++ failed_attempts delay (Z.of_nat (List.length pre)) (List.length es)
                 ++ [Called]).
Proof.
  induction es as [|e1 es IH]; intros pre e0 tr Htr.
  - cbn [List.length Nat.add seq map retry_loop raising app failed_attempts].
    unfold try_except. rewrite scripted_run, Htr.
    change (pre ++ Exc e :: rest) with (pre ++ Exc e :: rest).
    rewrite nth_middle. unfold bind at 1.
    replace (Z.of_nat (List.length pre) <? Z.of_nat (List.length pre + 0 + 1) - 1)%Z
      with false by (symmetry; apply Z.ltb_ge; lia).
    reflexivity.
  - cbn [List.length Nat.add seq map retry_loop raising app failed_attempts].
    unfold try_except. rewrite scripted_run, Htr, nth_middle.
    unfold bind at 1.
    replace (Z.of_nat (List.length pre) <? Z.of_nat (List.length pre + S (List.length es) + 1) - 1)%Z
      with true by (symmetry; apply Z.ltb_lt; lia).
    unfold trace_sleep at 1, modify at 1.
    specialize (IH (pre ++ [Exc e1]) e1
                   ((tr ++ [Called]) ++ [Slept (delay * inject_Z (2 ^ Z.of_nat (List.length pre)))])).
    rewrite length_app in IH. cbn [List.length] in IH.
    replace (List.length pre + 1 + List.length es + 1)%nat
      with (List.length pre + S (List.length es) + 1)%nat in IH by lia.
    replace (List.length pre + 1)%nat with (S (List.length pre)) in IH by lia.
    unfold raising in IH |- *.
    rewrite <- !app_assoc in IH. cbn [app] in IH.
    rewrite <- !app_assoc. cbn [app].
    rewrite IH.
    + replace (Z.of_nat (S (List.length pre))) with (Z.of_nat (List.length pre) + 1)%Z by lia.
      rewrite <- ?app_assoc. reflexivity.
    + rewrite count_calls_app, Htr. unfold count_calls. cbn [filter List.length]. lia.
Qed.

(** X8. [retry_on_failure] returns the first success: when the wrapped
    operation raises [length es] times and then returns [a], with
    [length es < max_retries], the wrapper returns [a] after
    [length es + 1] calls, having slept [delay * 2 ** i] after the failed
    attempt [i], and neither calls nor sleeps after the success. *)
Theorem retry_on_failure_returns_first_success
    (es : list exn) (a : bool) (rest : list (res bool)) (dflt : res bool)
    (delay : Q) (max_retries : Z) :
  (Py.len es < max_retries)%Z ->
  retry_on_failure trace_sleep max_retries delay
    (scripted (raising es ++ Ok a :: rest) dflt) []
  = (Ok a, failed_attempts delay 0 (List.length es) ++ [Called]).
Proof.
  intros H. unfold retry_on_failure, range. unfold Py.len in H.
  replace (Z.to_nat max_retries)
    with (List.length es + S (Z.to_nat max_retries - List.length es - 1))%nat by lia.
  apply (@retry_loop_scripted_success a rest dflt delay max_retries es [] _ _ []).
  - reflexivity.
  - cbn [List.length Nat.add]. exact H.
Qed.

(** X9. When all [max_retries >= 1] attempts raise, [retry_on_failure]
    raises the exception of the last attempt (not of the first), after
    exactly [max_retries] calls and without sleeping after the last. *)
Theorem retry_on_failure_raises_last_exception
    (es : list exn) (e : exn) (rest : list (res bool)) (dflt : res bool) (delay : Q) :
  retry_on_failure trace_sleep (Py.len (es ++ [e])) delay
    (scripted (raising (es ++ [e]) ++ rest) dflt) []
  = (Exc e, failed_attempts delay 0 (List.length es) ++ [Called]).
Proof.
  unfold retry_on_failure, range, Py.len. rewrite Nat2Z.id, length_app.
  cbn [List.length].
  apply (@retry_loop_scripted_failure e rest dflt delay es [] _ []).
  reflexivity.
Qed.

(** X10. With [max_retries <= 0] the wrapped operation is never called:
    [retry_on_failure] raises [Exception("No attempts made")] and leaves
    the world as it was. *)
Theorem retry_on_failure_without_budget
    (S A : Type) (sleep : Q -> M S unit) (max_retries : Z) (delay : Q)
    (func : M S A) (s : S) :
  (max_retries <= 0)%Z ->
  retry_on_failure sleep max_retries delay func s
  = (Exc (Exception "No attempts made"), s).
Proof.
  intros H. unfold retry_on_failure, range.
  replace (Z.to_nat max_retries) with 0%nat by lia. reflexivity.
Qed.

(** X8 on an operation that raises twice and then returns [True], with
    three attempts allowed. *)
Lemma retry_on_failure_returns_first_success_witness :
  (Py.len [NetworkError "Request failed: 503"; NetworkError "Request failed: 403"] < 3)%Z
  /\ retry_on_failure trace_sleep 3 1
       (scripted (raising [NetworkError "Request failed: 503";
                           NetworkError "Request failed: 403"]
                  ++ Ok true :: []) (Ok false)) []
     = (Ok true,
        failed_attempts 1 0
          (List.length [NetworkError "Request failed: 503";
                        NetworkError "Request failed: 403"]) ++ [Called]).
Proof.
  assert (H : (Py.len [NetworkError "Request failed: 503";
                       NetworkError "Request failed: 403"] < 3)%Z) by (cbn; lia).
  split; [exact H|].
  apply (@retry_on_failure_returns_first_success
           [NetworkError "Request failed: 503"; NetworkError "Request failed: 403"]
           true [] (Ok false) 1 3 H).
Defined.

(** X10 on a wrapper built with [max_retries=0]. *)
Lemma retry_on_failure_without_budget_witness :
  retry_on_failure trace_sleep 0 1 (failing (NetworkError "Request failed: 503")) []
  = (Exc (Exception "No attempts made"), []).
Proof.
  apply (@retry_on_failure_without_budget (list RetryEvent) bool trace_sleep 0 1
           (failing (NetworkError "Request failed: 503")) []).
  lia.
Defined.

End RetryScripts.

(* ================================================================== *)
(** * The rate limiter below and at its ceiling *)
(* ================================================================== *)

Section LimiterInGeneral.
Import Utils.

Lemma wait_if_needed_below_ceiling over s :
  (Py.len (calls (limiter s)) < calls_per_minute (limiter s))%Z ->
  wait_if_needed over s
  = (Ok tt,
     mkTimed (mkRateLimiter (calls_per_minute (limiter s))
                (filter (in_window (clock s)) (calls (limiter s)) ++ [clock s])
                (last_warning (limiter s)))
             (clock s) (history s ++ [clock s])).
Proof.
  intros H. destruct s as [[cpm cs lw] clk hist].
  cbn [limiter clock history calls calls_per_minute last_warning] in *.
  unfold wait_if_needed.
  cbv [bind gets time_time set_calls modify ret calls_0 append_call].
  cbn [limiter clock history calls calls_per_minute last_warning fst snd].
  replace (Py.len (filter (in_window clk) cs) >=? cpm)%Z with false; [reflexivity|].
  symmetry. rewrite Z.geb_leb. apply Z.leb_gt.
  pose proof (filter_length_le (in_window clk) cs). unfold Py.len in *. lia.
Qed.

Lemma run_calls_below_ceiling :
  forall evs s,
    (Py.len (calls (limiter s)) + Py.len evs <= calls_per_minute (limiter s))%Z ->
    fst (run_calls evs s) = Ok tt
    /\ clock (snd (run_calls evs s)) = unthrottled_clock (clock s) evs
    /\ history (snd (run_calls evs s)) = history s ++ unthrottled_times (clock s) evs.
Proof.
  induction evs as [|[gap over] evs IH]; intros s H.
  - cbn. rewrite app_nil_r. auto.
  - rewrite run_calls_cons.
    unfold Py.len in H. cbn [List.length] in H.
    rewrite wait_if_needed_below_ceiling
      by (cbn [limiter calls calls_per_minute]; unfold Py.len; lia).
    cbn [limiter clock history calls calls_per_minute last_warning].
    match goal with |- context [run_calls evs ?s1] => specialize (IH s1) end.
    cbn [limiter clock history calls calls_per_minute last_warning] in IH.
    destruct IH as [H1 [H2 H3]].
    { pose proof (filter_length_le (in_window (clock s + gap)) (calls (limiter s))).
      unfold Py.len. rewrite length_app. cbn [List.length]. lia. }
    split; [exact H1|]. split; [exact H2|].
    rewrite H3, <- app_assoc. reflexivity.
Qed.

Lemma wait_if_needed_delay cpm over s :
  (0 <= cpm)%Z -> 0 <= over -> limiter_inv cpm s ->
  clock (snd (wait_if_needed over s)) <= clock s + 60 + over.
Proof.
  intros Hcpm Hover.
  destruct s as [[cpm' cs lw] clk hist].
  unfold limiter_inv. cbn [limiter clock history calls calls_per_minute].
  intros [-> [Hg [L [HL [HallL ->]]]]].
  assert (Hallclk : Forall (fun x => x <= clk) hist) by (eapply Forall_le_trans; eassumption).
  unfold wait_if_needed.
  cbv [bind gets time_time set_calls modify ret calls_0 append_call asyncio_sleep set_last_warning].
  cbn [limiter clock history calls calls_per_minute last_warning fst snd].
  destruct (Py.len (filter (in_window clk) (filter (in_window L) hist)) >=? cpm)%Z.
  2:{ cbn [limiter clock history calls calls_per_minute last_warning fst snd]. lra. }
  destruct (filter (in_window clk) (filter (in_window L) hist)) as [|c0 rest] eqn:Ecs.
  { cbn [limiter clock history calls calls_per_minute last_warning fst snd]. lra. }
  assert (Hc0 : c0 <= clk).
  { assert (In c0 (filter (in_window clk) (filter (in_window L) hist))) as Hin
      by (rewrite Ecs; left; reflexivity).
    apply filter_In in Hin. destruct Hin as [Hin _].
    apply filter_In in Hin. destruct Hin as [Hin _].
    rewrite Forall_forall in Hallclk. apply Hallclk. exact Hin. }
  cbn [limiter clock history calls calls_per_minute last_warning fst snd].
  destruct (Qlt_bool 0 (60 - (clk - c0)));
    cbn [limiter clock history calls calls_per_minute last_warning fst snd]; [|lra].
  destruct (Qlt_bool 30 (clk - lw));
    cbn [limiter clock history calls calls_per_minute last_warning fst snd]; lra.
Qed.

(** X11. A fresh [RateLimiter] does not delay its first
    [calls_per_minute] calls: each returns without sleeping, so the clock
    advances by the gaps between the calls only, and each call is granted
    at the time it is made. *)
Theorem rate_limiter_free_below_ceiling (cpm : Z) (t0 : Q) (evs : list (Q * Q)) :
  (Py.len evs <= cpm)%Z ->
  fst (run_calls evs (fresh cpm t0)) = Ok tt
  /\ clock (snd (run_calls evs (fresh cpm t0))) = unthrottled_clock t0 evs
  /\ history (snd (run_calls evs (fresh cpm t0))) = unthrottled_times t0 evs.
Proof.
  intros H. apply (run_calls_below_ceiling evs (fresh cpm t0)).
  cbn. exact H.
Qed.

(** X12. After any forward-in-time run on a fresh limiter, one further
    [wait_if_needed] moves the clock on by at most 60 seconds plus the
    lateness of its sleep, and never back. *)
Theorem rate_limiter_blocks_at_most_a_minute
    (cpm : Z) (t0 : Q) (evs : list (Q * Q)) (over : Q) :
  (0 <= cpm)%Z -> forward_in_time evs -> 0 <= over ->
  clock (snd (run_calls evs (fresh cpm t0)))
  <= clock (snd (wait_if_needed over (snd (run_calls evs (fresh cpm t0)))))
  <= clock (snd (run_calls evs (fresh cpm t0))) + 60 + over.
Proof.
  intros Hcpm Hevs Hover.
  destruct (run_calls_inv Hcpm Hevs (fresh_inv cpm t0)) as [Hinv _].
  split.
  - apply (wait_if_needed_step Hcpm Hover Hinv).
  - apply (wait_if_needed_delay Hcpm Hover Hinv).
Qed.

(** X13. [self.calls] never holds more than [calls_per_minute]
    timestamps between two calls of a forward-in-time run on a fresh
    limiter. *)
Theorem rate_limiter_remembers_at_most_ceiling
    (cpm : Z) (t0 : Q) (evs : list (Q * Q)) :
  (0 <= cpm)%Z -> forward_in_time evs ->
  (Py.len (calls (limiter (snd (run_calls evs (fresh cpm t0))))) <= cpm)%Z.
Proof.
  intros Hcpm Hevs.
  destruct (run_calls_inv Hcpm Hevs (fresh_inv cpm t0)) as [[_ [Hg [L [_ [Hall ->]]]]] _].
  rewrite (filter_window_granted Hall). apply window_bound; assumption.
Qed.

(** X14. A limiter built with [calls_per_minute <= 0] does not block:
    its first [wait_if_needed] raises [IndexError] (from [self.calls[0]]
    on the empty list) and grants nothing. *)
Theorem rate_limiter_without_budget_raises
    (cpm : Z) (t0 gap over : Q) (evs : list (Q * Q)) :
  (cpm <= 0)%Z ->
  fst (run_calls ((gap, over) :: evs) (fresh cpm t0)) = Exc IndexError
  /\ history (snd (run_calls ((gap, over) :: evs) (fresh cpm t0))) = [].
Proof.
  intros H. rewrite run_calls_cons. unfold fresh, RateLimiter_init.
  unfold wait_if_needed.
  cbv [bind gets time_time set_calls modify ret calls_0 append_call].
  cbn [limiter clock history calls calls_per_minute last_warning fst snd filter].
  replace (Py.len (@nil Q) >=? cpm)%Z with true
    by (symmetry; rewrite Z.geb_leb; apply Z.leb_le; cbn; lia).
  cbn. auto.
Qed.

(** X11 on the burst of four calls against a ceiling of four. *)
Lemma rate_limiter_free_below_ceiling_witness :
  fst (run_calls Samples.burst (fresh 4 100)) = Ok tt
  /\ clock (snd (run_calls Samples.burst (fresh 4 100)))
     = unthrottled_clock 100 Samples.burst
  /\ history (snd (run_calls Samples.burst (fresh 4 100)))
     = unthrottled_times 100 Samples.burst.
Proof.
  apply (@rate_limiter_free_below_ceiling 4 100 Samples.burst).
  cbn. lia.
Defined.

(** X12 on a fifth call after the burst of four against a ceiling of
    two. *)
Lemma rate_limiter_blocks_at_most_a_minute_witness :
  clock (snd (run_calls Samples.burst (fresh 2 100)))
  <= clock (snd (wait_if_needed 0 (snd (run_calls Samples.burst (fresh 2 100)))))
  <= clock (snd (run_calls Samples.burst (fresh 2 100))) + 60 + 0.
Proof.
  apply (@rate_limiter_blocks_at_most_a_minute 2 100 Samples.burst 0).
  - lia.
  - unfold forward_in_time, Samples.burst.
    repeat constructor; unfold Qle; simpl; lia.
  - unfold Qle; simpl; lia.
Defined.

(** X13 on the burst of four calls against a ceiling of two. *)
Lemma rate_limiter_remembers_at_most_ceiling_witness :
  (Py.len (calls (limiter (snd (run_calls Samples.burst (fresh 2 100))))) <= 2)%Z.
Proof.
  apply (@rate_limiter_remembers_at_most_ceiling 2 100 Samples.burst).
  - lia.
  - unfold forward_in_time, Samples.burst.
    repeat constructor; unfold Qle; simpl; lia.
Defined.

(** X14 on [RateLimiter(0)]. *)
Lemma rate_limiter_without_budget_raises_witness :
  fst (run_calls ((0, 0) :: []) (fresh 0 100)) = Exc IndexError
  /\ history (snd (run_calls ((0, 0) :: []) (fresh 0 100))) = [].
Proof.
  apply (@rate_limiter_without_budget_raises 0 100 0 0 []).
  lia.
Defined.

End LimiterInGeneral.

(* ================================================================== *)
(** * The two classifiers *)
(* ================================================================== *)

Lemma lower_ascii_idem (c : ascii) : Py.lower_ascii (Py.lower_ascii c) = Py.lower_ascii c.
Proof. destruct c as [[] [] [] [] [] [] [] []]; reflexivity. Qed.

Lemma lower_idem (s : string) : Py.lower (Py.lower s) = Py.lower s.
Proof.
  induction s as [|c s IH]; [reflexivity|].
  cbn [Py.lower]. rewrite lower_ascii_idem, IH. reflexivity.
Qed.

Lemma lower_empty (s : string) :
  String.eqb (Py.lower s) EmptyString = String.eqb s EmptyString.
Proof. destruct s; reflexivity. Qed.

Lemma prefix_same_length (p q s : string) :
  String.prefix p s = true -> String.prefix q s = true ->
  String.length p = String.length q -> p = q.
Proof.
  intros Hp Hq Hlen.
  apply String.prefix_correct in Hp. apply String.prefix_correct in Hq.
  rewrite <- Hp, <- Hq, Hlen. reflexivity.
Qed.

Section Classifiers.
Import Utils.

(** No string starts with a prefix of both lists. *)
Lemma prefixes_exclusive (s : string) :
  Py.startswith_any s non_elsevier_prefixes = true ->
  Py.startswith_any s elsevier_prefixes = false.
Proof.
  intros Hnon. destruct (Py.startswith_any s elsevier_prefixes) eqn:Hels; [|reflexivity].
  unfold Py.startswith_any in *.
  apply existsb_exists in Hnon. destruct Hnon as [p [Hp Hps]].
  apply existsb_exists in Hels. destruct Hels as [q [Hq Hqs]].
  unfold Py.startswith in *.
  assert (Hlp : String.length p = 8%nat).
  { assert (H : forallb (fun x => Nat.eqb (String.length x) 8) non_elsevier_prefixes = true)
      by reflexivity.
    rewrite forallb_forall in H. apply Nat.eqb_eq. apply H. exact Hp. }
  assert (Hlq : String.length q = 8%nat).
  { assert (H : forallb (fun x => Nat.eqb (String.length x) 8) elsevier_prefixes = true)
      by reflexivity.
    rewrite forallb_forall in H. apply Nat.eqb_eq. apply H. exact Hq. }
  assert (Heq : p = q) by (apply (prefix_same_length p q s); congruence).
  subst q.
  assert (H : forallb (fun x => negb (existsb (String.eqb x) elsevier_prefixes))
                non_elsevier_prefixes = true) by reflexivity.
  rewrite forallb_forall in H. specialize (H p Hp).
  apply negb_true_iff in H.
  assert (H' : existsb (String.eqb p) elsevier_prefixes = true).
  { apply existsb_exists. exists p. split; [exact Hq|apply String.eqb_refl]. }
  congruence.
Qed.

(** X15. [is_elsevier_doi] is decided by the six Elsevier prefixes alone:
    it holds exactly when the lower-cased DOI starts with one of them.
    The list of non-Elsevier prefixes and the test for an empty DOI never
    change the answer, and the answer does not depend on the case of the
    DOI. *)
Theorem is_elsevier_doi_by_prefix_alone (doi : string) :
  is_elsevier_doi doi = Py.startswith_any (Py.lower doi) elsevier_prefixes
  /\ is_elsevier_doi (Py.lower doi) = is_elsevier_doi doi.
Proof.
  assert (Hshape : forall d,
            is_elsevier_doi d = Py.startswith_any (Py.lower d) elsevier_prefixes).
  { intros d. unfold is_elsevier_doi.
    change (map Py.lower non_elsevier_prefixes) with non_elsevier_prefixes.
    change (map Py.lower elsevier_prefixes) with elsevier_prefixes.
    destruct (String.eqb d EmptyString) eqn:Ed.
    - apply String.eqb_eq in Ed. subst d. reflexivity.
    - destruct (Py.startswith_any (Py.lower d) non_elsevier_prefixes) eqn:Hn.
      + symmetry. apply prefixes_exclusive. exact Hn.
      + destruct (Py.startswith_any (Py.lower d) elsevier_prefixes); reflexivity. }
  split; [apply Hshape|].
  rewrite !Hshape, lower_idem. reflexivity.
Qed.

(** X16. [_is_retryable_error] is decided by the permanent patterns
    alone: a message is retried exactly when its lower-cased text
    contains none of them.  The list of retryable patterns never changes
    the answer (a message that matches both lists is permanent, one that
    matches neither is retried), and the answer does not depend on the
    case of the message. *)
Theorem is_retryable_error_by_permanent_patterns_alone (error_msg : string) :
  Main._is_retryable_error error_msg
  = negb (existsb (Py.str_contains (Py.lower error_msg)) Main.non_retryable_patterns)
  /\ Main._is_retryable_error (Py.lower error_msg) = Main._is_retryable_error error_msg.
Proof.
  unfold Main._is_retryable_error. rewrite lower_idem. split; [|reflexivity].
  destruct (existsb (Py.str_contains (Py.lower error_msg)) Main.non_retryable_patterns);
    [reflexivity|].
  destruct (existsb (Py.str_contains (Py.lower error_msg)) Main.retryable_patterns);
    reflexivity.
Qed.
End Classifiers.

(* ================================================================== *)
(** * [chunk_list] *)
(* ================================================================== *)

Section Chunks.
Import Utils.
Variable A : Type.

Lemma firstn_min (x : nat) (l : list A) :
  firstn x l = firstn (Nat.min x (List.length l)) l.
Proof.
  destruct (Nat.le_ge_cases x (List.length l)) as [H|H].
  - rewrite Nat.min_l by exact H. reflexivity.
  - rewrite Nat.min_r by exact H. rewrite firstn_all. apply firstn_all2. exact H.
Qed.

Lemma firstn_add_skipn (a b : nat) (l : list A) :
  firstn (a + b) l = firstn a l ++ firstn b (skipn a l).
Proof.
  revert l. induction a as [|a IH]; intros l; [reflexivity|].
  destruct l as [|x l]; [cbn; rewrite firstn_nil; reflexivity|].
  cbn [Nat.add firstn skipn app]. rewrite IH. reflexivity.
Qed.

(** A slice that starts inside the list is a [skipn] followed by a
    [firstn]. *)
Lemma slice_chunk (l : list A) (a k : Z) :
  (0 <= a <= Py.len l)%Z -> (0 <= k)%Z ->
  Py.slice l a (a + k) = firstn (Z.to_nat k) (skipn (Z.to_nat a) l).
Proof.
  intros Ha Hk. unfold Py.slice.
  replace (a <? 0)%Z with false by (symmetry; apply Z.ltb_ge; lia).
  replace (a + k <? 0)%Z with false by (symmetry; apply Z.ltb_ge; lia).
  rewrite (Z.min_l a) by lia.
  transitivity (firstn (Nat.min (Z.to_nat k) (List.length (skipn (Z.to_nat a) l)))
                       (skipn (Z.to_nat a) l)).
  - f_equal. rewrite length_skipn. unfold Py.len in *. lia.
  - symmetry. apply firstn_min.
Qed.

Lemma concat_chunks (l : list A) (K : nat) :
  forall m, List.concat (map (fun i => firstn K (skipn (i * K) l)) (seq 0 m))
            = firstn (m * K) l.
Proof.
  induction m as [|m IH]; [reflexivity|].
  rewrite seq_S, map_app, concat_app, IH. cbn [map List.concat Nat.add].
  rewrite app_nil_r. replace (S m * K)%nat with (m * K + K)%nat by lia.
  symmetry. apply firstn_add_skipn.
Qed.

(** X17. With a chunk size of at least one, [chunk_list] cuts the list
    without loss: the chunks concatenate to the list, in order; every
    chunk holds between one and [chunk_size] elements; and there are
    [ceil(len(lst) / chunk_size)] of them. *)
Theorem chunk_list_partitions (lst : list A) (chunk_size : Z) :
  (1 <= chunk_size)%Z ->
  exists chunks,
    chunk_list lst chunk_size = Ok chunks
    /\ List.concat chunks = lst
    /\ Forall (fun c => (1 <= Py.len c <= chunk_size)%Z) chunks
    /\ Py.len chunks = ((Py.len lst + chunk_size - 1) / chunk_size)%Z.
Proof.
  intros Hk.
  set (K := Z.to_nat chunk_size).
  set (n := Py.len lst).
  set (m := Z.to_nat (if (0 <? n)%Z then (n - 0 - 1) / chunk_size + 1 else 0)%Z).
  assert (Hn : (0 <= n)%Z) by (unfold n, Py.len; lia).
  assert (Hz : (n - 0 - 1 = n - 1)%Z) by lia.
  assert (Hq1 : (chunk_size * ((n - 1) / chunk_size) <= n - 1)%Z)
    by (apply Z.mul_div_le; lia).
  assert (Hq2 : (n - 1 < chunk_size * Z.succ ((n - 1) / chunk_size))%Z)
    by (apply Z.mul_succ_div_gt; lia).
  assert (Hq0 : (0 < n -> 0 <= (n - 1) / chunk_size)%Z)
    by (intros; apply Z.div_pos; lia).
  assert (Hm : Z.of_nat m = ((n + chunk_size - 1) / chunk_size)%Z).
  { unfold m. rewrite Hz. destruct (0 <? n)%Z eqn:E.
    - apply Z.ltb_lt in E. specialize (Hq0 E).
      rewrite Z2Nat.id by lia.
      replace (n + chunk_size - 1)%Z with ((n - 1) + 1 * chunk_size)%Z by lia.
      rewrite Z.div_add by lia. lia.
    - apply Z.ltb_ge in E. assert (n = 0%Z) as -> by lia.
      cbn [Z.to_nat Z.of_nat]. symmetry. apply Z.div_small. lia. }
  assert (Hstart : forall i, (i < m)%nat -> (Z.of_nat i * chunk_size < n)%Z).
  { intros i Hi. unfold m in Hi. rewrite Hz in Hi. destruct (0 <? n)%Z eqn:E; [|cbn in Hi; lia].
    apply Z.ltb_lt in E. specialize (Hq0 E).
    assert (Z.of_nat i <= (n - 1) / chunk_size)%Z by lia. nia. }
  assert (Hcover : (List.length lst <= m * K)%nat).
  { unfold m. rewrite Hz. destruct (0 <? n)%Z eqn:E.
    - apply Z.ltb_lt in E. specialize (Hq0 E). unfold n, Py.len in *. nia.
    - apply Z.ltb_ge in E. unfold n, Py.len in *. lia. }
  assert (Hchunks :
    map (fun i => Py.slice lst i (i + chunk_size))
        (map (fun i => (0 + Z.of_nat i * chunk_size)%Z) (seq 0 m))
    = map (fun i => firstn K (skipn (i * K) lst)) (seq 0 m)).
  { rewrite map_map. apply map_ext_in. intros i Hi. apply in_seq in Hi.
    specialize (Hstart i (proj2 Hi)). fold n in Hstart.
    rewrite slice_chunk by (fold n; lia).
    unfold K. f_equal. f_equal. lia. }
  exists (map (fun i => firstn K (skipn (i * K) lst)) (seq 0 m)).
  split; [|split; [|split]].
  - unfold chunk_list, range3. fold n.
    replace (chunk_size =? 0)%Z with false by (symmetry; apply Z.eqb_neq; lia).
    replace (0 <? chunk_size)%Z with true by (symmetry; apply Z.ltb_lt; lia).
    fold m. rewrite Hchunks. reflexivity.
  - rewrite concat_chunks. apply firstn_all2. exact Hcover.
  - apply Forall_forall. intros c Hc. apply in_map_iff in Hc.
    destruct Hc as [i [<- Hi]]. apply in_seq in Hi.
    specialize (Hstart i (proj2 Hi)).
    unfold Py.len. rewrite length_firstn, length_skipn.
    unfold n, Py.len, K in *. nia.
  - unfold Py.len at 1. rewrite length_map, length_seq. exact Hm.
Qed.

(** X18. Without a positive chunk size [chunk_list] does not cut: a
    size of zero raises [ValueError] (from [range]), and a negative size
    returns the empty list, whatever the list holds. *)
Theorem chunk_list_without_positive_size (lst : list A) (chunk_size : Z) :
  (chunk_size <= 0)%Z ->
  chunk_list lst chunk_size
  = if (chunk_size =? 0)%Z
    then Exc (ValueError "range() arg 3 must not be zero")
    else Ok [].
Proof.
  intros Hk. unfold chunk_list, range3.
  destruct (chunk_size =? 0)%Z eqn:E; [reflexivity|].
  apply Z.eqb_neq in E.
  replace (0 <? chunk_size)%Z with false by (symmetry; apply Z.ltb_ge; lia).
  replace (Py.len lst <? 0)%Z with false
    by (symmetry; apply Z.ltb_ge; unfold Py.len; lia).
  reflexivity.
Qed.

End Chunks.

(** X17 on five elements cut by two. *)
Lemma chunk_list_partitions_witness :
  exists chunks,
    Utils.chunk_list [1; 2; 3; 4; 5]%Z 2 = Ok chunks
    /\ List.concat chunks = [1; 2; 3; 4; 5]%Z
    /\ Forall (fun c => (1 <= Py.len c <= 2)%Z) chunks
    /\ Py.len chunks = ((Py.len [1; 2; 3; 4; 5]%Z + 2 - 1) / 2)%Z.
Proof.
  apply (@chunk_list_partitions Z [1; 2; 3; 4; 5]%Z 2). lia.
Defined.

(** X18 on five elements and a size of minus two. *)
Lemma chunk_list_without_positive_size_witness :
  Utils.chunk_list [1; 2; 3; 4; 5]%Z (-2)
  = if (-2 =? 0)%Z
    then Exc (ValueError "range() arg 3 must not be zero")
    else Ok [].
Proof.
  apply (@chunk_list_without_positive_size Z [1; 2; 3; 4; 5]%Z (-2)). lia.
Defined.

(* ================================================================== *)
(** * File names and material identifiers *)
(* ================================================================== *)

(** ** Strings: stripping and slicing *)

Lemma all_chars_forallb (f : ascii -> bool) (s : string) :
  Py.all_chars f s = forallb f (list_ascii_of_string s).
Proof. induction s as [|c s IH]; [reflexivity|]. cbn. rewrite IH. reflexivity. Qed.

Lemma forallb_firstn {A} (f : A -> bool) (n : nat) (l : list A) :
  forallb f l = true -> forallb f (firstn n l) = true.
Proof.
  revert l. induction n as [|n IH]; intros [|x l] H; try reflexivity.
  cbn in *. apply andb_prop in H. destruct H as [-> H]. cbn. apply IH. exact H.
Qed.

Lemma slice_to_firstn {A} (l : list A) (n : Z) :
  exists k, Py.slice_to l n = firstn k l.
Proof. unfold Py.slice_to. destruct (0 <=? n)%Z; eexists; reflexivity. Qed.

Lemma all_chars_slice_to (f : ascii -> bool) (s : string) (n : Z) :
  Py.all_chars f s = true -> Py.all_chars f (Py.str_slice_to s n) = true.
Proof.
  intros H. unfold Py.str_slice_to.
  destruct (slice_to_firstn (list_ascii_of_string s) n) as [k ->].
  rewrite all_chars_forallb, list_ascii_of_string_of_list_ascii.
  apply forallb_firstn. rewrite <- all_chars_forallb. exact H.
Qed.

Lemma length_list_ascii (s : string) :
  List.length (list_ascii_of_string s) = String.length s.
Proof. induction s as [|c s IH]; [reflexivity|]. cbn. rewrite IH. reflexivity. Qed.

Lemma length_string_of_list (l : list ascii) :
  String.length (string_of_list_ascii l) = List.length l.
Proof. induction l as [|c l IH]; [reflexivity|]. cbn. rewrite IH. reflexivity. Qed.

Lemma length_str_slice_to (s : string) (n : Z) :
  (0 <= n)%Z ->
  String.length (Py.str_slice_to s n) = Nat.min (Z.to_nat n) (String.length s).
Proof.
  intros Hn. unfold Py.str_slice_to, Py.slice_to.
  replace (0 <=? n)%Z with true by (symmetry; apply Z.leb_le; exact Hn).
  rewrite length_string_of_list, length_firstn, length_list_ascii. reflexivity.
Qed.

Lemma str_slice_to_all (s : string) (n : Z) :
  (Z.of_nat (String.length s) <= n)%Z -> Py.str_slice_to s n = s.
Proof.
  intros Hn. unfold Py.str_slice_to, Py.slice_to.
  replace (0 <=? n)%Z with true by (symmetry; apply Z.leb_le; lia).
  rewrite firstn_all2 by (rewrite length_list_ascii; lia).
  apply string_of_list_ascii_of_string.
Qed.

Lemma all_chars_lstrip (f g : ascii -> bool) (s : string) :
  Py.all_chars f s = true -> Py.all_chars f (Py.lstrip g s) = true.
Proof.
  induction s as [|c s IH]; intros H; [reflexivity|].
  cbn [Py.lstrip]. destruct (g c); [|exact H].
  cbn in H. apply andb_prop in H. apply IH. apply H.
Qed.

Lemma all_chars_rstrip (f g : ascii -> bool) (s : string) :
  Py.all_chars f s = true -> Py.all_chars f (Py.rstrip g s) = true.
Proof.
  induction s as [|c s IH]; intros H; [reflexivity|].
  cbn in H. apply andb_prop in H. destruct H as [Hc Hs]. specialize (IH Hs).
  cbn [Py.rstrip]. destruct (Py.rstrip g s) as [|c' r].
  - destruct (g c); [reflexivity|]. cbn. rewrite Hc. reflexivity.
  - cbn [Py.all_chars]. rewrite Hc. exact IH.
Qed.

Lemma length_lstrip (g : ascii -> bool) (s : string) :
  (String.length (Py.lstrip g s) <= String.length s)%nat.
Proof.
  induction s as [|c s IH]; [apply Nat.le_refl|].
  cbn [Py.lstrip]. destruct (g c); cbn [String.length]; lia.
Qed.

Lemma length_rstrip (g : ascii -> bool) (s : string) :
  (String.length (Py.rstrip g s) <= String.length s)%nat.
Proof.
  induction s as [|c s IH]; [apply Nat.le_refl|].
  cbn [Py.rstrip]. destruct (Py.rstrip g s) as [|c' r].
  - destruct (g c); cbn [String.length]; lia.
  - cbn [String.length] in *. lia.
Qed.

(** What [lstrip] leaves does not begin with a stripped character. *)
Lemma lstrip_head (g : ascii -> bool) (s : string) :
  match Py.lstrip g s with
  | EmptyString => True
  | String c _ => g c = false
  end.
Proof.
  induction s as [|c s IH]; [exact I|].
  cbn [Py.lstrip]. destruct (g c) eqn:E; [exact IH|exact E].
Qed.

(** What [lstrip] leaves ends as [s] does. *)
Lemma lstrip_last (g : ascii -> bool) (s : string) :
  match Py.lstrip g s, s with
  | String c r, String c0 r0 => last_char c r = last_char c0 r0
  | String _ _, EmptyString => False
  | EmptyString, _ => True
  end.
Proof.
  induction s as [|c0 r0 IH]; [exact I|].
  cbn [Py.lstrip]. destruct (g c0); [|reflexivity].
  destruct (Py.lstrip g r0) as [|c r]; [exact I|].
  destruct r0 as [|c1 r1]; [contradiction|]. exact IH.
Qed.

(** What [rstrip] leaves does not end with a stripped character, and
    begins as [s] does. *)
Lemma rstrip_ends (g : ascii -> bool) (s : string) :
  match Py.rstrip g s, s with
  | String c r, String c0 _ => g (last_char c r) = false /\ c = c0
  | String _ _, EmptyString => False
  | EmptyString, _ => True
  end.
Proof.
  induction s as [|c0 r0 IH]; [exact I|].
  cbn [Py.rstrip]. destruct (Py.rstrip g r0) as [|c' r'].
  - destruct (g c0) eqn:E; [exact I|]. cbn. auto.
  - destruct r0 as [|c1 r1]; [contradiction|].
    cbn [last_char]. split; [apply IH|reflexivity].
Qed.

Lemma lstrip_fix (g : ascii -> bool) (s : string) :
  match s with EmptyString => True | String c _ => g c = false end ->
  Py.lstrip g s = s.
Proof. destruct s as [|c s]; [reflexivity|]. cbn. intros ->. reflexivity. Qed.

Lemma rstrip_fix (g : ascii -> bool) (s : string) :
  match s with EmptyString => True | String c r => g (last_char c r) = false end ->
  Py.rstrip g s = s.
Proof.
  induction s as [|c s IH]; [reflexivity|].
  intros H. cbn [Py.rstrip]. destruct s as [|c' s'].
  - cbn in *. rewrite H. reflexivity.
  - cbn [last_char] in H. rewrite (IH H). reflexivity.
Qed.

(** Stripping both ends leaves clean ends. *)
Lemma strip_clean (g : ascii -> bool) (s : string) :
  clean_ends g (Py.lstrip g (Py.rstrip g s)) = true.
Proof.
  pose proof (lstrip_head g (Py.rstrip g s)) as Hh.
  pose proof (lstrip_last g (Py.rstrip g s)) as Hl.
  pose proof (rstrip_ends g s) as Hr.
  destruct (Py.lstrip g (Py.rstrip g s)) as [|c r]; [reflexivity|].
  destruct (Py.rstrip g s) as [|c1 r1]; [contradiction|].
  destruct s as [|c0 r0]; [contradiction|].
  cbn [clean_ends]. rewrite Hh, Hl, (proj1 Hr). reflexivity.
Qed.

(** A string with clean ends is left as it is. *)
Lemma strip_fix (g : ascii -> bool) (s : string) :
  clean_ends g s = true -> Py.lstrip g (Py.rstrip g s) = s.
Proof.
  intros H. destruct s as [|c r]; [reflexivity|].
  cbn [clean_ends] in H. apply andb_prop in H. destruct H as [Hh Hl].
  apply negb_true_iff in Hh. apply negb_true_iff in Hl.
  rewrite (@rstrip_fix g (String c r) Hl). apply lstrip_fix. exact Hh.
Qed.

Lemma strip_fix_iff (g : ascii -> bool) (s : string) :
  Py.lstrip g (Py.rstrip g s) = s <-> clean_ends g s = true.
Proof.
  split; [|apply strip_fix].
  intros H. rewrite <- H. apply strip_clean.
Qed.

(** ** The sanitisers *)

Lemma length_sub_unsafe (s : string) :
  String.length (Re.sub_unsafe s) = String.length s.
Proof. induction s as [|c s IH]; [reflexivity|]. cbn. rewrite IH. reflexivity. Qed.

Lemma length_sub_spaces_from (b : bool) (s : string) :
  (String.length (Re.sub_spaces_from b s) <= String.length s)%nat.
Proof.
  revert b. induction s as [|c s IH]; intros b; [apply Nat.le_refl|].
  cbn [Re.sub_spaces_from]. destruct (Py.isspace c).
  - destruct b; cbn [String.length]; [specialize (IH true)|specialize (IH true)]; lia.
  - cbn [String.length]. specialize (IH false). lia.
Qed.

Lemma sub_unsafe_safe (s : string) :
  Py.all_chars (fun c => negb (Re.is_unsafe c)) (Re.sub_unsafe s) = true.
Proof.
  induction s as [|c s IH]; [reflexivity|].
  cbn [Re.sub_unsafe Py.all_chars]. rewrite IH, andb_true_r.
  destruct (Re.is_unsafe c) eqn:E; [reflexivity|]. rewrite E. reflexivity.
Qed.

Lemma sub_spaces_from_safe (b : bool) (s : string) :
  Py.all_chars (fun c => negb (Re.is_unsafe c)) s = true ->
  Py.all_chars filename_safe (Re.sub_spaces_from b s) = true.
Proof.
  revert b. induction s as [|c s IH]; intros b H; [reflexivity|].
  cbn [Py.all_chars] in H. apply andb_prop in H. destruct H as [Hc Hs].
  cbn [Re.sub_spaces_from]. destruct (Py.isspace c) eqn:E.
  - destruct b; [apply IH; exact Hs|].
    cbn [Py.all_chars]. rewrite (IH true Hs). reflexivity.
  - cbn [Py.all_chars]. rewrite (IH false Hs), andb_true_r.
    unfold filename_safe. rewrite Hc, E. reflexivity.
Qed.

Lemma sanitised_safe (text : string) :
  Py.all_chars filename_safe (Re.sub_spaces (Re.sub_unsafe text)) = true.
Proof. apply sub_spaces_from_safe. apply sub_unsafe_safe. Qed.

Lemma length_sanitised (text : string) :
  (String.length (Re.sub_spaces (Re.sub_unsafe text)) <= String.length text)%nat.
Proof.
  unfold Re.sub_spaces.
  pose proof (length_sub_spaces_from false (Re.sub_unsafe text)) as H.
  rewrite length_sub_unsafe in H. exact H.
Qed.

(** X19. [SmartDownloadManager._safe_filename] returns at most 50
    characters, never more than the text has, none of them whitespace and
    none of them one of the nine replaced characters: in particular no
    slash and no backslash. *)
Theorem smart_safe_filename_is_one_short_component (text : string) :
  Py.all_chars filename_safe (SmartDownloadManager._safe_filename text) = true
  /\ (String.length (SmartDownloadManager._safe_filename text)
      <= Nat.min 50 (String.length text))%nat.
Proof.
  unfold SmartDownloadManager._safe_filename. split.
  - apply all_chars_slice_to. apply sanitised_safe.
  - rewrite length_str_slice_to by lia.
    pose proof (length_sanitised text). change (Z.to_nat 50) with 50%nat. lia.
Qed.

(** X20. The two [_safe_filename] methods differ.  On a text of at most
    50 characters (the callers pass [title[:30]]) the one of
    [MaterialAnalysisWorkflow], used by [_download_pdfs] to look a file
    up again, is the one of [SmartDownloadManager], used to store it,
    with leading and trailing dots and underscores removed.  So the two
    names agree exactly when the stored name neither begins nor ends with
    a dot or an underscore. *)
Theorem main_safe_filename_strips_the_stored_name (text : string) :
  (String.length text <= 50)%nat ->
  Main._safe_filename text
  = Py.strip_chars ["."; "_"]%char (SmartDownloadManager._safe_filename text)
  /\ (Main._safe_filename text = SmartDownloadManager._safe_filename text
      <-> clean_ends dot_or_underscore (SmartDownloadManager._safe_filename text) = true).
Proof.
  intros Hlen.
  assert (Hsmart : SmartDownloadManager._safe_filename text
                   = Re.sub_spaces (Re.sub_unsafe text)).
  { unfold SmartDownloadManager._safe_filename. apply str_slice_to_all.
    pose proof (length_sanitised text). lia. }
  rewrite Hsmart. unfold Main._safe_filename, Py.strip_chars.
  split; [reflexivity|]. apply (strip_fix_iff dot_or_underscore).
Qed.

(** X21. [utils.safe_filename] never returns the empty string, never a
    name that begins with a dot or an underscore, and never a name with
    whitespace or one of the nine replaced characters in it, whatever
    [max_length] is. *)
Theorem safe_filename_never_empty_or_hidden (text : string) (max_length : Z) :
  Py.all_chars filename_safe (Utils.safe_filename text max_length) = true
  /\ match Utils.safe_filename text max_length with
     | EmptyString => False
     | String c _ => dot_or_underscore c = false
     end.
Proof.
  unfold Utils.safe_filename.
  set (stripped := Py.strip_chars ["."; "_"]%char (Re.sub_spaces (Re.sub_unsafe text))).
  assert (Hsafe : Py.all_chars filename_safe stripped = true).
  { unfold stripped, Py.strip_chars. apply all_chars_lstrip, all_chars_rstrip.
    apply sanitised_safe. }
  assert (Hhead : match stripped with
                  | EmptyString => True
                  | String c _ => dot_or_underscore c = false
                  end).
  { unfold stripped, Py.strip_chars.
    apply (lstrip_head dot_or_underscore). }
  destruct (Py.len (list_ascii_of_string stripped) >? max_length)%Z.
  - assert (Hcut : Py.all_chars filename_safe
                     (Py.rstrip_chars ["_"]%char (Py.str_slice_to stripped max_length)) = true).
    { unfold Py.rstrip_chars. apply all_chars_rstrip, all_chars_slice_to. exact Hsafe. }
    pose proof (rstrip_ends (fun c => existsb (Ascii.eqb c) ["_"]%char)
                  (Py.str_slice_to stripped max_length)) as Hr.
    unfold Py.rstrip_chars in *.
    destruct (Py.rstrip (fun c => existsb (Ascii.eqb c) ["_"]%char)
                (Py.str_slice_to stripped max_length)) as [|c r] eqn:Ecut.
    + split; reflexivity.
    + split; [exact Hcut|].
      destruct (Py.str_slice_to stripped max_length) as [|c0 r0] eqn:Eslice;
        [contradiction|].
      destruct Hr as [_ ->].
      unfold Py.str_slice_to in Eslice.
      destruct (slice_to_firstn (list_ascii_of_string stripped) max_length) as [k Hk].
      rewrite Hk in Eslice.
      destruct stripped as [|c1 r1]; [destruct k; discriminate|].
      destruct k; [discriminate|]. cbn in Eslice. injection Eslice as <- _.
      exact Hhead.
  - destruct stripped as [|c r]; [split; reflexivity|].
    split; [exact Hsafe|exact Hhead].
Qed.

(** X22. With [max_length >= 0], [utils.safe_filename] returns the
    stand-in [unnamed] or a name of at most [max_length] characters. *)
Theorem safe_filename_within_max_length (text : string) (max_length : Z) :
  (0 <= max_length)%Z ->
  Utils.safe_filename text max_length = "unnamed"%string
  \/ (Z.of_nat (String.length (Utils.safe_filename text max_length)) <= max_length)%Z.
Proof.
  intros Hmax. unfold Utils.safe_filename.
  set (stripped := Py.strip_chars ["."; "_"]%char (Re.sub_spaces (Re.sub_unsafe text))).
  destruct (Py.len (list_ascii_of_string stripped) >? max_length)%Z eqn:E.
  - unfold Py.rstrip_chars.
    pose proof (length_rstrip (fun c => existsb (Ascii.eqb c) ["_"]%char)
                  (Py.str_slice_to stripped max_length)) as Hr.
    rewrite length_str_slice_to in Hr by exact Hmax.
    destruct (Py.rstrip (fun c => existsb (Ascii.eqb c) ["_"]%char)
                (Py.str_slice_to stripped max_length)) as [|c r];
      [left; reflexivity|right]. lia.
  - destruct stripped as [|c r] eqn:Es; [left; reflexivity|right].
    rewrite Z.gtb_ltb in E. apply Z.ltb_ge in E.
    unfold Py.len in E. rewrite length_list_ascii in E. exact E.
Qed.

(** ** [validate_material_id] *)

Lemma all_chars_last (f : ascii -> bool) (c : ascii) (r : string) :
  Py.all_chars f (String c r) = true -> f (last_char c r) = true.
Proof.
  revert c. induction r as [|c' r IH]; intros c H.
  - cbn in *. rewrite andb_true_r in H. exact H.
  - cbn [last_char]. apply IH. cbn [Py.all_chars] in H.
    apply andb_prop in H. apply H.
Qed.

Lemma digit_not_space (c : ascii) : Py.isdigit_char c = true -> Py.isspace c = false.
Proof. destruct c as [[] [] [] [] [] [] [] []]; vm_compute; congruence. Qed.

Lemma strip_idem (s : string) : Py.strip (Py.strip s) = Py.strip s.
Proof. unfold Py.strip. apply strip_fix. apply strip_clean. Qed.

(** X23. What [validate_material_id] returns starts with [mp-], has no
    whitespace at either end, and is a fixed point: validating it again
    returns it unchanged. *)
Theorem validate_material_id_normalises (material_id normal : string) :
  Utils.validate_material_id material_id = Ok normal ->
  Py.startswith normal "mp-" = true
  /\ Py.strip normal = normal
  /\ Utils.validate_material_id normal = Ok normal.
Proof.
  unfold Utils.validate_material_id at 1.
  destruct (String.eqb material_id EmptyString); [discriminate|].
  destruct (Py.isdigit (Py.strip material_id)) eqn:Edig.
  - intros H. injection H as <-.
    destruct (Py.strip material_id) as [|c r] eqn:Ed; [discriminate|].
    assert (Hstrip : Py.strip ("mp-" ++ String c r) = ("mp-" ++ String c r)%string).
    { unfold Py.strip. apply strip_fix.
      cbn [append clean_ends last_char].
      unfold Py.isdigit in Edig.
      rewrite (@digit_not_space _ (@all_chars_last _ _ _ Edig)). reflexivity. }
    split; [reflexivity|]. split; [exact Hstrip|].
    unfold Utils.validate_material_id. cbn [append] in Hstrip. rewrite Hstrip. reflexivity.
  - destruct (Py.startswith (Py.strip material_id) "mp-") eqn:Emp; [|discriminate].
    intros H. injection H as <-.
    split; [exact Emp|]. split; [apply strip_idem|].
    unfold Utils.validate_material_id. rewrite strip_idem, Edig, Emp.
    destruct (Py.strip material_id); [discriminate|reflexivity].
Qed.

(** X20 on a title whose thirtieth character is a blank. *)
Lemma main_safe_filename_strips_the_stored_name_witness :
  Main._safe_filename "Growth of thin films: a study "
  = Py.strip_chars ["."; "_"]%char
      (SmartDownloadManager._safe_filename "Growth of thin films: a study ")
  /\ (Main._safe_filename "Growth of thin films: a study "
      = SmartDownloadManager._safe_filename "Growth of thin films: a study "
      <-> clean_ends dot_or_underscore
            (SmartDownloadManager._safe_filename "Growth of thin films: a study ")
          = true).
Proof.
  apply (@main_safe_filename_strips_the_stored_name "Growth of thin films: a study ").
  cbn. lia.
Defined.

(** X22 on a title cut to ten characters. *)
Lemma safe_filename_within_max_length_witness :
  Utils.safe_filename "Growth of thin films: a study " 10 = "unnamed"%string
  \/ (Z.of_nat (String.length (Utils.safe_filename "Growth of thin films: a study " 10))
      <= 10)%Z.
Proof.
  apply (@safe_filename_within_max_length "Growth of thin films: a study " 10). lia.
Defined.

(** X23 on a numeric identifier typed with blanks around it. *)
Lemma validate_material_id_normalises_witness :
  Py.startswith "mp-149" "mp-" = true
  /\ Py.strip "mp-149" = "mp-149"%string
  /\ Utils.validate_material_id "mp-149" = Ok "mp-149"%string.
Proof.
  apply (@validate_material_id_normalises " 149 " "mp-149"). reflexivity.
Defined.

(* ================================================================== *)
(** * The analysis loop *)
(* ================================================================== *)

Section AnalysisLoop.
Import MaterialAnalysisWorkflow.
Variable Analysis : Type.
Variable G : Services Analysis.

Lemma count_analyze_app (tr tr' : list Step) :
  count_analyze (tr ++ tr') = (count_analyze tr + count_analyze tr')%Z.
Proof.
  unfold count_analyze, Py.len. rewrite filter_app, length_app. lia.
Qed.

Lemma len_snoc {A} (l : list A) (a : A) : Py.len (l ++ [a]) = (Py.len l + 1)%Z.
Proof. unfold Py.len. rewrite length_app. cbn [List.length]. lia. Qed.

Lemma moved_refl (s : Desk Analysis) : moved s s 0 0 0 0 0.
Proof. unfold moved. repeat split; lia. Qed.

Lemma moved_trans (s s1 s2 : Desk Analysis) (a b c d e a' b' c' d' e' : Z) :
  moved s s1 a b c d e -> moved s1 s2 a' b' c' d' e' ->
  moved s s2 (a + a') (b + b') (c + c') (d + d') (e + e').
Proof.
  unfold moved. intros [H1 [H2 [H3 [H4 [H5 H6]]]]] [K1 [K2 [K3 [K4 [K5 K6]]]]].
  repeat split; try lia. congruence.
Qed.

Ltac conjs := repeat match goal with |- _ /\ _ => split end.

Ltac run_loop :=
  cbv [bind ret raise gets modify try_except step set_paper set_stats
       append_analysis count_failed call analyse_once];
  cbn [papers stats steps analyses failed_count fst snd].

Ltac books :=
  unfold moved; cbn [papers stats steps analyses failed_count];
  rewrite ?count_analyze_app, ?len_snoc;
  cbn [count_analysis_success count_analysis_attempt analysis_attempts analysis_success];
  repeat split; try reflexivity;
  try (unfold count_analyze, Py.len; cbn [filter List.length]; lia).

Ltac outcome tac :=
  split; [reflexivity|];
  split; [books|];
  split; [lia|]; split; [lia|];
  split; [first [lia | split; lia]|];
  tac.

(** One turn of the retry loop. *)
Lemma analyse_attempt_outcome (r : ref) (attempt : Z) (rest : list Z) (s : Desk Analysis) :
  (0 <= attempt <= 2)%Z ->
  exists (again : bool) (s1 : Desk Analysis) (successes failures : Z),
    analyse_attempts G r (attempt :: rest) s
    = (if again then analyse_attempts G r rest s1 else (Ok tt, s1))
    /\ moved s s1 0 1 (successes + failures) successes failures
    /\ (0 <= successes <= 1)%Z /\ (0 <= failures <= 1)%Z
    /\ (if again then (attempt < 2)%Z /\ failures = 0%Z
        else (1 <= successes + failures)%Z)
    /\ (saving_succeeds G ->
        if again then successes = 0%Z else (successes + failures = 1)%Z).
Proof.
  intros Hrange. cbn [analyse_attempts]. run_loop.
  destruct (analyze_pdf G (steps s ++ [Analyze r]) (papers s r)) as [a|e] eqn:Ea.
  - destruct (save_analysis_text G ((steps s ++ [Analyze r]) ++ [Save]) a)
      as [[]|e] eqn:Es.
    + eexists false, _, 1%Z, 0%Z. outcome ltac:(intros _; lia).
    + destruct ((attempt <? max_retries)%Z && Main._is_retryable_error (exn_msg e)) eqn:Eb.
      * apply andb_prop in Eb. destruct Eb as [Elt _]. apply Z.ltb_lt in Elt.
        unfold max_retries in Elt.
        assert (Hatt : attempt = 0%Z \/ attempt = 1%Z) by lia.
        destruct Hatt as [-> | ->]; cbn [Z.to_nat Pos.to_nat Pos.iter_op Nat.add
                                         nth_error retry_delays];
          run_loop;
          (eexists true, _, 1%Z, 0%Z;
           outcome ltac:(intros Hs; rewrite (Hs _ _) in Es; discriminate)).
      * eexists false, _, 1%Z, 1%Z.
        outcome ltac:(intros Hs; rewrite (Hs _ _) in Es; discriminate).
  - destruct ((attempt <? max_retries)%Z && Main._is_retryable_error (exn_msg e)) eqn:Eb.
    + apply andb_prop in Eb. destruct Eb as [Elt _]. apply Z.ltb_lt in Elt.
      unfold max_retries in Elt.
      assert (Hatt : attempt = 0%Z \/ attempt = 1%Z) by lia.
      destruct Hatt as [-> | ->]; cbn [Z.to_nat Pos.to_nat Pos.iter_op Nat.add
                                       nth_error retry_delays];
        run_loop;
        (eexists true, _, 0%Z, 0%Z; outcome ltac:(intros _; lia)).
    + eexists false, _, 0%Z, 1%Z. outcome ltac:(intros _; lia).
Qed.

(** The retry loop on one paper. *)
Lemma analyse_attempts_outcome (r : ref) (s : Desk Analysis) :
  exists (s1 : Desk Analysis) (calls successes failures : Z),
    analyse_attempts G r (Utils.range (max_retries + 1)) s = (Ok tt, s1)
    /\ moved s s1 0 calls (successes + failures) successes failures
    /\ (1 <= calls <= 3)%Z /\ (0 <= successes <= 3)%Z /\ (0 <= failures <= 1)%Z
    /\ (1 <= successes + failures)%Z
    /\ (saving_succeeds G -> (successes + failures = 1)%Z).
Proof.
  change (Utils.range (max_retries + 1)) with [0; 1; 2]%Z.
  destruct (@analyse_attempt_outcome r 0 [1; 2]%Z s ltac:(lia))
    as [again0 [s1 [u1 [f1 [Hrun1 [Hm1 [Hu1 [Hf1 [Ha1 Hs1]]]]]]]]].
  rewrite Hrun1. destruct again0.
  2:{ exists s1, 1%Z, u1, f1. split; [reflexivity|]. split; [exact Hm1|].
      conjs; try lia. exact Hs1. }
  destruct (@analyse_attempt_outcome r 1 [2]%Z s1 ltac:(lia))
    as [again1 [s2 [u2 [f2 [Hrun2 [Hm2 [Hu2 [Hf2 [Ha2 Hs2]]]]]]]]].
  rewrite Hrun2. pose proof (moved_trans Hm1 Hm2) as Hm12. destruct again1.
  2:{ exists s2, 2%Z, (u1 + u2)%Z, (f1 + f2)%Z. split; [reflexivity|].
      split; [|conjs; try lia].
      - replace (u1 + u2 + (f1 + f2))%Z with (u1 + f1 + (u2 + f2))%Z by lia.
        exact Hm12.
      - intros Hs. specialize (Hs1 Hs). specialize (Hs2 Hs). lia. }
  destruct (@analyse_attempt_outcome r 2 []%Z s2 ltac:(lia))
    as [again2 [s3 [u3 [f3 [Hrun3 [Hm3 [Hu3 [Hf3 [Ha3 Hs3]]]]]]]]].
  rewrite Hrun3. pose proof (moved_trans Hm12 Hm3) as Hm123.
  destruct again2; [lia|].
  exists s3, 3%Z, (u1 + u2 + u3)%Z, (f1 + f2 + f3)%Z. split; [reflexivity|].
  split; [|conjs; try lia].
  - replace (u1 + u2 + u3 + (f1 + f2 + f3))%Z
      with (u1 + f1 + (u2 + f2) + (u3 + f3))%Z by lia.
    exact Hm123.
  - intros Hs. specialize (Hs1 Hs). specialize (Hs2 Hs). specialize (Hs3 Hs). lia.
Qed.

Lemma analyse_papers_cons (r : ref) (rest : list ref) (s : Desk Analysis) :
  analyse_papers G (r :: rest) s
  = match analyse_attempts G r (Utils.range (max_retries + 1))
            (mkDesk (papers s) (count_analysis_attempt (stats s)) (steps s)
                    (analyses s) (failed_count s)) with
    | (Ok _, s1) =>
        analyse_papers G rest
          (mkDesk (papers s1) (stats s1) (steps s1 ++ [Pause 2])
                  (analyses s1) (failed_count s1))
    | (Exc e, s1) => (Exc e, s1)
    end.
Proof. reflexivity. Qed.

(** The loop over the papers. *)
Lemma analyse_papers_outcome (rs : list ref) :
  forall s : Desk Analysis,
  exists (s' : Desk Analysis) (calls successes failures : Z),
    analyse_papers G rs s = (Ok tt, s')
    /\ moved s s' (Py.len rs) calls (successes + failures) successes failures
    /\ (Py.len rs <= calls <= 3 * Py.len rs)%Z
    /\ (0 <= successes <= 3 * Py.len rs)%Z
    /\ (0 <= failures <= Py.len rs)%Z
    /\ (Py.len rs <= successes + failures)%Z
    /\ (saving_succeeds G -> (successes + failures = Py.len rs)%Z).
Proof.
  induction rs as [|r rest IH]; intros s.
  - exists s, 0%Z, 0%Z, 0%Z. split; [reflexivity|]. split; [apply moved_refl|].
    unfold Py.len. cbn [List.length]. conjs; lia.
  - rewrite analyse_papers_cons.
    set (s0 := mkDesk (papers s) (count_analysis_attempt (stats s)) (steps s)
                      (analyses s) (failed_count s)).
    assert (Hm0 : moved s s0 1 0 0 0 0) by (unfold s0; books; lia).
    destruct (analyse_attempts_outcome r s0)
      as [s1 [c1 [u1 [f1 [Hrun1 [Hm1 [Hc1 [Hu1 [Hf1 [Huf1 Hs1]]]]]]]]]].
    rewrite Hrun1.
    set (s2 := mkDesk (papers s1) (stats s1) (steps s1 ++ [Pause 2])
                      (analyses s1) (failed_count s1)).
    assert (Hm2 : moved s1 s2 0 0 0 0 0) by (unfold s2; books; lia).
    destruct (IH s2) as [s' [c [u [f [Hrun [Hm [Hc [Hu [Hf [Huf Hs]]]]]]]]]].
    rewrite Hrun.
    pose proof (moved_trans (moved_trans (moved_trans Hm0 Hm1) Hm2) Hm) as Hall.
    assert (Hlen : Py.len (r :: rest) = (1 + Py.len rest)%Z)
      by (unfold Py.len; cbn [List.length]; lia).
    exists s', (c1 + c)%Z, (u1 + u)%Z, (f1 + f)%Z. split; [reflexivity|].
    rewrite Hlen. split; [|conjs; try lia].
    + replace (1 + Py.len rest)%Z with (1 + 0 + 0 + Py.len rest)%Z by lia.
      replace (c1 + c)%Z with (0 + c1 + 0 + c)%Z by lia.
      replace (u1 + u + (f1 + f))%Z with (0 + (u1 + f1) + 0 + (u + f))%Z by lia.
      replace (u1 + u)%Z with (0 + u1 + 0 + u)%Z by lia.
      replace (f1 + f)%Z with (0 + f1 + 0 + f)%Z by lia.
      exact Hall.
    + intros Hsave. specialize (Hs1 Hsave). specialize (Hs Hsave). lia.
Qed.

(** X24. [_analyze_pdfs] never raises, whatever the analyser and the
    file manager do.  It counts one attempt per paper; every entry of the
    list it returns was counted either as a success or as a failure; a
    paper contributes between one and four entries, at most one failure
    and between one and three calls of [analyze_pdf]; and the four
    download counters are not touched. *)
Theorem analyze_pdfs_accounts_for_every_entry (rs : list ref) (s : Desk Analysis) :
  exists (out : list Analysis) (s' : Desk Analysis),
    _analyze_pdfs G rs s = (Ok out, s')
    /\ analyses s' = out
    /\ analysis_attempts (stats s') = (analysis_attempts (stats s) + Py.len rs)%Z
    /\ Py.len out
       = (analysis_success (stats s') - analysis_success (stats s) + failed_count s')%Z
    /\ (Py.len rs <= Py.len out <= 4 * Py.len rs)%Z
    /\ (0 <= failed_count s' <= Py.len rs)%Z
    /\ (Py.len rs <= count_analyze (steps s') - count_analyze (steps s)
        <= 3 * Py.len rs)%Z
    /\ download_counters (stats s') = download_counters (stats s).
Proof.
  unfold _analyze_pdfs. cbv [bind modify gets].
  destruct (analyse_papers_outcome rs (mkDesk (papers s) (stats s) (steps s) [] 0))
    as [s' [c [u [f [Hrun [Hm [Hc [Hu [Hf [Huf _]]]]]]]]]].
  rewrite Hrun. exists (analyses s'), s'. split; [reflexivity|].
  destruct Hm as [H1 [H2 [H3 [H4 [H5 H6]]]]].
  cbn [papers stats steps analyses failed_count] in *.
  unfold Py.len in H3 at 2. cbn [List.length] in H3.
  conjs; try lia; try reflexivity. exact H6.
Qed.

(** X25. When [save_analysis_text] never raises, [_analyze_pdfs] returns
    exactly one entry per paper, each paper being counted once, as a
    success or as a failure; so the successes counted do not exceed the
    attempts counted. *)
Theorem analyze_pdfs_one_entry_per_paper (rs : list ref) (s : Desk Analysis) :
  saving_succeeds G ->
  exists (out : list Analysis) (s' : Desk Analysis),
    _analyze_pdfs G rs s = (Ok out, s')
    /\ Py.len out = Py.len rs
    /\ (analysis_success (stats s') - analysis_success (stats s) + failed_count s'
        = Py.len rs)%Z
    /\ (analysis_success (stats s') - analysis_success (stats s)
        <= analysis_attempts (stats s') - analysis_attempts (stats s))%Z.
Proof.
  intros Hsave. unfold _analyze_pdfs. cbv [bind modify gets].
  destruct (analyse_papers_outcome rs (mkDesk (papers s) (stats s) (steps s) [] 0))
    as [s' [c [u [f [Hrun [Hm [Hc [Hu [Hf [Huf Hs]]]]]]]]]].
  rewrite Hrun. exists (analyses s'), s'. split; [reflexivity|].
  specialize (Hs Hsave).
  destruct Hm as [H1 [H2 [H3 [H4 [H5 H6]]]]].
  cbn [papers stats steps analyses failed_count] in *.
  unfold Py.len in H3 at 2. cbn [List.length] in H3.
  conjs; lia.
Qed.
Lemma set_analysis_completed_idem (v : bool) (p : Paper) :
  set_analysis_completed v (set_analysis_completed v p) = set_analysis_completed v p.
Proof. reflexivity. Qed.

(** One turn of the retry loop when the analysis raises. *)
Lemma analyse_attempt_when_analysis_raises (r : ref) (attempt : Z) (rest : list Z)
    (s : Desk Analysis) (e : exn) :
  analyze_pdf G (steps s ++ [Analyze r]) (papers s r) = Exc e ->
  analyse_attempts G r (attempt :: rest) s
  = if (attempt <? max_retries)%Z && Main._is_retryable_error (exn_msg e) then
      match nth_error retry_delays (Z.to_nat attempt) with
      | Some delay =>
          analyse_attempts G r rest
            (mkDesk (papers s) (stats s) ((steps s ++ [Analyze r]) ++ [Pause delay])
                    (analyses s) (failed_count s))
      | None =>
          (Exc IndexError,
           mkDesk (papers s) (stats s) (steps s ++ [Analyze r])
                  (analyses s) (failed_count s))
      end
    else
      (Ok tt,
       mkDesk (upd r (set_analysis_completed false) (papers s)) (stats s)
              (steps s ++ [Analyze r])
              (analyses s
               ++ [fallback_analysis G (steps s ++ [Analyze r])
                     (upd r (set_analysis_completed false) (papers s) r)
                     (attempt + 1) (exn_msg e)])
              (failed_count s + 1)).
Proof.
  intros Ha. cbn [analyse_attempts]. run_loop. rewrite Ha. cbv beta iota.
  destruct ((attempt <? max_retries)%Z && Main._is_retryable_error (exn_msg e)).
  - destruct (nth_error retry_delays (Z.to_nat attempt)); reflexivity.
  - reflexivity.
Qed.

(** One turn of the retry loop when the analysis returns and the save
    raises. *)
Lemma analyse_attempt_when_saving_raises (r : ref) (attempt : Z) (rest : list Z)
    (s : Desk Analysis) (a : Analysis) (e : exn) :
  analyze_pdf G (steps s ++ [Analyze r]) (papers s r) = Ok a ->
  save_analysis_text G ((steps s ++ [Analyze r]) ++ [Save]) a = Exc e ->
  analyse_attempts G r (attempt :: rest) s
  = if (attempt <? max_retries)%Z && Main._is_retryable_error (exn_msg e) then
      match nth_error retry_delays (Z.to_nat attempt) with
      | Some delay =>
          analyse_attempts G r rest
            (mkDesk (upd r (set_analysis_completed true) (papers s))
                    (count_analysis_success (stats s))
                    (((steps s ++ [Analyze r]) ++ [Save]) ++ [Pause delay])
                    (analyses s ++ [a]) (failed_count s))
      | None =>
          (Exc IndexError,
           mkDesk (upd r (set_analysis_completed true) (papers s))
                  (count_analysis_success (stats s))
                  ((steps s ++ [Analyze r]) ++ [Save])
                  (analyses s ++ [a]) (failed_count s))
      end
    else
      (Ok tt,
       mkDesk (upd r (set_analysis_completed false)
                 (upd r (set_analysis_completed true) (papers s)))
              (count_analysis_success (stats s))
              ((steps s ++ [Analyze r]) ++ [Save])
              ((analyses s ++ [a])
               ++ [fallback_analysis G ((steps s ++ [Analyze r]) ++ [Save])
                     (upd r (set_analysis_completed false)
                        (upd r (set_analysis_completed true) (papers s)) r)
                     (attempt + 1) (exn_msg e)])
              (failed_count s + 1)).
Proof.
  intros Ha Hs. cbn [analyse_attempts]. run_loop. rewrite Ha. cbv beta iota.
  rewrite Hs. cbv beta iota.
  destruct ((attempt <? max_retries)%Z && Main._is_retryable_error (exn_msg e)).
  - destruct (nth_error retry_delays (Z.to_nat attempt)); reflexivity.
  - reflexivity.
Qed.

(** The retry loop on one paper whose analysis raises every time. *)
Lemma analyse_attempts_when_analysis_raises (retryable : bool) (r : ref) (s : Desk Analysis) :
  analysis_always_raises G retryable ->
  exists s1 : Desk Analysis,
    analyse_attempts G r (Utils.range (max_retries + 1)) s = (Ok tt, s1)
    /\ steps s1 ++ [Pause 2] = steps s ++ steps_when_analysis_raises retryable r
    /\ stats s1 = stats s
    /\ failed_count s1 = (failed_count s + 1)%Z
    /\ Py.len (analyses s1) = (Py.len (analyses s) + 1)%Z
    /\ papers s1 = upd r (set_analysis_completed false) (papers s).
Proof.
  intros Hraise.
  change (Utils.range (max_retries + 1)) with [0; 1; 2]%Z.
  destruct (Hraise (steps s ++ [Analyze r]) (papers s r)) as [e0 [E0 R0]].
  rewrite (@analyse_attempt_when_analysis_raises r 0%Z [1; 2]%Z s e0 E0), R0.
  destruct retryable.
  - change ((0 <? max_retries)%Z && true) with true.
    change (nth_error retry_delays (Z.to_nat 0)) with (Some 10%Z). cbv beta iota.
    set (s1 := mkDesk _ _ _ _ _).
    destruct (Hraise (steps s1 ++ [Analyze r]) (papers s1 r)) as [e1 [E1 R1]].
    rewrite (@analyse_attempt_when_analysis_raises r 1%Z [2]%Z s1 e1 E1), R1.
    change ((1 <? max_retries)%Z && true) with true.
    change (nth_error retry_delays (Z.to_nat 1)) with (Some 30%Z). cbv beta iota.
    set (s2 := mkDesk _ _ _ _ _).
    destruct (Hraise (steps s2 ++ [Analyze r]) (papers s2 r)) as [e2 [E2 R2]].
    rewrite (@analyse_attempt_when_analysis_raises r 2%Z [] s2 e2 E2), R2.
    change ((2 <? max_retries)%Z && true) with false. cbv beta iota.
    eexists. split; [reflexivity|].
    cbn [papers stats steps analyses failed_count steps_when_analysis_raises s1 s2].
    rewrite len_snoc, <- !app_assoc. conjs; reflexivity.
  - rewrite andb_false_r.
    eexists. split; [reflexivity|].
    cbn [papers stats steps analyses failed_count steps_when_analysis_raises].
    rewrite len_snoc, <- !app_assoc. conjs; reflexivity.
Qed.

Lemma upd_then (r x : ref) (f : Paper -> Paper) (h : Heap) (rest : list ref) :
  (forall p, f (f p) = f p) ->
  (if mem x rest then f (upd r f h x) else upd r f h x)
  = if mem x (r :: rest) then f (h x) else h x.
Proof.
  intros Hf. unfold mem. cbn [existsb]. unfold upd.
  destruct (Nat.eqb x r); cbn [orb].
  - destruct (existsb (Nat.eqb x) rest); [apply Hf|reflexivity].
  - reflexivity.
Qed.

(** The loop over the papers when every analysis raises. *)
Lemma analyse_papers_when_analysis_raises (retryable : bool) (rs : list ref) :
  analysis_always_raises G retryable ->
  forall s : Desk Analysis,
  exists s' : Desk Analysis,
    analyse_papers G rs s = (Ok tt, s')
    /\ steps s' = steps s ++ flat_map (steps_when_analysis_raises retryable) rs
    /\ analysis_success (stats s') = analysis_success (stats s)
    /\ analysis_attempts (stats s') = (analysis_attempts (stats s) + Py.len rs)%Z
    /\ failed_count s' = (failed_count s + Py.len rs)%Z
    /\ Py.len (analyses s') = (Py.len (analyses s) + Py.len rs)%Z
    /\ (forall x, papers s' x
                  = if mem x rs then set_analysis_completed false (papers s x)
                    else papers s x).
Proof.
  intros Hraise. induction rs as [|r rest IH]; intros s.
  - exists s. split; [reflexivity|]. cbn [flat_map]. rewrite app_nil_r.
    unfold Py.len. cbn [List.length]. conjs; try lia; reflexivity.
  - rewrite analyse_papers_cons.
    destruct (@analyse_attempts_when_analysis_raises retryable r
                (mkDesk (papers s) (count_analysis_attempt (stats s)) (steps s)
                        (analyses s) (failed_count s)) Hraise)
      as [s1 [Hrun1 [Hsteps1 [Hstats1 [Hfail1 [Hlen1 Hpapers1]]]]]].
    rewrite Hrun1.
    cbn [papers stats steps analyses failed_count] in *.
    destruct (IH (mkDesk (papers s1) (stats s1) (steps s1 ++ [Pause 2])
                         (analyses s1) (failed_count s1)))
      as [s' [Hrun [Hsteps [Hsucc [Hatt [Hfail [Hlen Hpapers]]]]]]].
    rewrite Hrun. exists s'. split; [reflexivity|].
    cbn [papers stats steps analyses failed_count] in *.
    assert (Hl : Py.len (r :: rest) = (1 + Py.len rest)%Z)
      by (unfold Py.len; cbn [List.length]; lia).
    rewrite Hl. conjs.
    + rewrite Hsteps, Hsteps1. cbn [flat_map]. rewrite app_assoc. reflexivity.
    + rewrite Hsucc, Hstats1. reflexivity.
    + rewrite Hatt, Hstats1. cbn [count_analysis_attempt analysis_attempts]. lia.
    + lia.
    + lia.
    + intros x. rewrite Hpapers, Hpapers1.
      apply upd_then. intros p. reflexivity.
Qed.

(** X26. When every analysis raises an error that [_is_retryable_error]
    classifies the same way, the loop does this for each paper in turn: a
    permanent error (a 403, say) is met with one call and no retry; a
    retryable one with three calls, 10 and 30 seconds apart.  Either way
    two seconds pass before the next paper, the paper gives one fallback
    entry, is counted as failed, is not counted as a success, and ends
    with [analysis_completed] false. *)
Theorem analyze_pdfs_retries_by_error_class
    (retryable : bool) (rs : list ref) (s : Desk Analysis) :
  analysis_always_raises G retryable ->
  exists (out : list Analysis) (s' : Desk Analysis),
    _analyze_pdfs G rs s = (Ok out, s')
    /\ steps s' = steps s ++ flat_map (steps_when_analysis_raises retryable) rs
    /\ Py.len out = Py.len rs
    /\ failed_count s' = Py.len rs
    /\ analysis_success (stats s') = analysis_success (stats s)
    /\ (forall r, In r rs -> analysis_completed (papers s' r) = false).
Proof.
  intros Hraise. unfold _analyze_pdfs. cbv [bind modify gets].
  destruct (@analyse_papers_when_analysis_raises retryable rs Hraise
              (mkDesk (papers s) (stats s) (steps s) [] 0))
    as [s' [Hrun [Hsteps [Hsucc [Hatt [Hfail [Hlen Hpapers]]]]]]].
  rewrite Hrun. exists (analyses s'), s'. split; [reflexivity|].
  cbn [papers stats steps analyses failed_count] in *.
  unfold Py.len in Hlen at 2. cbn [List.length] in Hlen.
  conjs; try lia; try assumption.
  intros r Hr. rewrite Hpapers, (proj2 (mem_In r rs) Hr). reflexivity.
Qed.

(** The retry loop on one paper whose analysis returns and whose save
    raises every time. *)
Lemma analyse_attempts_when_saving_raises (retryable : bool) (r : ref) (s : Desk Analysis) :
  saving_always_raises G retryable ->
  exists s1 : Desk Analysis,
    analyse_attempts G r (Utils.range (max_retries + 1)) s = (Ok tt, s1)
    /\ steps s1 ++ [Pause 2] = steps s ++ steps_when_saving_raises retryable r
    /\ analysis_success (stats s1)
       = (analysis_success (stats s) + if retryable then 3 else 1)%Z
    /\ analysis_attempts (stats s1) = analysis_attempts (stats s)
    /\ failed_count s1 = (failed_count s + 1)%Z
    /\ Py.len (analyses s1)
       = (Py.len (analyses s) + if retryable then 4 else 2)%Z
    /\ (forall x, papers s1 x = upd r (set_analysis_completed false) (papers s) x).
Proof.
  intros [Hret Hraise].
  change (Utils.range (max_retries + 1)) with [0; 1; 2]%Z.
  assert (Hupd : forall (h : Heap) (v w : bool) x,
            upd r (set_analysis_completed v) (upd r (set_analysis_completed w) h) x
            = upd r (set_analysis_completed v) h x).
  { intros h v w x. unfold upd. destruct (Nat.eqb x r); reflexivity. }
  destruct (Hret (steps s ++ [Analyze r]) (papers s r)) as [a0 A0].
  destruct (Hraise ((steps s ++ [Analyze r]) ++ [Save]) a0) as [e0 [E0 R0]].
  rewrite (@analyse_attempt_when_saving_raises r 0%Z [1; 2]%Z s a0 e0 A0 E0), R0.
  destruct retryable.
  - change ((0 <? max_retries)%Z && true) with true.
    change (nth_error retry_delays (Z.to_nat 0)) with (Some 10%Z). cbv beta iota.
    set (s1 := mkDesk _ _ _ _ _).
    destruct (Hret (steps s1 ++ [Analyze r]) (papers s1 r)) as [a1 A1].
    destruct (Hraise ((steps s1 ++ [Analyze r]) ++ [Save]) a1) as [e1 [E1 R1]].
    rewrite (@analyse_attempt_when_saving_raises r 1%Z [2]%Z s1 a1 e1 A1 E1), R1.
    change ((1 <? max_retries)%Z && true) with true.
    change (nth_error retry_delays (Z.to_nat 1)) with (Some 30%Z). cbv beta iota.
    set (s2 := mkDesk _ _ _ _ _).
    destruct (Hret (steps s2 ++ [Analyze r]) (papers s2 r)) as [a2 A2].
    destruct (Hraise ((steps s2 ++ [Analyze r]) ++ [Save]) a2) as [e2 [E2 R2]].
    rewrite (@analyse_attempt_when_saving_raises r 2%Z [] s2 a2 e2 A2 E2), R2.
    change ((2 <? max_retries)%Z && true) with false. cbv beta iota.
    eexists. split; [reflexivity|].
    cbn [papers stats steps analyses failed_count steps_when_saving_raises s1 s2
         count_analysis_success analysis_success analysis_attempts].
    rewrite !len_snoc, <- !app_assoc. conjs; try reflexivity; try lia.
    intros x. rewrite !Hupd. reflexivity.
  - rewrite andb_false_r.
    eexists. split; [reflexivity|].
    cbn [papers stats steps analyses failed_count steps_when_saving_raises
         count_analysis_success analysis_success analysis_attempts].
    rewrite !len_snoc, <- !app_assoc. conjs; try reflexivity; try lia.
    intros x. rewrite !Hupd. reflexivity.
Qed.

(** The loop over the papers when every save raises. *)
Lemma analyse_papers_when_saving_raises (retryable : bool) (rs : list ref) :
  saving_always_raises G retryable ->
  forall s : Desk Analysis,
  exists s' : Desk Analysis,
    analyse_papers G rs s = (Ok tt, s')
    /\ steps s' = steps s ++ flat_map (steps_when_saving_raises retryable) rs
    /\ analysis_success (stats s')
       = (analysis_success (stats s) + (if retryable then 3 else 1) * Py.len rs)%Z
    /\ analysis_attempts (stats s') = (analysis_attempts (stats s) + Py.len rs)%Z
    /\ failed_count s' = (failed_count s + Py.len rs)%Z
    /\ Py.len (analyses s')
       = (Py.len (analyses s) + (if retryable then 4 else 2) * Py.len rs)%Z
    /\ (forall x, papers s' x
                  = if mem x rs then set_analysis_completed false (papers s x)
                    else papers s x).
Proof.
  intros Hraise. induction rs as [|r rest IH]; intros s.
  - exists s. split; [reflexivity|]. cbn [flat_map]. rewrite app_nil_r.
    unfold Py.len. cbn [List.length]. conjs; try lia; reflexivity.
  - rewrite analyse_papers_cons.
    destruct (@analyse_attempts_when_saving_raises retryable r
                (mkDesk (papers s) (count_analysis_attempt (stats s)) (steps s)
                        (analyses s) (failed_count s)) Hraise)
      as [s1 [Hrun1 [Hsteps1 [Hsucc1 [Hatt1 [Hfail1 [Hlen1 Hpapers1]]]]]]].
    rewrite Hrun1.
    cbn [papers stats steps analyses failed_count] in *.
    destruct (IH (mkDesk (papers s1) (stats s1) (steps s1 ++ [Pause 2])
                         (analyses s1) (failed_count s1)))
      as [s' [Hrun [Hsteps [Hsucc [Hatt [Hfail [Hlen Hpapers]]]]]]].
    rewrite Hrun. exists s'. split; [reflexivity|].
    cbn [papers stats steps analyses failed_count] in *.
    cbn [count_analysis_attempt analysis_attempts analysis_success] in *.
    assert (Hl : Py.len (r :: rest) = (1 + Py.len rest)%Z)
      by (unfold Py.len; cbn [List.length]; lia).
    rewrite Hl. conjs.
    + rewrite Hsteps, Hsteps1. cbn [flat_map]. rewrite app_assoc. reflexivity.
    + destruct retryable; lia.
    + lia.
    + lia.
    + destruct retryable; lia.
    + intros x. rewrite Hpapers, Hpapers1.
      apply upd_then. intros p. reflexivity.
Qed.

(** X27. [analyses.append] and [stats.analysis_success += 1] come before
    [save_analysis_text] inside the [try] block.  So when every analysis
    returns and every save raises, a paper is counted as a success and as
    a failure: with a permanent error it gives two entries and one
    success; with a retryable one it is analysed three times and gives
    four entries and three successes, against one attempt counted, and
    ends with [analysis_completed] false. *)
Theorem analyze_pdfs_counts_again_when_saving_fails
    (retryable : bool) (rs : list ref) (s : Desk Analysis) :
  saving_always_raises G retryable ->
  exists (out : list Analysis) (s' : Desk Analysis),
    _analyze_pdfs G rs s = (Ok out, s')
    /\ steps s' = steps s ++ flat_map (steps_when_saving_raises retryable) rs
    /\ Py.len out = ((if retryable then 4 else 2) * Py.len rs)%Z
    /\ analysis_success (stats s')
       = (analysis_success (stats s) + (if retryable then 3 else 1) * Py.len rs)%Z
    /\ analysis_attempts (stats s') = (analysis_attempts (stats s) + Py.len rs)%Z
    /\ failed_count s' = Py.len rs
    /\ (forall r, In r rs -> analysis_completed (papers s' r) = false).
Proof.
  intros Hraise. unfold _analyze_pdfs. cbv [bind modify gets].
  destruct (@analyse_papers_when_saving_raises retryable rs Hraise
              (mkDesk (papers s) (stats s) (steps s) [] 0))
    as [s' [Hrun [Hsteps [Hsucc [Hatt [Hfail [Hlen Hpapers]]]]]]].
  rewrite Hrun. exists (analyses s'), s'. split; [reflexivity|].
  cbn [papers stats steps analyses failed_count] in *.
  unfold Py.len in Hlen at 2. cbn [List.length] in Hlen.
  conjs; try lia; try assumption.
  intros r Hr. rewrite Hpapers, (proj2 (mem_In r rs) Hr). reflexivity.
Qed.
End AnalysisLoop.

(** X25 on the three sample papers, every analysis and save succeeding. *)
Lemma analyze_pdfs_one_entry_per_paper_witness :
  exists (out : list string) (s' : MaterialAnalysisWorkflow.Desk string),
    MaterialAnalysisWorkflow._analyze_pdfs AnalysisSamples.reader [0; 1; 2]%nat
      AnalysisSamples.desk3 = (Ok out, s')
    /\ Py.len out = Py.len [0; 1; 2]%nat
    /\ (analysis_success (MaterialAnalysisWorkflow.stats s')
        - analysis_success (MaterialAnalysisWorkflow.stats AnalysisSamples.desk3)
        + MaterialAnalysisWorkflow.failed_count s'
        = Py.len [0; 1; 2]%nat)%Z
    /\ (analysis_success (MaterialAnalysisWorkflow.stats s')
        - analysis_success (MaterialAnalysisWorkflow.stats AnalysisSamples.desk3)
        <= analysis_attempts (MaterialAnalysisWorkflow.stats s')
           - analysis_attempts (MaterialAnalysisWorkflow.stats AnalysisSamples.desk3))%Z.
Proof.
  apply (@analyze_pdfs_one_entry_per_paper string AnalysisSamples.reader
           [0; 1; 2]%nat AnalysisSamples.desk3).
  intros tr a. reflexivity.
Defined.

(** X26 on the three sample papers, every analysis refused with a 403. *)
Lemma analyze_pdfs_retries_by_error_class_witness :
  exists (out : list string) (s' : MaterialAnalysisWorkflow.Desk string),
    MaterialAnalysisWorkflow._analyze_pdfs AnalysisSamples.refused [0; 1; 2]%nat
      AnalysisSamples.desk3 = (Ok out, s')
    /\ MaterialAnalysisWorkflow.steps s'
       = MaterialAnalysisWorkflow.steps AnalysisSamples.desk3
         ++ flat_map (steps_when_analysis_raises false) [0; 1; 2]%nat
    /\ Py.len out = Py.len [0; 1; 2]%nat
    /\ MaterialAnalysisWorkflow.failed_count s' = Py.len [0; 1; 2]%nat
    /\ analysis_success (MaterialAnalysisWorkflow.stats s')
       = analysis_success (MaterialAnalysisWorkflow.stats AnalysisSamples.desk3)
    /\ (forall r, In r [0; 1; 2]%nat ->
          analysis_completed (MaterialAnalysisWorkflow.papers s' r) = false).
Proof.
  apply (@analyze_pdfs_retries_by_error_class string AnalysisSamples.refused
           false [0; 1; 2]%nat AnalysisSamples.desk3).
  intros tr p. eexists. split; reflexivity.
Defined.

(** X27 on the three sample papers, every save timing out. *)
Lemma analyze_pdfs_counts_again_when_saving_fails_witness :
  exists (out : list string) (s' : MaterialAnalysisWorkflow.Desk string),
    MaterialAnalysisWorkflow._analyze_pdfs AnalysisSamples.full_disk [0; 1; 2]%nat
      AnalysisSamples.desk3 = (Ok out, s')
    /\ MaterialAnalysisWorkflow.steps s'
       = MaterialAnalysisWorkflow.steps AnalysisSamples.desk3
         ++ flat_map (steps_when_saving_raises true) [0; 1; 2]%nat
    /\ Py.len out = ((if true then 4 else 2) * Py.len [0; 1; 2]%nat)%Z
    /\ analysis_success (MaterialAnalysisWorkflow.stats s')
       = (analysis_success (MaterialAnalysisWorkflow.stats AnalysisSamples.desk3)
          + (if true then 3 else 1) * Py.len [0; 1; 2]%nat)%Z
    /\ analysis_attempts (MaterialAnalysisWorkflow.stats s')
       = (analysis_attempts (MaterialAnalysisWorkflow.stats AnalysisSamples.desk3)
          + Py.len [0; 1; 2]%nat)%Z
    /\ MaterialAnalysisWorkflow.failed_count s' = Py.len [0; 1; 2]%nat
    /\ (forall r, In r [0; 1; 2]%nat ->
          analysis_completed (MaterialAnalysisWorkflow.papers s' r) = false).
Proof.
  apply (@analyze_pdfs_counts_again_when_saving_fails string AnalysisSamples.full_disk
           true [0; 1; 2]%nat AnalysisSamples.desk3).
  split.
  - intros tr p. eexists. reflexivity.
  - intros tr a. eexists. split; reflexivity.
Defined.

(* ================================================================== *)
(** * The download counters of [_download_pdfs] *)
(* ================================================================== *)

Section Counters.
Import DownloadPdfs.
Variable P : Providers.
Variable inst : bool.
Variable F : Folder.

Lemma fixed_journal_type (p q : Paper) : fixed p = fixed q -> journal_type p = journal_type q.
Proof. unfold fixed. intros H. injection H. intros. assumption. Qed.

Lemma typed_elsevier_ext (h h' : Heap) (l : list ref) :
  (forall x, fixed (h' x) = fixed (h x)) ->
  filter (typed_elsevier h') l = filter (typed_elsevier h) l
  /\ filter (fun r => negb (typed_elsevier h' r)) l
     = filter (fun r => negb (typed_elsevier h r)) l.
Proof.
  intros H. split; apply filter_ext; intros r; unfold typed_elsevier;
    rewrite (fixed_journal_type (H r)); reflexivity.
Qed.

Lemma fixed_upd_pdf_filename (r x : ref) (name : string) (h : Heap) :
  fixed (upd r (set_pdf_filename name) h x) = fixed (h x).
Proof. unfold upd. destruct (Nat.eqb x r); reflexivity. Qed.

(** The counting loop: what it counts, and what it leaves alone. *)
Lemma count_and_rename_outcome :
  forall (l : list ref) (s : Shelf),
    elsevier_attempts (stats (snd (count_and_rename F l s))) = elsevier_attempts (stats s)
    /\ anna_archive_attempts (stats (snd (count_and_rename F l s)))
       = anna_archive_attempts (stats s)
    /\ (forall x, fixed (heap (world (snd (count_and_rename F l s))) x)
                  = fixed (heap (world s) x))
    /\ match fst (count_and_rename F l s) with
       | Ok _ =>
           elsevier_success (stats (snd (count_and_rename F l s)))
           = (elsevier_success (stats s)
              + Py.len (filter (typed_elsevier (heap (world s))) l))%Z
           /\ anna_archive_success (stats (snd (count_and_rename F l s)))
              = (anna_archive_success (stats s)
                 + Py.len (filter (fun r => negb (typed_elsevier (heap (world s)) r)) l))%Z
       | Exc _ => True
       end.
Proof.
  induction l as [|r rest IH]; intros s.
  - cbn. unfold Py.len. cbn. repeat split; lia.
  - cbn [count_and_rename].
    cbv [bind gets set_stats modify ret]. cbn [world stats renames fst snd].
    set (paper := heap (world s) r).
    set (s1 := mkShelf (world s) (count_download paper (stats s)) (renames s)).
    assert (Hs1 : elsevier_attempts (stats s1) = elsevier_attempts (stats s)
                  /\ anna_archive_attempts (stats s1) = anna_archive_attempts (stats s)
                  /\ elsevier_success (stats s1)
                     = (elsevier_success (stats s)
                        + if typed_elsevier (heap (world s)) r then 1 else 0)%Z
                  /\ anna_archive_success (stats s1)
                     = (anna_archive_success (stats s)
                        + if typed_elsevier (heap (world s)) r then 0 else 1)%Z).
    { unfold s1, count_download, typed_elsevier. fold paper. cbn [stats].
      destruct (journal_type paper); cbn; repeat split; lia. }
    destruct Hs1 as [Ha1 [Ha2 [Hc1 Hc2]]].
    (* the state after the renaming block, when it does not raise *)
    assert (Hstep : forall s2 : Shelf,
              stats s2 = stats s1 ->
              (forall x, fixed (heap (world s2) x) = fixed (heap (world s) x)) ->
              elsevier_attempts (stats (snd (count_and_rename F rest s2)))
              = elsevier_attempts (stats s)
              /\ anna_archive_attempts (stats (snd (count_and_rename F rest s2)))
                 = anna_archive_attempts (stats s)
              /\ (forall x, fixed (heap (world (snd (count_and_rename F rest s2))) x)
                            = fixed (heap (world s) x))
              /\ match fst (count_and_rename F rest s2) with
                 | Ok _ =>
                     elsevier_success (stats (snd (count_and_rename F rest s2)))
                     = (elsevier_success (stats s)
                        + Py.len (filter (typed_elsevier (heap (world s))) (r :: rest)))%Z
                     /\ anna_archive_success (stats (snd (count_and_rename F rest s2)))
                        = (anna_archive_success (stats s)
                           + Py.len (filter (fun r => negb (typed_elsevier (heap (world s)) r))
                                       (r :: rest)))%Z
                 | Exc _ => True
                 end).
    { intros s2 Hst Hfix.
      destruct (IH s2) as [I1 [I2 [I3 I4]]].
      destruct (typed_elsevier_ext (heap (world s)) (heap (world s2)) rest Hfix)
        as [He Hn].
      rewrite Hst in I1, I2.
      split; [congruence|]. split; [congruence|].
      split; [intros x; rewrite I3; apply Hfix|].
      destruct (fst (count_and_rename F rest s2)); [|exact I].
      destruct I4 as [J1 J2]. rewrite He in J1. rewrite Hn in J2.
      rewrite Hst in J1, J2. cbn [filter].
      destruct (typed_elsevier (heap (world s)) r); cbn [negb];
        unfold Py.len in *; cbn [List.length]; split; lia. }
    destruct (negb (String.eqb (pdf_filename paper) EmptyString)).
    2:{ apply Hstep; [reflexivity|intros x; reflexivity]. }
    destruct (path_exists F (trace (world s1)) (renames s1) (pdf_filename paper)
              && negb (same_path F (pdf_filename paper) (new_filename paper))).
    2:{ apply Hstep; [reflexivity|intros x; reflexivity]. }
    unfold rename, on_world, set_attr, modify. cbn [world stats renames fst snd].
    destruct (path_rename F (trace (world s1)) (renames s1) (pdf_filename paper)
                (new_filename paper)) as [[]|e].
    + cbv beta iota. cbn [world stats renames heap trace fst snd].
      apply Hstep; [reflexivity|].
      intros x. cbn [world heap]. apply fixed_upd_pdf_filename.
    + cbv beta iota. cbn [fst snd stats world].
      split; [exact Ha1|]. split; [exact Ha2|]. split; [intros x; reflexivity|exact I].
Qed.

Lemma ensure_target_downloads_fixed (papers : list ref) (t : Z) (w : World) (x : ref) :
  fixed (heap (snd (SmartDownloadManager.ensure_target_downloads P inst papers t w)) x)
  = fixed (heap w x).
Proof.
  destruct (SmartDownloadManager.ensure_target_downloads P inst papers t w)
    as [out w'] eqn:Hrun.
  apply ensure_target_downloads_outcome in Hrun. apply Hrun.
Qed.

Lemma download_pdfs_outcome (selected_papers : list ref) (s : Shelf) :
  elsevier_attempts (stats (snd (_download_pdfs P inst F selected_papers s)))
  = elsevier_attempts (stats s)
  /\ anna_archive_attempts (stats (snd (_download_pdfs P inst F selected_papers s)))
     = anna_archive_attempts (stats s)
  /\ match fst (_download_pdfs P inst F selected_papers s) with
     | Ok l =>
         fst (SmartDownloadManager.ensure_target_downloads P inst selected_papers
                (target_paper_count (stats s)) (world s)) = Ok l
         /\ elsevier_success (stats (snd (_download_pdfs P inst F selected_papers s)))
            = (elsevier_success (stats s)
               + Py.len (filter (typed_elsevier (heap (world s))) l))%Z
         /\ anna_archive_success (stats (snd (_download_pdfs P inst F selected_papers s)))
            = (anna_archive_success (stats s)
               + Py.len (filter (fun r => negb (typed_elsevier (heap (world s)) r)) l))%Z
     | Exc _ => True
     end.
Proof.
  unfold _download_pdfs. cbv [bind gets ret on_world]. cbn [world stats renames].
  pose proof (fun x => ensure_target_downloads_fixed selected_papers
                         (target_paper_count (stats s)) (world s) x) as Hfix.
  destruct (SmartDownloadManager.ensure_target_downloads P inst selected_papers
              (target_paper_count (stats s)) (world s)) as [[l|e] w'] eqn:Hrun.
  2:{ cbn [fst snd stats]. repeat split. }
  cbn [snd] in Hfix.
  destruct (count_and_rename_outcome l (mkShelf w' (stats s) (renames s)))
    as [H1 [H2 [H3 H4]]].
  cbn [world stats renames] in *.
  destruct (count_and_rename F l (mkShelf w' (stats s) (renames s))) as [[[]|e] s2].
  - cbn [fst snd] in *. split; [exact H1|]. split; [exact H2|].
    split; [reflexivity|].
    destruct (typed_elsevier_ext (heap (world s)) (heap w') l Hfix) as [He Hn].
    destruct H4 as [J1 J2]. rewrite He in J1. rewrite Hn in J2. split; assumption.
  - cbn [fst snd] in *. split; [exact H1|]. split; [exact H2|exact I].
Qed.

(** X28. [_download_pdfs] never counts a download attempt: the two
    attempt counters are as before, however the call ends.  When it
    returns, it returns the list [ensure_target_downloads] returned for
    the target stored in the statistics, and it has counted every paper
    of that list once, by the journal type the paper had on entry: as an
    Elsevier success when that is [ELSEVIER], as an Anna's Archive
    success otherwise. *)
Theorem download_pdfs_counts_by_journal_type (selected_papers : list ref) (s : Shelf) :
  elsevier_attempts (stats (snd (_download_pdfs P inst F selected_papers s)))
  = elsevier_attempts (stats s)
  /\ anna_archive_attempts (stats (snd (_download_pdfs P inst F selected_papers s)))
     = anna_archive_attempts (stats s)
  /\ match fst (_download_pdfs P inst F selected_papers s) with
     | Ok l =>
         fst (SmartDownloadManager.ensure_target_downloads P inst selected_papers
                (target_paper_count (stats s)) (world s)) = Ok l
         /\ elsevier_success (stats (snd (_download_pdfs P inst F selected_papers s)))
            = (elsevier_success (stats s)
               + Py.len (filter (typed_elsevier (heap (world s))) l))%Z
         /\ anna_archive_success (stats (snd (_download_pdfs P inst F selected_papers s)))
            = (anna_archive_success (stats s)
               + Py.len (filter (fun r => negb (typed_elsevier (heap (world s)) r)) l))%Z
     | Exc _ => True
     end.
Proof. apply download_pdfs_outcome. Qed.

(** X29. As [_download_pdfs] counts successes but no attempts, the
    success rate of a run stays at zero: when no attempt was counted
    before the call, [get_success_rate] is [0.0] after it, whatever was
    downloaded. *)
Theorem download_pdfs_reports_no_success_rate (selected_papers : list ref) (s : Shelf) :
  no_attempt_counted (stats s) ->
  get_success_rate (stats (snd (_download_pdfs P inst F selected_papers s))) = 0.
Proof.
  unfold no_attempt_counted. intros H.
  destruct (download_pdfs_outcome selected_papers s) as [H1 [H2 _]].
  unfold get_success_rate. rewrite H1, H2.
  replace (elsevier_attempts (stats s) + anna_archive_attempts (stats s) >? 0)%Z
    with false by (symmetry; rewrite Z.gtb_ltb; apply Z.ltb_ge; exact H).
  reflexivity.
Qed.
End Counters.

(** X29 on the three sample papers, both downloaders delivering. *)
Lemma download_pdfs_reports_no_success_rate_witness :
  get_success_rate
    (DownloadPdfs.stats
       (snd (DownloadPdfs._download_pdfs Samples.always_succeed false
               AnalysisSamples.plain_folder [0; 1; 2]%nat AnalysisSamples.shelf3)))
  = 0.
Proof.
  apply (@download_pdfs_reports_no_success_rate Samples.always_succeed false
           AnalysisSamples.plain_folder [0; 1; 2]%nat AnalysisSamples.shelf3).
  unfold no_attempt_counted. cbn. lia.
Defined.

(* ================================================================== *)
(** * A paper written to a CSV row and read back *)
(* ================================================================== *)

Section ReadingBack.
Import PaperDict.
Variable repr_float : Q -> string.
Variable parse_int : string -> res Z.
Variable parse_float : string -> res Q.

Lemma JournalType_of_value (j : JournalType) :
  JournalType_of (JournalType_value j) = Ok j.
Proof. destruct j; reflexivity. Qed.

Lemma DownloadStatus_of_value (d : DownloadStatus) :
  DownloadStatus_of (DownloadStatus_value d) = Ok d.
Proof. destruct d; reflexivity. Qed.

Lemma get_bool_written (data : string -> option string) (key : string) (b : bool) :
  data key = Some (csv_text repr_float (VBool b)) -> get_bool data key = true.
Proof. unfold get_bool. intros ->. destruct b; reflexivity. Qed.

(** X30. The flags of a paper do not survive the CSV.  [to_dict] hands
    [is_selected] and [analysis_completed] over as booleans, the CSV
    writer writes them as [True] or [False], and [from_dict] reads a
    cell through [bool], which is true of every string that is not
    empty.  So whenever [from_dict] returns a paper for a row that holds
    what was written for [p] in these columns, both flags of that paper
    are true, whatever they were in [p]; the journal type and the
    download status, written by value, are read back as they were. *)
Theorem from_dict_reads_saved_flags_as_true
    (p : Paper) (data : string -> option string) (p' : Paper) :
  (forall column,
     In column ["is_selected"; "analysis_completed"; "journal_type"; "download_status"]%string ->
     data column = written repr_float p column) ->
  from_dict parse_int parse_float data = Ok p' ->
  is_selected p' = true
  /\ analysis_completed p' = true
  /\ journal_type p' = journal_type p
  /\ download_status p' = download_status p.
Proof.
  intros Hrow Hread.
  assert (Hsel : data "is_selected"%string = Some (csv_text repr_float (VBool (is_selected p))))
    by (rewrite Hrow; [reflexivity|cbn; auto]).
  assert (Hdone : data "analysis_completed"%string
                  = Some (csv_text repr_float (VBool (analysis_completed p))))
    by (rewrite Hrow; [reflexivity|cbn; auto]).
  assert (Hjt : data "journal_type"%string = Some (JournalType_value (journal_type p)))
    by (rewrite Hrow; [reflexivity|cbn; auto]).
  assert (Hds : data "download_status"%string
                = Some (DownloadStatus_value (download_status p)))
    by (rewrite Hrow; [reflexivity|cbn; auto 6]).
  unfold from_dict in Hread.
  rewrite Hjt, Hds, JournalType_of_value, DownloadStatus_of_value in Hread.
  destruct (get_int parse_int data "year"); [|discriminate].
  destruct (get_int parse_int data "citation_count"); [|discriminate].
  destruct (get_int parse_int data "paper_index"); [|discriminate].
  destruct (get_float parse_float data "relevance_score"); [|discriminate].
  destruct (get_float parse_float data "priority_score"); [|discriminate].
  destruct (get_int parse_int data "pdf_size"); [|discriminate].
  injection Hread as <-. cbn [is_selected analysis_completed journal_type download_status].
  rewrite (get_bool_written data "is_selected" (is_selected p) Hsel).
  rewrite (get_bool_written data "analysis_completed" (analysis_completed p) Hdone).
  repeat split.
Qed.
End ReadingBack.

(** X30 on the first sample paper, which is written as not analysed and
    read back as analysed. *)
Lemma from_dict_reads_saved_flags_as_true_witness :
  is_selected AnalysisSamples.reloadedA = true
  /\ analysis_completed AnalysisSamples.reloadedA = true
  /\ journal_type AnalysisSamples.reloadedA = journal_type Samples.paperA
  /\ download_status AnalysisSamples.reloadedA = download_status Samples.paperA.
Proof.
  apply (@from_dict_reads_saved_flags_as_true AnalysisSamples.plain_repr
           AnalysisSamples.plain_int AnalysisSamples.plain_float
           Samples.paperA AnalysisSamples.rowA AnalysisSamples.reloadedA).
  - intros column _. reflexivity.
  - vm_compute. reflexivity.
Defined.
